(** * MultithreadSmartHome: rule engine, device lifecycle and hub routing

    A shallow embedding of the Python sources
      - [hub/rule_engine.py]   (Rule, RuleEngine),
      - [devices/base.py]      (Device, Actuator),
      - [.devices/actuators.py] (LightActuator, HeaterActuator, AlarmActuator),
      - [hub/smart_hub.py]     (SmartHub state store and command routing),
      - [web/app.py]           (control_actuator),
    together with the properties the specification states about them.

    Python objects that are mutated in place (rules, the hub's state
    dictionaries) live in an explicit store; exceptions are an explicit
    outcome; logging and thread creation are recorded in a trace. *)

From Stdlib Require Import QArith.
From stdpp Require Import gmap strings list sorting.

Set Warnings "-register-all".
Local Open Scope Z_scope.
Local Open Scope string_scope.

(* ===================================================================== *)
(** ** Python values *)
(* ===================================================================== *)

(** The values that flow through configuration, state snapshots and
    commands.  A float is represented by the rational it denotes: the code
    only compares floats, and comparison of finite floats is exact. *)
Inductive pyval : Type :=
| VNone
| VBool (b : bool)
| VInt (z : Z)
| VFloat (q : Q)
| VStr (s : string)
| VDict (m : gmap string pyval).

(** A Python exception: its class name and its message ([str(e)]). *)
Inductive exn : Type := Exn (cls : string) (msg : string).

Definition exn_str (e : exn) : string := match e with Exn _ m => m end.

Inductive outcome (A : Type) : Type :=
| Ok (a : A)
| Raise (e : exn).
Arguments Ok {A} a.
Arguments Raise {A} e.

Definition AttributeError (what : string) : exn :=
  Exn "AttributeError" ("'" ++ what ++ "' object has no attribute 'get'").
Definition TypeError (msg : string) : exn := Exn "TypeError" msg.

Definition type_name (v : pyval) : string :=
  match v with
  | VNone => "NoneType"
  | VBool _ => "bool"
  | VInt _ => "int"
  | VFloat _ => "float"
  | VStr _ => "str"
  | VDict _ => "dict"
  end.

(** [bool(v)]: Python truthiness. *)
Definition truthy (v : pyval) : bool :=
  match v with
  | VNone => false
  | VBool b => b
  | VInt z => negb (Z.eqb z 0)
  | VFloat q => negb (Qeq_bool q 0)
  | VStr s => negb (String.eqb s "")
  | VDict m => negb (bool_decide (m = ∅))
  end.

(** [not v] *)
Definition py_not (v : pyval) : pyval := VBool (negb (truthy v)).

(** [a and b], with [b] evaluated only when [a] is truthy. *)
Definition py_and (a : pyval) (b : outcome pyval) : outcome pyval :=
  if truthy a then b else Ok a.

(** The number a numeric value denotes ([bool] is a subtype of [int]). *)
Definition as_number (v : pyval) : option Q :=
  match v with
  | VBool b => Some (inject_Z (if b then 1 else 0))
  | VInt z => Some (inject_Z z)
  | VFloat q => Some q
  | _ => None
  end.

Definition Qlt_bool (a b : Q) : bool := negb (Qle_bool b a).

(** [a < b]: numbers compare by value, strings lexicographically, any other
    pair of types raises [TypeError]. *)
Definition py_lt (a b : pyval) : outcome pyval :=
  match as_number a, as_number b with
  | Some x, Some y => Ok (VBool (Qlt_bool x y))
  | _, _ =>
      match a, b with
      | VStr s, VStr t => Ok (VBool (String.ltb s t))
      | _, _ => Raise (TypeError ("'<' not supported between instances of '"
                          ++ type_name a ++ "' and '" ++ type_name b ++ "'"))
      end
  end.

(** [a > b] *)
Definition py_gt (a b : pyval) : outcome pyval :=
  match as_number a, as_number b with
  | Some x, Some y => Ok (VBool (Qlt_bool y x))
  | _, _ =>
      match a, b with
      | VStr s, VStr t => Ok (VBool (String.ltb t s))
      | _, _ => Raise (TypeError ("'>' not supported between instances of '"
                          ++ type_name a ++ "' and '" ++ type_name b ++ "'"))
      end
  end.

(** [a == b]: numbers by value, strings and [None] structurally,
    dictionaries key by key. *)
Fixpoint py_eq (a : pyval) : pyval -> bool :=
  match a with
  | VNone => fun b => match b with VNone => true | _ => false end
  | VBool _ | VInt _ | VFloat _ => fun b =>
      match as_number a, as_number b with
      | Some x, Some y => Qeq_bool x y
      | _, _ => false
      end
  | VStr s => fun b => match b with VStr t => String.eqb s t | _ => false end
  | VDict m => fun b =>
      match b with
      | VDict m' =>
          bool_decide (dom m = dom m') &&
          map_fold (fun k same acc =>
                      acc && match m' !! k with
                             | Some w => same w
                             | None => false
                             end)
                   true (py_eq <$> m)
      | _ => false
      end
  end.

(** [a != b] *)
Definition py_ne (a b : pyval) : bool := negb (py_eq a b).

(** [d.get(k, default)] on an arbitrary receiver: only a dict has [get]. *)
Definition py_get (d : pyval) (k : string) (dflt : pyval) : outcome pyval :=
  match d with
  | VDict m => Ok (default dflt (m !! k))
  | _ => Raise (AttributeError (type_name d))
  end.

(* ===================================================================== *)
(** ** Effects: exceptions over a mutable world *)
(* ===================================================================== *)

(** A computation reads and writes a world [W] and either returns or
    raises; what it wrote before raising stays written. *)
Definition M (W A : Type) : Type := W -> outcome A * W.

Section Monad.
Context {W : Type}.

Definition ret {A} (a : A) : M W A := fun w => (Ok a, w).

Definition bind {A B} (m : M W A) (k : A -> M W B) : M W B :=
  fun w => match m w with
           | (Ok a, w') => k a w'
           | (Raise e, w') => (Raise e, w')
           end.

Definition raise {A} (e : exn) : M W A := fun w => (Raise e, w).

(** A pure computation that may raise, run inside the world. *)
Definition lift {A} (o : outcome A) : M W A := fun w => (o, w).

Definition gets {A} (f : W -> A) : M W A := fun w => (Ok (f w), w).
Definition modify (f : W -> W) : M W unit := fun w => (Ok tt, f w).

(** [try: body except Exception as e: handler e] *)
Definition try_except {A} (body : M W A) (handler : exn -> M W A) : M W A :=
  fun w => match body w with
           | (Ok a, w') => (Ok a, w')
           | (Raise e, w') => handler e w'
           end.

(** [for x in xs: acc = body acc x] *)
Fixpoint for_each {A X} (xs : list X) (acc : A) (body : A -> X -> M W A)
  : M W A :=
  match xs with
  | [] => ret acc
  | x :: xs' => bind (body acc x) (fun acc' => for_each xs' acc' body)
  end.
End Monad.

Notation "x <- c ;; k" := (bind c (fun x => k))
  (at level 20, c at level 99, k at level 200, only parsing).
Notation "'run' c ;; k" := (bind c (fun _ => k))
  (at level 20, c at level 99, k at level 200, only parsing).

(** The same sequencing for pure computations that may raise. *)
Definition obind {A B} (o : outcome A) (k : A -> outcome B) : outcome B :=
  match o with
  | Ok a => k a
  | Raise e => Raise e
  end.
Notation "x <~ c ;; k" := (obind c (fun x => k))
  (at level 20, c at level 99, k at level 200, only parsing).

(* ===================================================================== *)
(** ** Logging *)
(* ===================================================================== *)

Inductive level : Type := DEBUG | INFO | WARNING | ERROR.

Record LogRecord : Type := Log { log_level : level; log_msg : string }.

(* ===================================================================== *)
(** ** hub/rule_engine.py *)
(* ===================================================================== *)

(** A command is a [Dict[str, Any]]. *)
Abbreviation Command := (gmap string pyval).

(** A snapshot handed to a rule is a [Dict[str, Any]]. *)
Abbreviation Snapshot := (gmap string pyval).

(** Wall-clock instants returned by [datetime.now()]. *)
Definition datetime : Type := Z.

Section RuleEngine.
(** The state type is left open: the engine itself never looks inside
    the object it passes to the rules' functions. *)
Context {S : Type}.

Record Rule : Type := mkRule {
  rule_id : string;
  name : string;
  condition_func : S -> outcome pyval;
  action_func : S -> outcome (list Command);
  priority : Z;
  last_triggered : option datetime
}.

Definition set_last_triggered (t : option datetime) (r : Rule) : Rule :=
  mkRule (rule_id r) (name r) (condition_func r) (action_func r)
         (priority r) t.

(** [Rule.__init__] *)
Definition Rule_init (rule_id name : string)
    (condition_func : S -> outcome pyval)
    (action_func : S -> outcome (list Command))
    (priority : Z) : Rule :=
  mkRule rule_id name condition_func action_func priority None.

(** The engine with the rule objects it owns, the clock and the log. *)
Record RuleEngine : Type := mkEngine {
  rules : list Rule;
  clock_reads : nat;
  engine_log : list LogRecord
}.

(** The wall clock: the instant returned by the [n]-th reading. *)
Variable wall_clock : nat -> datetime.

Definition datetime_now : M RuleEngine datetime :=
  fun w => (Ok (wall_clock (clock_reads w)),
            mkEngine (rules w) (Datatypes.S (clock_reads w)) (engine_log w)).

Definition logging (lv : level) (msg : string) : M RuleEngine unit :=
  modify (fun w => mkEngine (rules w) (clock_reads w)
                            (engine_log w ++ [Log lv msg])).

(** The rule object at position [i] of [self.rules]. *)
Definition rule_at (i : nat) : M RuleEngine Rule :=
  fun w => match rules w !! i with
           | Some r => (Ok r, w)
           | None => (Raise (Exn "IndexError" "list index out of range"), w)
           end.

(** [rule.last_triggered = t], on the rule object itself. *)
Definition assign_last_triggered (i : nat) (t : datetime) : M RuleEngine unit :=
  modify (fun w => mkEngine (alter (set_last_triggered (Some t)) i (rules w))
                            (clock_reads w) (engine_log w)).

(** [Rule.evaluate] *)
Definition Rule_evaluate (i : nat) (state : S) : M RuleEngine pyval :=
  r <- rule_at i ;;
  try_except
    (lift (condition_func r state))
    (fun e =>
       run logging ERROR ("Error evaluating rule " ++ name r ++ ": " ++ exn_str e) ;;
       ret (VBool false)).

(** [Rule.execute] *)
Definition Rule_execute (i : nat) (state : S) : M RuleEngine (list Command) :=
  r <- rule_at i ;;
  try_except
    (now <- datetime_now ;;
     run assign_last_triggered i now ;;
     lift (action_func r state))
    (fun e =>
       run logging ERROR ("Error executing rule " ++ name r ++ ": " ++ exn_str e) ;;
       ret []).

(** [list.sort(key=lambda r: r.priority)]: Python's sort is stable and
    compares keys with [<] only.  The element at the head came first, so
    it is placed before every element whose key is not smaller. *)
Fixpoint sort_insert (r : Rule) (l : list Rule) : list Rule :=
  match l with
  | [] => [r]
  | x :: l' =>
      if Z.ltb (priority x) (priority r) then x :: sort_insert r l'
      else r :: x :: l'
  end.

Fixpoint list_sort (l : list Rule) : list Rule :=
  match l with
  | [] => []
  | r :: l' => sort_insert r (list_sort l')
  end.

(** [RuleEngine.add_rule] *)
Definition add_rule (rule_id name : string)
    (condition_func : S -> outcome pyval)
    (action_func : S -> outcome (list Command))
    (priority : Z) : M RuleEngine unit :=
  let rule := Rule_init rule_id name condition_func action_func priority in
  modify (fun w => mkEngine (list_sort (rules w ++ [rule])%list)
                            (clock_reads w) (engine_log w)).

(** [RuleEngine.evaluate_rules] *)
Definition evaluate_rules (state : S) : M RuleEngine (list Command) :=
  rs <- gets rules ;;
  res <- for_each (seq 0 (length rs)) ([] : list Command, [] : list string)
           (fun '(commands, triggered_rules) i =>
              rule <- rule_at i ;;
              fired <- Rule_evaluate i state ;;
              if truthy fired then
                rule_commands <- Rule_execute i state ;;
                run logging INFO ("Rule triggered: " ++ name rule) ;;
                ret ((commands ++ rule_commands)%list,
                     (triggered_rules ++ [name rule])%list)
              else ret (commands, triggered_rules)) ;;
  let '(commands, triggered_rules) := res in
  run (match triggered_rules with
   | [] => ret tt
   | _ => logging DEBUG ("Triggered rules: " ++ String.concat ", " triggered_rules)
   end) ;;
  ret commands.
End RuleEngine.

Arguments Rule : clear implicits.
Arguments RuleEngine : clear implicits.

(** *** The built-in rule set *)

Section DefaultRules.
(** [rules_config = self.config.get('rules', {})] *)
Variable rules_config : pyval.

Definition is_not_None (v : pyval) : pyval :=
  VBool (match v with VNone => false | _ => true end).

(** [state.get(k, {})] *)
Definition state_get (state : Snapshot) (k : string) : pyval :=
  default (VDict ∅) (state !! k).

Definition temp_low_condition (state : Snapshot) : outcome pyval :=
  temp <~ py_get (state_get state "temperature") "value" VNone ;;
  heater <~ py_get (state_get state "heater") "state" (VBool false) ;;
  py_and (is_not_None temp)
    (threshold <~ py_get rules_config "temperature_threshold_low" (VFloat 18) ;;
     below <~ py_lt temp threshold ;;
     py_and below (Ok (py_not heater))).

Definition temp_low_action (state : Snapshot) : outcome (list Command) :=
  Ok [ {[ "actuator" := VStr "heater"; "action" := VStr "turn_on" ]} ].

Definition temp_high_condition (state : Snapshot) : outcome pyval :=
  temp <~ py_get (state_get state "temperature") "value" VNone ;;
  heater <~ py_get (state_get state "heater") "state" (VBool false) ;;
  py_and (is_not_None temp)
    (threshold <~ py_get rules_config "temperature_threshold_high" (VFloat 22) ;;
     above <~ py_gt temp threshold ;;
     py_and above (Ok heater)).

Definition temp_high_action (state : Snapshot) : outcome (list Command) :=
  Ok [ {[ "actuator" := VStr "heater"; "action" := VStr "turn_off" ]} ].

Definition motion_light_condition (state : Snapshot) : outcome pyval :=
  motion <~ py_get (state_get state "motion") "value" (VBool false) ;;
  light_level <~ py_get (state_get state "light") "value" VNone ;;
  lights <~ py_get (state_get state "light_actuator") "state" (VBool false) ;;
  py_and motion
    (py_and (is_not_None light_level)
       (threshold <~ py_get rules_config "light_threshold_low" (VFloat 30) ;;
        below <~ py_lt light_level threshold ;;
        py_and below (Ok (py_not lights)))).

Definition motion_light_action (state : Snapshot) : outcome (list Command) :=
  Ok [ {[ "actuator" := VStr "light"; "action" := VStr "turn_on" ]} ].

Definition no_motion_light_condition (state : Snapshot) : outcome pyval :=
  motion <~ py_get (state_get state "motion") "value" (VBool false) ;;
  lights <~ py_get (state_get state "light_actuator") "state" (VBool false) ;;
  py_and (py_not motion) (Ok lights).

Definition no_motion_light_action (state : Snapshot) : outcome (list Command) :=
  Ok [ {[ "actuator" := VStr "light"; "action" := VStr "turn_off" ]} ].

Definition security_alarm_condition (state : Snapshot) : outcome pyval :=
  motion <~ py_get (state_get state "motion") "value" (VBool false) ;;
  home_occupied <~ py_get rules_config "home_occupied" (VBool true) ;;
  alarm <~ py_get (state_get state "alarm") "state" (VBool false) ;;
  py_and motion (py_and (py_not home_occupied) (Ok (py_not alarm))).

Definition security_alarm_action (state : Snapshot) : outcome (list Command) :=
  Ok [ {[ "actuator" := VStr "alarm"; "action" := VStr "activate" ]} ].

(** [RuleEngine._initialize_rules] *)
Definition _initialize_rules : M (RuleEngine Snapshot) unit :=
  run add_rule "temp_low" "Temperature Low - Turn On Heater"
        temp_low_condition temp_low_action 1 ;;
  run add_rule "temp_high" "Temperature High - Turn Off Heater"
        temp_high_condition temp_high_action 1 ;;
  run add_rule "motion_light" "Motion + Low Light - Turn On Lights"
        motion_light_condition motion_light_action 2 ;;
  run add_rule "no_motion_light" "No Motion - Turn Off Lights"
        no_motion_light_condition no_motion_light_action 3 ;;
  add_rule "security_alarm" "Security Alert - Motion When Home Empty"
        security_alarm_condition security_alarm_action 0.
End DefaultRules.

(** [RuleEngine.__init__] *)
Definition RuleEngine_init (config : gmap string pyval) : RuleEngine Snapshot :=
  let rules_config := default (VDict ∅) (config !! "rules") in
  snd (_initialize_rules rules_config (mkEngine [] 0%nat [])).

(* ===================================================================== *)
(** ** devices/base.py and .devices/actuators.py *)
(* ===================================================================== *)

Module Devices.

(** A [threading.Thread] object: the device whose [_run] it executes. *)
Record Thread : Type := mkThread {
  target : string;
  daemon : bool
}.

(** What a device does to the outside: log records, threads it starts,
    and calls of the [_on_state_change] hook. *)
Inductive Event : Type :=
| ELog (r : LogRecord)
| EThreadStart (t : Thread)
| EStateChange (old_state new_state : pyval).

(** [Device] *)
Record Device : Type := mkDevice {
  device_id : string;
  name : string;
  enabled : bool;
  _running : bool;
  _thread : option Thread
}.

(** [Device.__init__] *)
Definition Device_init (device_id name : string) (enabled : bool) : Device :=
  mkDevice device_id name enabled false None.

Record DeviceWorld : Type := mkDW {
  self : Device;
  trace : list Event
}.

Definition logger (lv : level) (msg : string) : M DeviceWorld unit :=
  modify (fun w => mkDW (self w) (trace w ++ [ELog (Log lv msg)])%list).

Definition set_running (b : bool) : M DeviceWorld unit :=
  modify (fun w =>
    let d := self w in
    mkDW (mkDevice (device_id d) (name d) (enabled d) b (_thread d)) (trace w)).

Definition set_thread (t : Thread) : M DeviceWorld unit :=
  modify (fun w =>
    let d := self w in
    mkDW (mkDevice (device_id d) (name d) (enabled d) (_running d) (Some t))
         (trace w)).

(** [Thread.start()] *)
Definition Thread_start (t : Thread) : M DeviceWorld unit :=
  modify (fun w => mkDW (self w) (trace w ++ [EThreadStart t])%list).

(** [Device.start] *)
Definition start : M DeviceWorld unit :=
  d <- gets self ;;
  if negb (enabled d) then
    logger WARNING (name d ++ " is disabled, not starting")
  else if _running d then
    logger WARNING (name d ++ " is already running")
  else
    run set_running true ;;
    let t := mkThread (device_id d) true in
    run set_thread t ;;
    run Thread_start t ;;
    logger INFO (name d ++ " started").

(** [Device.is_running] *)
Definition is_running : M DeviceWorld bool := gets (fun w => _running (self w)).

(** [Thread.join(timeout)]: the caller waits until the loop has ended or
    the timeout has passed; nothing in the device changes. *)
Definition Thread_join (t : Thread) (timeout : Q) : M DeviceWorld unit := ret tt.

(** [Device.stop] *)
Definition stop : M DeviceWorld unit :=
  run set_running false ;;
  d <- gets self ;;
  run match _thread d with
      | Some t => Thread_join t 5
      | None => ret tt
      end ;;
  logger INFO (name d ++ " stopped").

(** The three actuator classes. *)
Inductive ActuatorClass : Type := LightActuator | HeaterActuator | AlarmActuator.

(** [Sensor] *)
Record Sensor : Type := mkSensor {
  sensor_device : Device;
  update_interval : Q;
  _current_value : pyval
}.

(** [Sensor.get_current_value] *)
Definition get_current_value (s : Sensor) : pyval := _current_value s.

(** [Actuator], with the fields its subclasses add; [command_queue] is
    the [Queue] object, by identity. *)
Record Actuator : Type := mkActuator {
  device : Device;
  cls : ActuatorClass;
  command_queue : nat;
  _state : pyval;
  target_temperature : pyval
}.

Record ActuatorWorld : Type := mkAW {
  act : Actuator;
  events : list Event
}.

Section Builtins.
(** Python's [str()] and [float()] on values; [float] raises on what
    it cannot convert. *)
Variable py_str : pyval -> string.
Variable py_float : pyval -> outcome pyval.

Definition emit (e : Event) : M ActuatorWorld unit :=
  modify (fun w => mkAW (act w) (events w ++ [e])%list).

Definition alogger (lv : level) (msg : string) : M ActuatorWorld unit :=
  emit (ELog (Log lv msg)).

(** [Actuator.get_state] *)
Definition get_state : M ActuatorWorld pyval := gets (fun w => _state (act w)).

Definition assign_state (v : pyval) : M ActuatorWorld unit :=
  modify (fun w =>
    let a := act w in
    mkAW (mkActuator (device a) (cls a) (command_queue a) v
                     (target_temperature a)) (events w)).

Definition assign_target_temperature (v : pyval) : M ActuatorWorld unit :=
  modify (fun w =>
    let a := act w in
    mkAW (mkActuator (device a) (cls a) (command_queue a) (_state a) v)
         (events w)).

Definition on_off (new_state : pyval) : string :=
  if truthy new_state then "ON" else "OFF".

(** [_on_state_change], as each subclass implements it. *)
Definition _on_state_change (old_state new_state : pyval)
  : M ActuatorWorld unit :=
  run emit (EStateChange old_state new_state) ;;
  a <- gets act ;;
  match cls a with
  | LightActuator =>
      alogger INFO ("💡 " ++ name (device a) ++ " turned " ++ on_off new_state)
  | HeaterActuator =>
      alogger INFO ("🔥 " ++ name (device a) ++ " turned " ++ on_off new_state
                    ++ " (target: " ++ py_str (target_temperature a) ++ "°C)")
  | AlarmActuator =>
      if truthy new_state
      then alogger WARNING ("🚨 " ++ name (device a) ++ " ACTIVATED!")
      else alogger INFO ("🔕 " ++ name (device a) ++ " deactivated")
  end.

(** [Actuator.set_state] *)
Definition set_state (new_state : pyval) : M ActuatorWorld unit :=
  a <- gets act ;;
  let old_state := _state a in
  run assign_state new_state ;;
  if py_ne old_state new_state then
    run alogger INFO (name (device a) ++ " state changed: "
                      ++ py_str old_state ++ " -> " ++ py_str new_state) ;;
    _on_state_change old_state new_state
  else ret tt.

(** [LightActuator._execute_command] *)
Definition LightActuator_execute_command (command : Command)
  : M ActuatorWorld unit :=
  match command !! "action" with
  | Some action =>
      if py_eq action (VStr "turn_on") then set_state (VBool true)
      else if py_eq action (VStr "turn_off") then set_state (VBool false)
      else if py_eq action (VStr "toggle") then
        current <- get_state ;;
        set_state (py_not current)
      else ret tt
  | None =>
      match command !! "state" with
      | Some s => set_state (VBool (truthy s))
      | None => ret tt
      end
  end.

(** [HeaterActuator._execute_command] *)
Definition HeaterActuator_execute_command (command : Command)
  : M ActuatorWorld unit :=
  run match command !! "action" with
      | Some action =>
          if py_eq action (VStr "turn_on") then set_state (VBool true)
          else if py_eq action (VStr "turn_off") then set_state (VBool false)
          else if py_eq action (VStr "toggle") then
            current <- get_state ;;
            set_state (py_not current)
          else ret tt
      | None =>
          match command !! "state" with
          | Some s => set_state (VBool (truthy s))
          | None => ret tt
          end
      end ;;
  match command !! "target_temperature" with
  | Some t =>
      f <- lift (py_float t) ;;
      assign_target_temperature f
  | None => ret tt
  end.

(** [AlarmActuator._execute_command] *)
Definition AlarmActuator_execute_command (command : Command)
  : M ActuatorWorld unit :=
  match command !! "action" with
  | Some action =>
      if py_eq action (VStr "activate") then set_state (VBool true)
      else if py_eq action (VStr "deactivate") then set_state (VBool false)
      else if py_eq action (VStr "toggle") then
        current <- get_state ;;
        set_state (py_not current)
      else ret tt
  | None =>
      match command !! "state" with
      | Some s => set_state (VBool (truthy s))
      | None => ret tt
      end
  end.

(** [self._execute_command(command)], dispatched on the class. *)
Definition _execute_command (command : Command) : M ActuatorWorld unit :=
  a <- gets act ;;
  match cls a with
  | LightActuator => LightActuator_execute_command command
  | HeaterActuator => HeaterActuator_execute_command command
  | AlarmActuator => AlarmActuator_execute_command command
  end.

(** The calls of [_on_state_change] recorded in a trace. *)
Definition notifications (tr : list Event) : list (pyval * pyval) :=
  omap (fun e => match e with
                 | EStateChange o n => Some (o, n)
                 | _ => None
                 end) tr.
End Builtins.
End Devices.

(* ===================================================================== *)
(** ** hub/smart_hub.py *)
(* ===================================================================== *)

Module Hub.
Import Devices.

(** The dictionaries of the aggregate state are objects: an entry holds
    either a plain value or a reference to another dictionary object. *)
Definition loc : Type := nat.

Inductive hval : Type :=
| HVal (v : pyval)
| HRef (l : loc).

Abbreviation Heap := (gmap loc (gmap string hval)).

(** What a rule function is handed: a dictionary object and the store
    it points into. *)
Definition StateRef : Type := Heap * loc.

(** [SmartHub] *)
Record SmartHub : Type := mkHub {
  heap : Heap;
  state : loc;
  sensors : list (string * Sensor);
  actuators : list (string * Actuator);
  queues : gmap nat (list Command);
  actuator_command_queues : gmap string nat;
  rule_engine : RuleEngine StateRef
}.

Definition with_heap (h : Heap) (w : SmartHub) : SmartHub :=
  mkHub h (state w) (sensors w) (actuators w) (queues w)
        (actuator_command_queues w) (rule_engine w).

Definition with_queues (q : gmap nat (list Command)) (w : SmartHub) : SmartHub :=
  mkHub (heap w) (state w) (sensors w) (actuators w) q
        (actuator_command_queues w) (rule_engine w).

Definition with_rule_engine (e : RuleEngine StateRef) (w : SmartHub) : SmartHub :=
  mkHub (heap w) (state w) (sensors w) (actuators w) (queues w)
        (actuator_command_queues w) e.

(** *** Dictionary objects *)

(** [{...}]: a new dictionary object. *)
Definition new_dict (d : gmap string hval) : M SmartHub loc :=
  fun w => let l := fresh (dom (heap w)) in
           (Ok l, with_heap (<[l := d]> (heap w)) w).

Definition the_dict (l : loc) : M SmartHub (gmap string hval) :=
  fun w => match heap w !! l with
           | Some d => (Ok d, w)
           | None => (Raise (Exn "ReferenceError" "no such object"), w)
           end.

(** The dictionary an entry refers to; a plain value is no dictionary. *)
Definition as_dict (v : hval) : M SmartHub loc :=
  match v with
  | HRef l => ret l
  | HVal v => raise (TypeError ("'" ++ type_name v ++ "' object is not a dict"))
  end.

(** [k in d] *)
Definition dict_contains (l : loc) (k : string) : M SmartHub bool :=
  d <- the_dict l ;;
  ret (bool_decide (is_Some (d !! k))).

(** [d[k]] *)
Definition dict_getitem (l : loc) (k : string) : M SmartHub hval :=
  d <- the_dict l ;;
  match d !! k with
  | Some v => ret v
  | None => raise (Exn "KeyError" k)
  end.

(** [d[k] = v], in place. *)
Definition dict_setitem (l : loc) (k : string) (v : hval) : M SmartHub unit :=
  d <- the_dict l ;;
  modify (fun w => with_heap (<[l := <[k := v]> d]> (heap w)) w).

(** [d.get(k, {})]: the default dictionary is built before the call. *)
Definition dict_get_or_empty (l : loc) (k : string) : M SmartHub hval :=
  dflt <- new_dict ∅ ;;
  d <- the_dict l ;;
  ret (default (HRef dflt) (d !! k)).

(** [d.copy()]: a new dictionary object with the same entries. *)
Definition dict_copy (l : loc) : M SmartHub loc :=
  d <- the_dict l ;;
  new_dict d.

(** *** The controller's steps *)

(** [SmartHub._update_state] *)
Definition _update_state : M SmartHub unit :=
  st <- gets state ;;
  ss <- gets sensors ;;
  run for_each ss tt (fun _ '(sensor_type, sensor) =>
        has_sensors <- dict_contains st "sensors" ;;
        run (if negb has_sensors then
               e <- new_dict ∅ ;; dict_setitem st "sensors" (HRef e)
             else ret tt) ;;
        sv <- dict_getitem st "sensors" ;;
        sd <- as_dict sv ;;
        has_type <- dict_contains sd sensor_type ;;
        run (if negb has_type then
               e <- new_dict ∅ ;; dict_setitem sd sensor_type (HRef e)
             else ret tt) ;;
        sv' <- dict_getitem st "sensors" ;;
        sd' <- as_dict sv' ;;
        ev <- dict_getitem sd' sensor_type ;;
        ed <- as_dict ev ;;
        dict_setitem ed "value" (HVal (get_current_value sensor))) ;;
  acts <- new_dict ∅ ;;
  run dict_setitem st "actuators" (HRef acts) ;;
  actuators <- gets actuators ;;
  run for_each actuators tt (fun _ '(actuator_type, actuator) =>
        entry <- new_dict {[ "state" := HVal (_state actuator);
                             "device_id" := HVal (VStr (device_id (device actuator)));
                             "name" := HVal (VStr (name (device actuator))) ]} ;;
        av <- dict_getitem st "actuators" ;;
        ad <- as_dict av ;;
        dict_setitem ad actuator_type (HRef entry)) ;;
  let alias (key group member : string) : M SmartHub unit :=
    g <- dict_get_or_empty st group ;;
    gd <- as_dict g ;;
    v <- dict_get_or_empty gd member ;;
    dict_setitem st key v in
  run alias "temperature" "sensors" "temperature" ;;
  run alias "light" "sensors" "light" ;;
  run alias "motion" "sensors" "motion" ;;
  run alias "heater" "actuators" "heater" ;;
  run alias "light_actuator" "actuators" "light" ;;
  alias "alarm" "actuators" "alarm".

(** [SmartHub.get_state] *)
Definition get_state : M SmartHub loc :=
  st <- gets state ;;
  dict_copy st.

(** A computation of the rule engine, run on the hub's engine. *)
Definition on_rule_engine {A} (m : M (RuleEngine StateRef) A) : M SmartHub A :=
  fun w => let '(r, e) := m (rule_engine w) in (r, with_rule_engine e w).

(** [name in self.actuator_command_queues]: the key is hashed first, and
    a dict is unhashable; only a string can equal a registered name. *)
Definition registered (actuator_name : pyval) : M SmartHub (option nat) :=
  match actuator_name with
  | VDict _ => raise (TypeError "unhashable type: 'dict'")
  | VStr n => gets (fun w => actuator_command_queues w !! n)
  | _ => ret None
  end.

(** [queue.put(command)] *)
Definition Queue_put (q : nat) (command : Command) : M SmartHub unit :=
  modify (fun w =>
    with_queues (<[q := (default [] (queues w !! q) ++ [command])%list]> (queues w)) w).

Section Clock.
Variable wall_clock : nat -> datetime.

(** [SmartHub._evaluate_and_execute_rules] *)
Definition _evaluate_and_execute_rules : M SmartHub unit :=
  st <- gets state ;;
  state_copy <- dict_copy st ;;
  h <- gets heap ;;
  commands <- on_rule_engine (evaluate_rules wall_clock (h, state_copy)) ;;
  for_each commands tt (fun _ command =>
    let actuator_name := default VNone (command !! "actuator") in
    q <- registered actuator_name ;;
    match q with
    | Some q => Queue_put q command
    | None => ret tt
    end).
End Clock.

(** The value found in the store by following [path] from object [l]. *)
Fixpoint read_path (h : Heap) (l : loc) (path : list string) : option hval :=
  match path with
  | [] => Some (HRef l)
  | k :: rest =>
      d ← h !! l;
      v ← d !! k;
      match rest, v with
      | [], _ => Some v
      | _, HRef l' => read_path h l' rest
      | _, HVal _ => None
      end
  end.
End Hub.

(* ===================================================================== *)
(** ** web/app.py *)
(* ===================================================================== *)

Module Web.
Import Hub.

(** A Flask response: status code and JSON body. *)
Record Response : Type := mkResponse {
  status : Z;
  body : gmap string pyval
}.

Definition jsonify (b : gmap string pyval) : Response := mkResponse 200 b.

(** [control_actuator], the handler of [POST /api/actuator/<name>];
    [json] is what [request.get_json()] yields. *)
Definition control_actuator (actuator_name : string) (json : outcome pyval)
  : M SmartHub Response :=
  try_except
    (j <- lift json ;;
     let data := if truthy j then j else VDict ∅ in
     action <- lift (py_get data "action" (VStr "toggle")) ;;
     q <- gets (fun w => actuator_command_queues w !! actuator_name) ;;
     match q with
     | None =>
         ret (mkResponse 404
                {[ "error" := VStr ("Actuator " ++ actuator_name ++ " not found") ]})
     | Some q =>
         let command : Command :=
           {[ "actuator" := VStr actuator_name; "action" := action ]} in
         run Queue_put q command ;;
         ret (jsonify {[ "success" := VBool true;
                         "message" := VStr ("Command sent to " ++ actuator_name) ]})
     end)
    (fun e => ret (mkResponse 500 {[ "error" := VStr (exn_str e) ]})).
End Web.

(* ===================================================================== *)
(** ** devices/base.py: one turn of the sensor and actuator loops *)
(* ===================================================================== *)

Module Loops.
Import Devices.

(** What a loop does besides changing its device: the device's own events
    and the pauses it takes. *)
Inductive LoopEvent : Type :=
| LDevice (e : Event)
| LSleep (seconds : Q).

(** A reading on the shared channel is a [Dict[str, Any]]. *)
Abbreviation Reading := (gmap string pyval).

(** A sensor with the channel it publishes to and the system clock. *)
Record SensorWorld : Type := mkSW {
  sensor : Sensor;
  data_queue : list Reading;
  time_reads : nat;
  happened : list LoopEvent
}.

Section SensorLoop.
(** [time.time()]: the instant returned by the [n]-th reading. *)
Variable time_at : nat -> Q.
(** [self._read_sensor()], the sampling of the subclass. *)
Variable _read_sensor : Sensor -> outcome pyval.

Definition time_time : M SensorWorld Q :=
  fun w => (Ok (time_at (time_reads w)),
            mkSW (sensor w) (data_queue w) (Datatypes.S (time_reads w)) (happened w)).

Definition record (e : LoopEvent) : M SensorWorld unit :=
  modify (fun w => mkSW (sensor w) (data_queue w) (time_reads w)
                        (happened w ++ [e])%list).

(** [time.sleep(seconds)]: a negative length is refused. *)
Definition time_sleep (seconds : Q) : M SensorWorld unit :=
  if Qlt_bool seconds 0
  then raise (Exn "ValueError" "sleep length must be non-negative")
  else record (LSleep seconds).

Definition assign_current_value (v : pyval) : M SensorWorld unit :=
  modify (fun w =>
    let s := sensor w in
    mkSW (mkSensor (sensor_device s) (update_interval s) v)
         (data_queue w) (time_reads w) (happened w)).

(** [Queue.put] *)
Definition put (data : Reading) : M SensorWorld unit :=
  modify (fun w => mkSW (sensor w) (data_queue w ++ [data])%list
                        (time_reads w) (happened w)).

(** [Sensor._send_data]; a [Queue] object is always truthy. *)
Definition _send_data (data : Reading) : M SensorWorld unit :=
  s <- gets sensor ;;
  let data := <["sensor_id" := VStr (device_id (sensor_device s))]> data in
  let data := <["sensor_name" := VStr (name (sensor_device s))]> data in
  now <- time_time ;;
  let data := <["timestamp" := VFloat now]> data in
  put data.

(** The body of the [while] loop of [Sensor._run]. *)
Definition Sensor_run_body : M SensorWorld unit :=
  s <- gets sensor ;;
  try_except
    (value <- lift (_read_sensor s) ;;
     run assign_current_value value ;;
     run _send_data {[ "value" := value ]} ;;
     time_sleep (update_interval s))
    (fun e =>
       run record (LDevice (ELog (Log ERROR
             ("Error in " ++ name (sensor_device s) ++ ": " ++ exn_str e)))) ;;
       time_sleep (update_interval s)).
End SensorLoop.

(** An actuator with the contents of its command queue. *)
Record ActuatorLoop : Type := mkAL {
  actuator : ActuatorWorld;
  queue : list Command;
  pauses : list Q
}.

Section ActuatorLoop.
Variable py_str : pyval -> string.
Variable py_float : pyval -> outcome pyval.

(** A computation of the actuator itself, run inside its loop. *)
Definition on_actuator {A} (m : M ActuatorWorld A) : M ActuatorLoop A :=
  fun w => let '(r, a) := m (actuator w) in (r, mkAL a (queue w) (pauses w)).

Definition pause (seconds : Q) : M ActuatorLoop unit :=
  modify (fun w => mkAL (actuator w) (queue w) (pauses w ++ [seconds])%list).

Definition assign_queue (q : list Command) : M ActuatorLoop unit :=
  modify (fun w => mkAL (actuator w) q (pauses w)).

(** The body of the [while] loop of [Actuator._run]. *)
Definition Actuator_run_body : M ActuatorLoop unit :=
  try_except
    (q <- gets queue ;;
     match q with
     | command :: rest =>
         run assign_queue rest ;;
         on_actuator (_execute_command py_str py_float command)
     | [] => pause (1 # 10)
     end)
    (fun e =>
       a <- gets (fun w => act (actuator w)) ;;
       run (if _running (device a)
            then on_actuator (alogger ERROR
                   ("Error in " ++ name (device a) ++ ": " ++ exn_str e))
            else ret tt) ;;
       pause (1 # 10)).
End ActuatorLoop.
End Loops.

(* ===================================================================== *)
(** ** devices/sensors.py *)
(* ===================================================================== *)

(** [max(a, b)] and [min(a, b)] on numbers: the first argument is
    returned unless the second is strictly greater (smaller). *)
Definition py_max (a b : Q) : Q := if Qlt_bool a b then b else a.
Definition py_min (a b : Q) : Q := if Qlt_bool b a then b else a.

(** The floats nearest to 0.1 and 0.05. *)
Definition float_0_1 : Q := 3602879701896397 # 36028797018963968.
Definition float_0_05 : Q := 3602879701896397 # 72057594037927936.

Module TemperatureSensor.
Record t : Type := mk {
  base : Devices.Sensor;
  current_temp : Q;
  min_value : Q;
  max_value : Q;
  variation_range : Q
}.

Section Floats.
(** Float addition and subtraction, and [round(x, 2)]. *)
Variables fadd fsub : Q -> Q -> Q.
Variable round2 : Q -> Q.

Definition assign_current_temp (x : Q) (s : t) : t :=
  mk (base s) x (min_value s) (max_value s) (variation_range s).

(** [TemperatureSensor._read_sensor]; [change] is what
    [random.uniform(-variation_range, variation_range)] returns. *)
Definition _read_sensor (change : Q) (s : t) : Q * t :=
  let s := assign_current_temp
             (py_max (min_value s)
                     (py_min (max_value s) (fadd (current_temp s) change))) s in
  (round2 (current_temp s), s).

(** [TemperatureSensor.simulate_heating_effect] *)
Definition simulate_heating_effect (heater_on : pyval) (s : t) : t :=
  if truthy heater_on then
    assign_current_temp (py_min (max_value s) (fadd (current_temp s) float_0_1)) s
  else
    assign_current_temp (py_max (min_value s) (fsub (current_temp s) float_0_05)) s.
End Floats.
End TemperatureSensor.

Module LightSensor.
Record t : Type := mk {
  base : Devices.Sensor;
  current_level : Q;
  min_value : Q;
  max_value : Q;
  variation_range : Q
}.

Section Floats.
Variables fadd fsub : Q -> Q -> Q.
Variable round2 : Q -> Q.

Definition assign_current_level (x : Q) (s : t) : t :=
  mk (base s) x (min_value s) (max_value s) (variation_range s).

(** [LightSensor._read_sensor] *)
Definition _read_sensor (change : Q) (s : t) : Q * t :=
  let s := assign_current_level
             (py_max (min_value s)
                     (py_min (max_value s) (fadd (current_level s) change))) s in
  (round2 (current_level s), s).

(** [LightSensor.simulate_light_effect] *)
Definition simulate_light_effect (light_on : pyval) (s : t) : t :=
  if truthy light_on then
    assign_current_level (py_min (max_value s) (fadd (current_level s) 20)) s
  else
    assign_current_level (py_max (min_value s) (fsub (current_level s) 5)) s.
End Floats.
End LightSensor.

(* ===================================================================== *)
(** ** hub/smart_hub.py: draining the reading channel *)
(* ===================================================================== *)

Module Channel.
Import Devices Hub.

(** The hub with the channel its sensors publish to, the system clock
    and its log. *)
Record HubIO : Type := mkIO {
  hub : SmartHub;
  sensor_data_queue : list (gmap string pyval);
  clock_reads : nat;
  hub_log : list LogRecord
}.

(** A computation on the hub's own state, run with the channel around. *)
Definition on_hub {A} (m : M SmartHub A) : M HubIO A :=
  fun w => let '(r, h) := m (hub w) in
           (r, mkIO h (sensor_data_queue w) (clock_reads w) (hub_log w)).

Section Clock.
Variable time_at : nat -> Q.

Definition time_time : M HubIO Q :=
  fun w => (Ok (time_at (clock_reads w)),
            mkIO (hub w) (sensor_data_queue w) (Datatypes.S (clock_reads w))
                 (hub_log w)).

Definition logger_error (msg : string) : M HubIO unit :=
  modify (fun w => mkIO (hub w) (sensor_data_queue w) (clock_reads w)
                        (hub_log w ++ [Log ERROR msg])%list).

(** [Queue.get_nowait] *)
Definition get_nowait : M HubIO (gmap string pyval) :=
  fun w => match sensor_data_queue w with
           | data :: rest =>
               (Ok data, mkIO (hub w) rest (clock_reads w) (hub_log w))
           | [] => (Raise (Exn "Empty" ""), w)
           end.

(** The search for the sensor a reading comes from: the key of the first
    sensor whose [device_id] equals the reading's [sensor_id]. *)
Fixpoint find_sensor_type (sensors : list (string * Sensor)) (sensor_id : pyval)
  : option string :=
  match sensors with
  | [] => None
  | (key, sensor) :: rest =>
      if py_eq (VStr (device_id (sensor_device sensor))) sensor_id
      then Some key
      else find_sensor_type rest sensor_id
  end.

(** The body of the [while] loop of [_process_sensor_data]. *)
Definition process_one_reading : M HubIO unit :=
  try_except
    (data <- get_nowait ;;
     let sensor_id := default (VStr "") (data !! "sensor_id") in
     let sensor_name := default (VStr "") (data !! "sensor_name") in
     let value := default VNone (data !! "value") in
     now <- time_time ;;
     let timestamp := default (VFloat now) (data !! "timestamp") in
     ss <- gets (fun w => sensors (hub w)) ;;
     match find_sensor_type ss sensor_id with
     | Some sensor_type =>
         if negb (String.eqb sensor_type "") then
           on_hub
             (st <- gets state ;;
              has_sensors <- dict_contains st "sensors" ;;
              run (if negb has_sensors then
                     e <- new_dict ∅ ;; dict_setitem st "sensors" (HRef e)
                   else ret tt) ;;
              e <- new_dict {[ "value" := HVal value;
                               "timestamp" := HVal timestamp;
                               "sensor_id" := HVal sensor_id;
                               "sensor_name" := HVal sensor_name ]} ;;
              sv <- dict_getitem st "sensors" ;;
              sd <- as_dict sv ;;
              dict_setitem sd sensor_type (HRef e))
         else ret tt
     | None => ret tt
     end)
    (fun e => logger_error ("Error processing sensor data: " ++ exn_str e)).

(** [SmartHub._process_sensor_data]: one turn of the loop for each reading
    in the channel. *)
Definition _process_sensor_data : M HubIO unit :=
  q <- gets sensor_data_queue ;;
  for_each q tt (fun _ _ => process_one_reading).
End Clock.
End Channel.

(* ===================================================================== *)
(** ** hub/smart_hub.py: starting and stopping the hub *)
(* ===================================================================== *)

Module HubThreads.
Import Devices Hub.

(** The hub with its running flag, the handle of its controller thread,
    and what it and its devices log and start. *)
Record HubProc : Type := mkHP {
  hub : SmartHub;
  _running : bool;
  _controller_thread : option Thread;
  hub_trace : list Event
}.

Definition with_sensor_device (d : Device) (s : Sensor) : Sensor :=
  mkSensor d (update_interval s) (_current_value s).

Definition with_device (d : Device) (a : Actuator) : Actuator :=
  mkActuator d (cls a) (command_queue a) (Devices._state a) (target_temperature a).

Definition with_sensors (ss : list (string * Sensor)) (w : SmartHub) : SmartHub :=
  mkHub (heap w) (state w) ss (actuators w) (queues w)
        (actuator_command_queues w) (rule_engine w).

Definition with_actuators (acts : list (string * Actuator)) (w : SmartHub)
  : SmartHub :=
  mkHub (heap w) (state w) (sensors w) acts (queues w)
        (actuator_command_queues w) (rule_engine w).

(** [for d in devices.values(): d.method()]: the method runs on each
    device object in turn, in the order of the dictionary; what a device
    logs and starts goes to the common trace.  A raise ends the loop. *)
Fixpoint for_each_device {D} (dev : D -> Device) (upd : Device -> D -> D)
    (method : M DeviceWorld unit) (ds : list (string * D)) (tr : list Event)
  : outcome unit * (list (string * D) * list Event) :=
  match ds with
  | [] => (Ok tt, ([], tr))
  | (key, d) :: rest =>
      match method (mkDW (dev d) tr) with
      | (Ok _, w) =>
          let '(r, (rest', tr')) := for_each_device dev upd method rest (trace w) in
          (r, ((key, upd (self w) d) :: rest', tr'))
      | (Raise e, w) => (Raise e, ((key, upd (self w) d) :: rest, trace w))
      end
  end.

Definition for_each_sensor (method : M DeviceWorld unit) : M HubProc unit :=
  fun w =>
    let '(r, (ss, tr)) :=
      for_each_device sensor_device with_sensor_device method
                      (sensors (hub w)) (hub_trace w) in
    (r, mkHP (with_sensors ss (hub w)) (_running w) (_controller_thread w) tr).

Definition for_each_actuator (method : M DeviceWorld unit) : M HubProc unit :=
  fun w =>
    let '(r, (acts, tr)) :=
      for_each_device device with_device method
                      (actuators (hub w)) (hub_trace w) in
    (r, mkHP (with_actuators acts (hub w)) (_running w) (_controller_thread w) tr).

Definition hub_logger (lv : level) (msg : string) : M HubProc unit :=
  modify (fun w => mkHP (hub w) (_running w) (_controller_thread w)
                        (hub_trace w ++ [ELog (Log lv msg)])%list).

Definition set_hub_running (b : bool) : M HubProc unit :=
  modify (fun w => mkHP (hub w) b (_controller_thread w) (hub_trace w)).

Definition set_controller_thread (t : Thread) : M HubProc unit :=
  modify (fun w => mkHP (hub w) (_running w) (Some t) (hub_trace w)).

Definition controller_start (t : Thread) : M HubProc unit :=
  modify (fun w => mkHP (hub w) (_running w) (_controller_thread w)
                        (hub_trace w ++ [EThreadStart t])%list).

(** [Thread.join(timeout)] on the controller thread: the caller waits,
    nothing in the hub changes. *)
Definition controller_join (t : Thread) (timeout : Q) : M HubProc unit := ret tt.

(** The thread object that runs [_controller_loop]. *)
Definition controller : Thread := mkThread "_controller_loop" true.

(** [SmartHub.start] *)
Definition start : M HubProc unit :=
  running <- gets _running ;;
  if running then
    hub_logger WARNING "Hub is already running"
  else
    run hub_logger INFO "Starting Smart Home Hub..." ;;
    run set_hub_running true ;;
    run for_each_sensor Devices.start ;;
    run for_each_actuator Devices.start ;;
    run set_controller_thread controller ;;
    run controller_start controller ;;
    hub_logger INFO "Smart Home Hub started successfully".

(** [SmartHub.stop] *)
Definition stop : M HubProc unit :=
  run hub_logger INFO "Stopping Smart Home Hub..." ;;
  run set_hub_running false ;;
  run for_each_sensor Devices.stop ;;
  run for_each_actuator Devices.stop ;;
  t <- gets _controller_thread ;;
  run match t with
      | Some t => controller_join t 5
      | None => ret tt
      end ;;
  hub_logger INFO "Smart Home Hub stopped".
End HubThreads.

(* ===================================================================== *)
(** ** Vocabulary of the specification *)
(* ===================================================================== *)

Local Open Scope list_scope.

Section RuleVocabulary.
Context {S : Type}.

(** The rule's condition holds on the snapshot. *)
Definition fires (r : Rule S) (state : S) : bool :=
  match condition_func r state with
  | Ok v => truthy v
  | Raise _ => false
  end.

(** The commands the rule's action returns on the snapshot. *)
Definition produced (r : Rule S) (state : S) : list Command :=
  match action_func r state with
  | Ok cs => cs
  | Raise _ => []
  end.

(** What one rule adds to the result of a cycle. *)
Definition contribution (state : S) (r : Rule S) : list Command :=
  if fires r state then produced r state else [].

(** Two rule objects that differ at most in [last_triggered]. *)
Definition same_code (r r' : Rule S) : Prop :=
  set_last_triggered None r = set_last_triggered None r'.

(** After a cycle on [state], rule object [r] has become [r']: a rule
    that fired differs at most in [last_triggered], any other rule is
    as it was. *)
Definition after_cycle (state : S) (r r' : Rule S) : Prop :=
  if fires r state then same_code r r' else r' = r.

(** [r] is not evaluated after [x]. *)
Definition by_priority (r x : Rule S) : Prop := (priority r <= priority x)%Z.

(** The rules of priority [p], in the order they stand in [l]. *)
Definition with_priority (p : Z) (l : list (Rule S)) : list (Rule S) :=
  filter (fun r => priority r = p) l.

(** The rule object that [add_rule] builds from the fields of [r]. *)
Definition as_added (r : Rule S) : Rule S :=
  Rule_init (rule_id r) (name r) (condition_func r) (action_func r) (priority r).

(** The engine after [add_rule] has been called for each rule of [added],
    in that order, on an engine without rules. *)
Definition engine_of (added : list (Rule S)) : RuleEngine S :=
  snd (for_each added tt
         (fun _ r => add_rule (rule_id r) (name r) (condition_func r)
                              (action_func r) (priority r))
         (mkEngine [] 0%nat [])).
End RuleVocabulary.



(** *** Snapshots of the built-in rules *)

(** [state.get(entry, {}).get(field, dflt)], as the built-in conditions
    read the snapshot. *)
Definition reading (state : Snapshot) (entry field : string) (dflt : pyval)
  : outcome pyval :=
  py_get (state_get state entry) field dflt.

(** A reading that is falsy, or that cannot be taken at all. *)
Definition falsy_or_unreadable (o : outcome pyval) : Prop :=
  match o with
  | Ok v => truthy v = false
  | Raise _ => True
  end.

Definition heater_turn_on : Command :=
  {[ "actuator" := VStr "heater"; "action" := VStr "turn_on" ]}.

Definition light_turn_off : Command :=
  {[ "actuator" := VStr "light"; "action" := VStr "turn_off" ]}.

(** A cold room, heater off, nobody moving, the lights left on. *)
Definition cold_room_lights_on : Snapshot :=
  {[ "temperature" := VDict {[ "value" := VFloat 15 ]};
     "heater" := VDict {[ "state" := VBool false ]};
     "light_actuator" := VDict {[ "state" := VBool true ]} ]}.

(** A cold room, heater off, nobody moving, the lights off: the entries as
    the hub writes them. *)
Definition cold_room_lights_off : Snapshot :=
  {[ "temperature" := VDict {[ "value" := VFloat 15;
                               "sensor_id" := VStr "temp_01" ]};
     "light" := VDict {[ "value" := VFloat 50 ]};
     "motion" := VDict {[ "value" := VBool false ]};
     "heater" := VDict {[ "state" := VBool false ]};
     "light_actuator" := VDict {[ "state" := VBool false ]};
     "alarm" := VDict {[ "state" := VBool false ]} ]}.

(** *** Actuator commands *)

(** The [if 'action' in command: ... elif 'state' in command: ...] block
    that the three [_execute_command] methods have in common; [on] and
    [off] are the action names that set the state to [True] and [False]. *)
Definition action_block (py_str : pyval -> string) (on off : string)
    (command : Command) : M Devices.ActuatorWorld unit :=
  match command !! "action" with
  | Some action =>
      if py_eq action (VStr on) then Devices.set_state py_str (VBool true)
      else if py_eq action (VStr off) then Devices.set_state py_str (VBool false)
      else if py_eq action (VStr "toggle") then
        current <- Devices.get_state ;;
        Devices.set_state py_str (py_not current)
      else ret tt
  | None =>
      match command !! "state" with
      | Some s => Devices.set_state py_str (VBool (truthy s))
      | None => ret tt
      end
  end.

(** What the claim says an action does to the state: [turn_on] and
    [turn_off] (for the alarm [activate] and [deactivate]) set it to
    [True] and [False], [toggle] negates it, and any other action leaves
    it as it is. *)
Definition action_effect (c : Devices.ActuatorClass) (action : string)
    (old : pyval) : pyval :=
  let '(on, off) := match c with
                    | Devices.AlarmActuator => ("activate", "deactivate")
                    | _ => ("turn_on", "turn_off")
                    end in
  if String.eqb action on then VBool true
  else if String.eqb action off then VBool false
  else if String.eqb action "toggle" then VBool (negb (truthy old))
  else old.

(** A light that is off, and the command that turns it on. *)
Definition light_off : Devices.ActuatorWorld :=
  Devices.mkAW
    (Devices.mkActuator (Devices.Device_init "light_act_01" "Light Actuator" true)
       Devices.LightActuator 0%nat (VBool false) VNone)
    [].

Definition turn_on_command : Command :=
  {[ "actuator" := VStr "light"; "action" := VStr "turn_on" ]}.

(** Stand-ins for [str()] and [float()] where an example needs them. *)
Definition show_nothing (v : pyval) : string := "".
Definition float_of_number (v : pyval) : outcome pyval :=
  match as_number v with
  | Some x => Ok (VFloat x)
  | None => Raise (TypeError "float() argument must be a string or a real number")
  end.

(** *** A hub with one sensor and one actuator *)

Definition temperature_sensor (value : pyval) : Devices.Sensor :=
  Devices.mkSensor (Devices.Device_init "temp_01" "Temperature Sensor" true)
    2 value.

Definition heater_actuator : Devices.Actuator :=
  Devices.mkActuator (Devices.Device_init "heater_01" "Heater Actuator" true)
    Devices.HeaterActuator 0%nat (VBool false) (VFloat 20).

(** The hub as [__init__] leaves it: an empty state dictionary, one queue. *)
Definition small_hub : Hub.SmartHub :=
  Hub.mkHub {[ 0%nat := ∅ ]} 0%nat
    [("temperature", temperature_sensor (VFloat 20))]
    [("heater", heater_actuator)]
    {[ 0%nat := [] ]} {[ "heater" := 0%nat ]}
    (mkEngine [] 0%nat []).

(** The temperature sensor's loop stores a new sample. *)
Definition sensor_reads (value : pyval) (w : Hub.SmartHub) : Hub.SmartHub :=
  Hub.mkHub (Hub.heap w) (Hub.state w)
    [("temperature", temperature_sensor value)]
    (Hub.actuators w) (Hub.queues w) (Hub.actuator_command_queues w)
    (Hub.rule_engine w).

(** One refresh, then a caller takes a snapshot. *)
Definition refresh_then_get_state : M Hub.SmartHub Hub.loc :=
  run Hub._update_state ;; Hub.get_state.

(** *** Invariants of computations *)

(** [m] keeps [I], however it ends. *)
Definition preserves {W A} (I : W -> Prop) (m : M W A) : Prop :=
  forall w, I w -> I (snd (m w)).



(** *** The built-in rules, one by one *)

Definition security_alarm_rule (rules_config : pyval) : Rule Snapshot :=
  Rule_init "security_alarm" "Security Alert - Motion When Home Empty"
    (security_alarm_condition rules_config) security_alarm_action 0.

Definition temp_low_rule (rules_config : pyval) : Rule Snapshot :=
  Rule_init "temp_low" "Temperature Low - Turn On Heater"
    (temp_low_condition rules_config) temp_low_action 1.

Definition temp_high_rule (rules_config : pyval) : Rule Snapshot :=
  Rule_init "temp_high" "Temperature High - Turn Off Heater"
    (temp_high_condition rules_config) temp_high_action 1.

Definition motion_light_rule (rules_config : pyval) : Rule Snapshot :=
  Rule_init "motion_light" "Motion + Low Light - Turn On Lights"
    (motion_light_condition rules_config) motion_light_action 2.

Definition no_motion_light_rule : Rule Snapshot :=
  Rule_init "no_motion_light" "No Motion - Turn Off Lights"
    no_motion_light_condition no_motion_light_action 3.

Definition heater_turn_off : Command :=
  {[ "actuator" := VStr "heater"; "action" := VStr "turn_off" ]}.

Definition light_turn_on : Command :=
  {[ "actuator" := VStr "light"; "action" := VStr "turn_on" ]}.

Definition alarm_activate : Command :=
  {[ "actuator" := VStr "alarm"; "action" := VStr "activate" ]}.

(** The actuator a command names, when it names one by a string. *)
Definition addressee (c : Command) : option string :=
  match c !! "actuator" with
  | Some (VStr n) => Some n
  | _ => None
  end.

(** The [rules] section of a configuration, as [RuleEngine] reads it. *)
Definition rules_section (config : gmap string pyval) : pyval :=
  default (VDict ∅) (config !! "rules").

(** A reading that is truthy. *)
Definition truthy_reading (o : outcome pyval) : Prop :=
  exists v, o = Ok v /\ truthy v = true.

(** A warm room with the heater running, as the hub writes it. *)
Definition warm_room_heater_on : Snapshot :=
  {[ "temperature" := VDict {[ "value" := VFloat 23 ]};
     "light" := VDict {[ "value" := VFloat 50 ]};
     "motion" := VDict {[ "value" := VBool false ]};
     "heater" := VDict {[ "state" := VBool true ]};
     "light_actuator" := VDict {[ "state" := VBool false ]};
     "alarm" := VDict {[ "state" := VBool false ]} ]}.

(** The occupancy flag of the configuration does not let the alarm rule
    fire: it is truthy (the default), or cannot be read. *)
Definition home_occupied (rules_config : pyval) : Prop :=
  match py_get rules_config "home_occupied" (VBool true) with
  | Ok v => truthy v = true
  | Raise _ => True
  end.

(** Somebody moves in an empty hall while the house is taken as occupied. *)
Definition motion_in_the_hall : Snapshot :=
  {[ "motion" := VDict {[ "value" := VBool true ]};
     "light" := VDict {[ "value" := VFloat 10 ]};
     "alarm" := VDict {[ "state" := VBool false ]} ]}.

(** A configuration whose low threshold was written as a string. *)
Definition threshold_as_text : gmap string pyval :=
  {[ "rules" := VDict {[ "temperature_threshold_low" := VStr "18" ]} ]}.

(** A configuration that declares the house empty. *)
Definition house_empty : gmap string pyval :=
  {[ "rules" := VDict {[ "home_occupied" := VBool false ]} ]}.

(** *** Device lifecycle *)

(** The threads started in a trace. *)
Definition threads_started (tr : list Devices.Event) : list Devices.Thread :=
  omap (fun e => match e with
                 | Devices.EThreadStart t => Some t
                 | _ => None
                 end) tr.

(** The heater, off, with a target of 20 degrees. *)
Definition heater_off : Devices.ActuatorWorld :=
  Devices.mkAW
    (Devices.mkActuator (Devices.Device_init "heater_01" "Heater Actuator" true)
       Devices.HeaterActuator 0%nat (VBool false) (VFloat 20))
    [].

Definition toggle_command : Command :=
  {[ "actuator" := VStr "light"; "action" := VStr "toggle" ]}.

(** Turn the heater on and set a target that is no number. *)
Definition turn_on_with_bad_target : Command :=
  {[ "action" := VStr "turn_on"; "target_temperature" := VNone ]}.

(** *** Loops *)

(** A temperature sensor that has not sampled yet, and its channel. *)
Definition idle_sensor (interval : Q) : Loops.SensorWorld :=
  Loops.mkSW
    (Devices.mkSensor (Devices.Device_init "temp_01" "Temperature Sensor" true)
       interval (VFloat 20))
    [] 0%nat [].

(** A sampling that yields 21.5 degrees, and a clock that stands still. *)
Definition sample_21_5 (s : Devices.Sensor) : outcome pyval := Ok (VFloat (43 # 2)).
Definition frozen_clock (n : nat) : Q := 1700000000.

(** *** Routing *)

(** The queue a command is routed to: the one registered under the string
    its ['actuator'] entry holds. *)
Definition route (registry : gmap string nat) (c : Command) : option nat :=
  match c !! "actuator" with
  | Some (VStr n) => registry !! n
  | _ => None
  end.

(** A command whose ['actuator'] entry can be looked up in the registry:
    anything but a dict. *)
Definition hashable_addressee (c : Command) : Prop :=
  match c !! "actuator" with
  | Some (VDict _) => False
  | _ => True
  end.

(** The action a request body asks for. *)
Definition requested_action (j : pyval) : pyval :=
  match j with
  | VDict d => default (VStr "toggle") (d !! "action")
  | _ => VStr "toggle"
  end.

(** A hub whose only rule asks for the heater and for a fan that does not
    exist. *)
Definition heater_and_fan_rule : Rule Hub.StateRef :=
  Rule_init "demo" "Heater and fan"
    (fun _ => Ok (VBool true))
    (fun _ => Ok [ {[ "actuator" := VStr "heater"; "action" := VStr "turn_on" ]};
                   {[ "actuator" := VStr "fan"; "action" := VStr "turn_on" ]} ])
    0.

Definition hub_with_rule : Hub.SmartHub :=
  Hub.with_rule_engine (mkEngine [heater_and_fan_rule] 0%nat []) small_hub.


(** *** What a refresh may write *)

(** [m], started where [P] holds, ends where [Q] holds of its result, or
    raises where [X] holds. *)
Definition spec {W A} (P : W -> Prop) (m : M W A) (Q : A -> W -> Prop)
    (X : W -> Prop) : Prop :=
  forall w, P w ->
    match m w with
    | (Ok a, w') => Q a w'
    | (Raise _, w') => X w'
    end.

(** The entry under key [k] of the dictionary object [a]. *)
Definition entry (h : Hub.Heap) (a : Hub.loc) (k : string) : option Hub.hval :=
  d ← h !! a; d !! k.

(** A dictionary without references to other dictionaries. *)
Definition flat (d : gmap string Hub.hval) : Prop :=
  forall k x, d !! k <> Some (Hub.HRef x).

(** Object [l] is out of reach of a refresh of the state object [st]: it
    is neither the dictionary under ["sensors"] nor one of the
    dictionaries that dictionary refers to, and the ["sensors"] dictionary
    is not the state object itself. *)
Definition out_of_reach (st l : Hub.loc) (h : Hub.Heap) : Prop :=
  forall sd, entry h st "sensors" = Some (Hub.HRef sd) ->
    sd <> l /\ sd <> st
    /\ forall t ed, entry h sd t = Some (Hub.HRef ed) -> ed <> l.

(** What a refresh keeps of an object [l] with contents [d0]. *)
Definition kept (st l : Hub.loc) (d0 : gmap string Hub.hval) (h : Hub.Heap)
  : Prop :=
  h !! l = Some d0 /\ l <> st /\ is_Some (h !! st) /\ out_of_reach st l h.

(** The dictionary under ["actuators"] is not [l]. *)
Definition actuators_apart (st l : Hub.loc) (h : Hub.Heap) : Prop :=
  forall ad, entry h st "actuators" = Some (Hub.HRef ad) -> ad <> l.

(** The state object and what it refers to under ["sensors"] exist. *)
Definition sensors_closed (st : Hub.loc) (h : Hub.Heap) : Prop :=
  is_Some (h !! st)
  /\ forall sd, entry h st "sensors" = Some (Hub.HRef sd) ->
       sd <> st /\ is_Some (h !! sd)
       /\ forall t ed, entry h sd t = Some (Hub.HRef ed) -> is_Some (h !! ed).

(** The hub with other devices, or devices in another condition. *)
Definition with_devices (ss : list (string * Devices.Sensor))
    (acts : list (string * Devices.Actuator)) (w : Hub.SmartHub) : Hub.SmartHub :=
  Hub.mkHub (Hub.heap w) (Hub.state w) ss acts (Hub.queues w)
    (Hub.actuator_command_queues w) (Hub.rule_engine w).

(** [P] holds of the store of a hub whose state object is [st]. *)
Definition on_heap (st : Hub.loc) (P : Hub.Heap -> Prop) (w : Hub.SmartHub)
  : Prop :=
  Hub.state w = st /\ P (Hub.heap w).

(** The state of a hub after a refresh: the state object, the dictionary
    of sensors and the entry of the temperature sensor, shared. *)
Definition state_object : gmap string Hub.hval :=
  {[ "sensors" := Hub.HRef 1%nat; "temperature" := Hub.HRef 2%nat ]}.

Definition refreshed_hub : Hub.SmartHub :=
  Hub.with_heap
    {[ 0%nat := state_object;
       1%nat := {[ "temperature" := Hub.HRef 2%nat ]};
       2%nat := {[ "value" := Hub.HVal (VFloat 20) ]} ]}
    small_hub.

(** *** The reading channel *)

(** The sensor a reading claims to come from. *)
Definition reading_sensor_id (data : gmap string pyval) : pyval :=
  default (VStr "") (data !! "sensor_id").

(** A reading of 21.5 degrees from the temperature sensor, and one from a
    sensor the hub does not have. *)
Definition temperature_reading : gmap string pyval :=
  {[ "value" := VFloat (43 # 2); "sensor_id" := VStr "temp_01";
     "sensor_name" := VStr "Temperature Sensor"; "timestamp" := VFloat 1700000000 ]}.

Definition stray_reading : gmap string pyval :=
  {[ "value" := VFloat 1; "sensor_id" := VStr "humidity_01" ]}.

Definition hub_with_channel (q : list (gmap string pyval)) (h : Hub.SmartHub)
  : Channel.HubIO :=
  Channel.mkIO h q 0%nat [].

(** *** Starting and stopping the hub *)

(** The devices of a hub, sensors first, in the order of its dictionaries. *)
Definition hub_devices (h : Hub.SmartHub) : list Devices.Device :=
  (map (fun p => Devices.sensor_device (snd p)) (Hub.sensors h)
   ++ map (fun p => Devices.device (snd p)) (Hub.actuators h))%list.

(** An enabled device whose loop is not running. *)
Definition idle (d : Devices.Device) : bool :=
  Devices.enabled d && negb (Devices._running d).

(** The thread object a device makes for its loop. *)
Definition loop_thread (d : Devices.Device) : Devices.Thread :=
  Devices.mkThread (Devices.device_id d) true.

(** What [Device.start] leaves of a device, and what it logs and starts. *)
Definition started (d : Devices.Device) : Devices.Device :=
  if idle d then
    Devices.mkDevice (Devices.device_id d) (Devices.name d) true true
                     (Some (loop_thread d))
  else d.

Definition start_events (d : Devices.Device) : list Devices.Event :=
  if negb (Devices.enabled d) then
    [Devices.ELog (Log WARNING (Devices.name d +:+ " is disabled, not starting"))]
  else if Devices._running d then
    [Devices.ELog (Log WARNING (Devices.name d +:+ " is already running"))]
  else
    [Devices.EThreadStart (loop_thread d);
     Devices.ELog (Log INFO (Devices.name d +:+ " started"))].

(** The same for [Device.stop]. *)
Definition stopped (d : Devices.Device) : Devices.Device :=
  Devices.mkDevice (Devices.device_id d) (Devices.name d) (Devices.enabled d)
                   false (Devices._thread d).

Definition stop_events (d : Devices.Device) : list Devices.Event :=
  [Devices.ELog (Log INFO (Devices.name d +:+ " stopped"))].

(** The hub after a method has run on each of its devices. *)
Definition each_device (after : Devices.Device -> Devices.Device)
    (h : Hub.SmartHub) : Hub.SmartHub :=
  HubThreads.with_actuators
    (map (fun p => (fst p, HubThreads.with_device
                             (after (Devices.device (snd p))) (snd p)))
         (Hub.actuators h))
    (HubThreads.with_sensors
       (map (fun p => (fst p, HubThreads.with_sensor_device
                                (after (Devices.sensor_device (snd p))) (snd p)))
            (Hub.sensors h))
       h).

(** The small hub, not started, with nothing logged. *)
Definition small_hub_at_rest : HubThreads.HubProc :=
  HubThreads.mkHP small_hub false None [].

(* ===================================================================== *)
(** ** The rule engine: ordering and evaluation *)
(* ===================================================================== *)

Section RuleEngineFacts.
Context {S : Type}.
Implicit Types (r x : Rule S) (l : list (Rule S)) (w : RuleEngine S).

Lemma same_code_refl r : same_code r r.
Proof. reflexivity. Qed.

Lemma same_code_trans r1 r2 r3 :
  same_code r1 r2 -> same_code r2 r3 -> same_code r1 r3.
Proof. unfold same_code. congruence. Qed.

Lemma same_code_set t r : same_code r (set_last_triggered t r).
Proof. reflexivity. Qed.

Lemma same_code_contribution state r r' :
  same_code r r' -> contribution state r = contribution state r'.
Proof.
  unfold same_code, contribution, fires, produced.
  destruct r, r'; simpl; intros [= -> -> -> -> ->]; reflexivity.
Qed.

Lemma same_code_list_refl l : Forall2 same_code l l.
Proof. induction l; constructor; auto using same_code_refl. Qed.

Lemma same_code_list_trans l1 l2 l3 :
  Forall2 same_code l1 l2 -> Forall2 same_code l2 l3 -> Forall2 same_code l1 l3.
Proof.
  intros H; revert l3; induction H; intros l3 H3; inversion H3; subst;
    constructor; eauto using same_code_trans.
Qed.

Lemma same_code_alter t i l :
  Forall2 same_code l (alter (set_last_triggered t) i l).
Proof.
  revert i; induction l as [|x l IH]; intros [|i]; simpl.
  - constructor.
  - constructor.
  - constructor; [apply same_code_set | apply same_code_list_refl].
  - constructor; [apply same_code_refl | apply IH].
Qed.

Lemma same_code_fires state r r' : same_code r r' -> fires r state = fires r' state.
Proof.
  unfold same_code, fires.
  destruct r, r'; simpl; intros [= -> -> -> -> ->]; reflexivity.
Qed.

Lemma after_cycle_same_code state r r' : after_cycle state r r' -> same_code r r'.
Proof.
  unfold after_cycle. destruct (fires r state); [auto|].
  intros ->. apply same_code_refl.
Qed.

Lemma after_cycle_list_refl state l : Forall2 (after_cycle state) l l.
Proof.
  induction l as [|x l IH]; constructor; [|exact IH].
  unfold after_cycle. destruct (fires x state); [apply same_code_refl | reflexivity].
Qed.

Lemma after_cycle_list_trans state l1 l2 l3 :
  Forall2 (after_cycle state) l1 l2 -> Forall2 (after_cycle state) l2 l3 ->
  Forall2 (after_cycle state) l1 l3.
Proof.
  intros H; revert l3; induction H as [|x y l1 l2 Hxy H IH]; intros l3 H3;
    inversion H3 as [|y' z l2' l3' Hyz H3']; subst; constructor; [|auto].
  unfold after_cycle in *. destruct (fires x state) eqn:Hx.
  - rewrite <- (same_code_fires state x y Hxy), Hx in Hyz.
    eapply same_code_trans; eassumption.
  - subst y. rewrite Hx in Hyz. exact Hyz.
Qed.

Lemma after_cycle_alter state t i r l :
  l !! i = Some r -> fires r state = true ->
  Forall2 (after_cycle state) l (alter (set_last_triggered t) i l).
Proof.
  revert i; induction l as [|x l IH]; intros [|i] Hi Hf; simpl in *;
    try discriminate.
  - injection Hi as ->. constructor; [|apply after_cycle_list_refl].
    unfold after_cycle. rewrite Hf. apply same_code_set.
  - constructor; [|eapply IH; eassumption].
    unfold after_cycle. destruct (fires x state); [apply same_code_refl | reflexivity].
Qed.

Lemma after_cycle_list_same_code state l l' :
  Forall2 (after_cycle state) l l' -> Forall2 same_code l l'.
Proof.
  intros H. eapply Forall2_impl; [exact H|]. apply after_cycle_same_code.
Qed.

Lemma same_code_flat_map state l l' :
  Forall2 same_code l l' ->
  flat_map (contribution state) l = flat_map (contribution state) l'.
Proof.
  induction 1; simpl; [reflexivity|].
  f_equal; auto using same_code_contribution.
Qed.

(** *** The stable sort *)

Lemma sort_insert_perm r l : sort_insert r l ≡ₚ r :: l.
Proof.
  induction l as [|x l IH]; simpl; [reflexivity|].
  destruct (Z.ltb_spec (priority x) (priority r)); [|reflexivity].
  rewrite IH. apply Permutation_swap.
Qed.

Lemma list_sort_perm l : list_sort l ≡ₚ l.
Proof.
  induction l as [|r l IH]; simpl; [reflexivity|].
  rewrite sort_insert_perm, IH. reflexivity.
Qed.

Lemma sort_insert_sorted r l :
  StronglySorted by_priority l -> StronglySorted by_priority (sort_insert r l).
Proof.
  induction 1 as [|x l Hs IH Hx]; simpl.
  - repeat constructor.
  - destruct (Z.ltb_spec (priority x) (priority r)) as [Hlt|Hge].
    + constructor; [exact IH|].
      rewrite sort_insert_perm. constructor; [unfold by_priority; lia | exact Hx].
    + constructor; [constructor; assumption|].
      constructor; [exact Hge|].
      eapply Forall_impl; [exact Hx|].
      unfold by_priority; simpl; intros; lia.
Qed.

Lemma list_sort_sorted l : StronglySorted by_priority (list_sort l).
Proof.
  induction l; simpl; [constructor | auto using sort_insert_sorted].
Qed.

Lemma with_priority_cons p r l :
  with_priority p (r :: l) =
  if decide (priority r = p) then r :: with_priority p l else with_priority p l.
Proof. unfold with_priority. rewrite filter_cons. reflexivity. Qed.

Lemma with_priority_app p l1 l2 :
  with_priority p (l1 ++ l2) = with_priority p l1 ++ with_priority p l2.
Proof. unfold with_priority. apply filter_app. Qed.

(** Insertion does not reorder the rules of any one priority. *)
Lemma sort_insert_stable p r l :
  StronglySorted by_priority l ->
  with_priority p (sort_insert r l) = with_priority p (r :: l).
Proof.
  induction 1 as [|x l Hs IH Hx]; simpl; [reflexivity|].
  destruct (Z.ltb_spec (priority x) (priority r)) as [Hlt|Hge]; [|reflexivity].
  rewrite (with_priority_cons p x), IH, !with_priority_cons.
  repeat case_decide; try reflexivity; lia.
Qed.

Lemma list_sort_stable p l : with_priority p (list_sort l) = with_priority p l.
Proof.
  induction l as [|r l IH]; simpl; [reflexivity|].
  rewrite sort_insert_stable by apply list_sort_sorted.
  rewrite !with_priority_cons, IH. reflexivity.
Qed.

(** Sorting a list that is in order already leaves it as it is. *)
Lemma sort_insert_head r l :
  Forall (by_priority r) l -> sort_insert r l = r :: l.
Proof.
  destruct 1 as [|x l Hx _]; simpl; [reflexivity|].
  destruct (Z.ltb_spec (priority x) (priority r)); [|reflexivity].
  unfold by_priority in Hx; lia.
Qed.

Lemma list_sort_sorted_id l : StronglySorted by_priority l -> list_sort l = l.
Proof.
  induction 1 as [|x l Hs IH Hx]; simpl; [reflexivity|].
  rewrite IH. apply sort_insert_head, Hx.
Qed.

(** *** Building the rule set *)

Lemma add_rules_run added : forall w,
  StronglySorted by_priority (rules w) ->
  exists w',
    for_each added tt
      (fun _ r => add_rule (rule_id r) (name r) (condition_func r)
                           (action_func r) (priority r)) w = (Ok tt, w')
    /\ StronglySorted by_priority (rules w')
    /\ rules w' ≡ₚ rules w ++ map as_added added
    /\ (forall p, with_priority p (rules w') =
                  with_priority p (rules w ++ map as_added added)).
Proof.
  induction added as [|r added IH]; intros w Hs; simpl.
  - exists w. rewrite app_nil_r. auto.
  - unfold bind at 1, add_rule at 1, modify at 1.
    set (w1 := mkEngine _ _ _).
    destruct (IH w1) as (w' & Hrun & Hs' & Hp & Hst).
    { apply list_sort_sorted. }
    exists w'. split; [exact Hrun|]. split; [exact Hs'|].
    fold (as_added r) in w1. subst w1; simpl in *. split.
    + rewrite Hp, list_sort_perm, <- app_assoc. reflexivity.
    + intros p. rewrite Hst, !with_priority_app, list_sort_stable.
      rewrite with_priority_app, <- app_assoc.
      f_equal. symmetry. apply (with_priority_app p [as_added r]).
Qed.

(** *** One rule *)

Lemma Rule_evaluate_run w i r state :
  rules w !! i = Some r ->
  exists v lg,
    Rule_evaluate i state w = (Ok v, mkEngine (rules w) (clock_reads w) lg)
    /\ truthy v = fires r state.
Proof.
  intros Hi. unfold Rule_evaluate, bind, rule_at, try_except, lift, fires.
  rewrite Hi. destruct (condition_func r state) as [v|e]; simpl.
  - exists v, (engine_log w). destruct w; auto.
  - eexists _, _. split; reflexivity.
Qed.

Lemma Rule_execute_run wall_clock w i r state :
  rules w !! i = Some r ->
  exists lg,
    Rule_execute wall_clock i state w =
      (Ok (produced r state),
       mkEngine (alter (set_last_triggered (Some (wall_clock (clock_reads w))))
                       i (rules w))
                (Datatypes.S (clock_reads w)) lg).
Proof.
  intros Hi.
  unfold Rule_execute, bind, rule_at, try_except, lift, produced,
    datetime_now, assign_last_triggered, modify.
  rewrite Hi. simpl. destruct (action_func r state) as [cs|e]; simpl.
  - eexists; reflexivity.
  - eexists; reflexivity.
Qed.

(** *** The evaluation loop *)

Section Loop.
Variable wall_clock : nat -> datetime.
Variable state : S.

Local Abbreviation loop_body :=
  (fun '(commands, triggered_rules) i =>
     rule <- rule_at i ;;
     fired <- Rule_evaluate i state ;;
     if truthy fired then
       rule_commands <- Rule_execute wall_clock i state ;;
       run logging INFO ("Rule triggered: " +:+ name rule) ;;
       ret ((commands ++ rule_commands)%list,
            (triggered_rules ++ [name rule])%list)
     else ret (commands, triggered_rules)).

Lemma loop_body_run w k r (commands : list Command) (trig : list string) :
  rules w !! k = Some r ->
  exists trig' w',
    loop_body (commands, trig) k w =
      (Ok (commands ++ contribution state r, trig'), w')
    /\ Forall2 (after_cycle state) (rules w) (rules w')
    /\ drop (Datatypes.S k) (rules w') = drop (Datatypes.S k) (rules w).
Proof.
  intros Hk. unfold bind at 1. unfold rule_at at 1. rewrite Hk.
  unfold bind at 1.
  destruct (Rule_evaluate_run w k r state Hk) as (v & lg & -> & Hv).
  unfold contribution. rewrite <- Hv. destruct (truthy v) eqn:Hfired.
  - unfold bind at 1.
    destruct (Rule_execute_run wall_clock
                (mkEngine (rules w) (clock_reads w) lg) k r state Hk)
      as (lg' & ->).
    unfold bind, logging, modify, ret; simpl.
    eexists _, _. split; [reflexivity|]. simpl. split.
    + eapply after_cycle_alter; [exact Hk | congruence].
    + rewrite drop_alter. case_decide; [lia | reflexivity].
  - unfold ret. eexists _, _. split; [rewrite app_nil_r; reflexivity|].
    simpl. split; [apply after_cycle_list_refl | reflexivity].
Qed.

Lemma evaluate_loop_run n : forall k w (commands : list Command) trig,
  length (rules w) = (k + n)%nat ->
  exists trig' w',
    for_each (seq k n) (commands, trig) loop_body w =
      (Ok (commands ++ flat_map (contribution state) (drop k (rules w)), trig'),
       w')
    /\ Forall2 (after_cycle state) (rules w) (rules w').
Proof.
  induction n as [|n IH]; intros k w commands trig Hlen.
  - simpl. exists trig, w. rewrite drop_ge by lia. simpl.
    rewrite app_nil_r. split; [reflexivity | apply after_cycle_list_refl].
  - destruct (lookup_lt_is_Some_2 (rules w) k) as [r Hk]; [lia|].
    destruct (loop_body_run w k r commands trig Hk)
      as (trig1 & w1 & Hstep & Hsame & Hdrop).
    assert (Hlen1 : length (rules w1) = (Datatypes.S k + n)%nat).
    { rewrite <- (Forall2_length _ _ _ Hsame). lia. }
    destruct (IH (Datatypes.S k) w1 (commands ++ contribution state r) trig1 Hlen1)
      as (trig' & w' & Hrest & Hsame').
    exists trig', w'. split.
    + change (seq k (Datatypes.S n)) with (k :: seq (Datatypes.S k) n).
      change (for_each (k :: seq (Datatypes.S k) n) (commands, trig) loop_body w)
        with (bind (loop_body (commands, trig) k)
                   (fun acc => for_each (seq (Datatypes.S k) n) acc loop_body) w).
      unfold bind at 1. rewrite Hstep, Hrest, Hdrop.
      rewrite (drop_S _ _ _ Hk). simpl. rewrite app_assoc. reflexivity.
    + eapply after_cycle_list_trans; eassumption.
Qed.

(** A cycle returns, for the rules as they stand in the engine, the
    commands of each rule that fires, one rule after the other. *)
Lemma evaluate_rules_run w :
  exists w',
    evaluate_rules wall_clock state w =
      (Ok (flat_map (contribution state) (rules w)), w')
    /\ Forall2 (after_cycle state) (rules w) (rules w').
Proof.
  unfold evaluate_rules. unfold bind at 1. unfold gets at 1.
  destruct (evaluate_loop_run (length (rules w)) 0 w [] [] eq_refl)
    as (trig' & w1 & Hloop & Hsame).
  unfold bind at 1. rewrite Hloop. simpl.
  destruct trig' as [|t trig'].
  - exists w1. split; [reflexivity | exact Hsame].
  - eexists. unfold bind, logging, modify, ret. simpl.
    split; [reflexivity | exact Hsame].
Qed.
End Loop.
End RuleEngineFacts.

(** C1.  For the rule set built by any sequence of [add_rule] calls, the
    engine keeps the rules in ascending priority order, rules of equal
    priority in the order they were added; and on every snapshot
    [evaluate_rules] returns the concatenation, in the order the rules
    stand in the engine, of the command lists of the rules whose condition
    holds: a rule that fires does not stop the rules after it. *)
Theorem evaluate_rules_priority_then_insertion_order
    {S : Type} (wall_clock : nat -> datetime)
    (added : list (Rule S)) (state : S) :
  StronglySorted by_priority (rules (engine_of added))
  /\ rules (engine_of added) ≡ₚ map as_added added
  /\ (forall p, with_priority p (rules (engine_of added)) =
                with_priority p (map as_added added))
  /\ (forall w : RuleEngine S,
        fst (evaluate_rules wall_clock state w) =
        Ok (flat_map (contribution state) (rules w))).
Proof.
  unfold engine_of.
  destruct (add_rules_run added (mkEngine [] 0%nat []))
    as (w' & Hrun & Hsorted & Hperm & Hstable); [constructor|].
  rewrite Hrun; simpl. repeat split; auto.
  intros w. destruct (evaluate_rules_run wall_clock state w) as (w1 & -> & _).
  reflexivity.
Qed.




(** C5.  [evaluate_rules] never raises.  A rule whose condition raises
    counts as not fired and its action is not called; a rule whose action
    raises adds no commands; every other rule is still evaluated and adds
    its commands. *)
Theorem evaluate_rules_isolates_failing_rules
    {S : Type} (wall_clock : nat -> datetime) (state : S) (w : RuleEngine S) :
  exists w',
    evaluate_rules wall_clock state w =
      (Ok (flat_map
             (fun r =>
                match condition_func r state with
                | Raise _ => []
                | Ok fired =>
                    if truthy fired then
                      match action_func r state with
                      | Raise _ => []
                      | Ok commands => commands
                      end
                    else []
                end) (rules w)),
       w')
    /\ Forall2
         (fun r r' =>
            match condition_func r state with
            | Raise _ => r' = r
            | Ok fired => if truthy fired then same_code r r' else r' = r
            end) (rules w) (rules w').
Proof.
  destruct (evaluate_rules_run wall_clock state w) as (w' & -> & Hafter).
  exists w'. split.
  - do 2 f_equal. apply flat_map_ext. intros r.
    unfold contribution, fires, produced.
    destruct (condition_func r state); reflexivity.
  - eapply Forall2_impl; [exact Hafter|].
    intros r r'. unfold after_cycle, fires.
    destruct (condition_func r state); auto.
Qed.

(** C9.  Two evaluations in a row on the same snapshot return the same
    command list: what the first one changes ([last_triggered], the clock,
    the log) is not read by the second. *)
Theorem evaluate_rules_twice_same_commands
    {S : Type} (wall_clock : nat -> datetime) (state : S) (w : RuleEngine S) :
  fst (evaluate_rules wall_clock state (snd (evaluate_rules wall_clock state w)))
  = fst (evaluate_rules wall_clock state w)
  /\ exists commands, fst (evaluate_rules wall_clock state w) = Ok commands.
Proof.
  destruct (evaluate_rules_run wall_clock state w) as (w1 & -> & Hafter).
  simpl.
  destruct (evaluate_rules_run wall_clock state w1) as (w2 & -> & _).
  simpl. split; [|eauto].
  f_equal. symmetry. apply same_code_flat_map.
  eapply after_cycle_list_same_code, Hafter.
Qed.

(** C8, counterexample.  The temperature is 15.0, the heater is off and
    the snapshot has no [motion], [light] or [alarm] entry, but the lights
    are on: the rule for lights left on without motion fires as well. *)
Lemma cold_room_lights_on_emits_two_commands :
  reading cold_room_lights_on "temperature" "value" VNone = Ok (VFloat 15)
  /\ reading cold_room_lights_on "heater" "state" (VBool false) = Ok (VBool false)
  /\ cold_room_lights_on !! "motion" = None
  /\ cold_room_lights_on !! "light" = None
  /\ cold_room_lights_on !! "alarm" = None
  /\ fst (evaluate_rules (fun _ => 0) cold_room_lights_on (RuleEngine_init ∅))
     = Ok [heater_turn_on; light_turn_off]
  /\ fst (evaluate_rules (fun _ => 0) cold_room_lights_on (RuleEngine_init ∅))
     <> Ok [heater_turn_on].
Proof.
  assert (H : fst (evaluate_rules (fun _ => 0) cold_room_lights_on
                     (RuleEngine_init ∅))
              = Ok [heater_turn_on; light_turn_off])
    by (vm_compute; reflexivity).
  repeat split; try (vm_compute; reflexivity).
  rewrite H. intros [=].
Qed.

(** *** The built-in rules on a cold room *)

Lemma default_rules_in_order (rules_config : pyval) :
  rules (snd (_initialize_rules rules_config (mkEngine [] 0%nat []))) =
  [ Rule_init "security_alarm" "Security Alert - Motion When Home Empty"
      (security_alarm_condition rules_config) security_alarm_action 0;
    Rule_init "temp_low" "Temperature Low - Turn On Heater"
      (temp_low_condition rules_config) temp_low_action 1;
    Rule_init "temp_high" "Temperature High - Turn Off Heater"
      (temp_high_condition rules_config) temp_high_action 1;
    Rule_init "motion_light" "Motion + Low Light - Turn On Lights"
      (motion_light_condition rules_config) motion_light_action 2;
    Rule_init "no_motion_light" "No Motion - Turn Off Lights"
      no_motion_light_condition no_motion_light_action 3 ].
Proof. reflexivity. Qed.

Section ColdRoom.
Variable m : gmap string pyval.
Variable state : Snapshot.
Variables (q : Q) (h : pyval).
Hypothesis default_low : m !! "temperature_threshold_low" = None.
Hypothesis temperature : reading state "temperature" "value" VNone = Ok (VFloat q).
Hypothesis fifteen : (q == 15)%Q.
Hypothesis heater : reading state "heater" "state" (VBool false) = Ok h.
Hypothesis heater_off : truthy h = false.
Hypothesis no_motion :
  falsy_or_unreadable (reading state "motion" "value" (VBool false)).
Hypothesis lights_off :
  falsy_or_unreadable (reading state "light_actuator" "state" (VBool false)).

Lemma below_default_threshold : Qlt_bool q 18 = true.
Proof.
  unfold Qlt_bool. destruct (Qle_bool 18 q) eqn:Hle; [|reflexivity].
  apply Qle_bool_iff in Hle. rewrite fifteen in Hle.
  unfold Qle in Hle; simpl in Hle; lia.
Qed.

Lemma temp_low_holds : temp_low_condition (VDict m) state = Ok (VBool true).
Proof.
  unfold reading in *. unfold temp_low_condition.
  rewrite temperature, heater. simpl. rewrite default_low. simpl.
  unfold py_lt. simpl. rewrite below_default_threshold. simpl.
  unfold py_not. rewrite heater_off. reflexivity.
Qed.

Lemma temp_high_idle : fires (Rule_init "temp_high" "Temperature High - Turn Off Heater"
    (temp_high_condition (VDict m)) temp_high_action 1) state = false.
Proof.
  unfold reading in *. unfold fires. simpl. unfold temp_high_condition.
  rewrite temperature, heater. simpl.
  destruct (py_gt _ _) as [above|e]; simpl; [|reflexivity].
  unfold py_and. destruct (truthy above) eqn:Ha; [exact heater_off | exact Ha].
Qed.

Lemma motion_light_idle : fires (Rule_init "motion_light" "Motion + Low Light - Turn On Lights"
    (motion_light_condition (VDict m)) motion_light_action 2) state = false.
Proof.
  unfold reading in *. unfold fires. simpl. unfold motion_light_condition.
  destruct (py_get (state_get state "motion") _ _) as [mv|e]; simpl; [|reflexivity].
  destruct (py_get (state_get state "light") _ _) as [lv|e]; simpl; [|reflexivity].
  destruct (py_get (state_get state "light_actuator") _ _) as [la|e]; simpl;
    [|reflexivity].
  simpl in no_motion. unfold py_and at 1. rewrite no_motion. exact no_motion.
Qed.

Lemma no_motion_light_idle : fires (Rule_init "no_motion_light" "No Motion - Turn Off Lights"
    no_motion_light_condition no_motion_light_action 3) state = false.
Proof.
  unfold reading in *. unfold fires. simpl. unfold no_motion_light_condition.
  destruct (py_get (state_get state "motion") _ _) as [mv|e]; simpl; [|reflexivity].
  destruct (py_get (state_get state "light_actuator") _ _) as [la|e]; simpl;
    [|reflexivity].
  simpl in no_motion, lights_off. unfold py_and, py_not. rewrite no_motion.
  simpl. exact lights_off.
Qed.

Lemma security_alarm_idle : fires (Rule_init "security_alarm" "Security Alert - Motion When Home Empty"
    (security_alarm_condition (VDict m)) security_alarm_action 0) state = false.
Proof.
  unfold reading in *. unfold fires. simpl. unfold security_alarm_condition.
  destruct (py_get (state_get state "motion") _ _) as [mv|e]; simpl; [|reflexivity].
  destruct (py_get (state_get state "alarm") _ _) as [al|e]; simpl; [|reflexivity].
  simpl in no_motion. unfold py_and at 1. rewrite no_motion. exact no_motion.
Qed.
End ColdRoom.

(** C8, amended.  With the default low threshold (18.0), on every snapshot
    where the temperature value is 15.0, the heater state is off, no
    motion is reported and the light actuator is off, the built-in rules
    return exactly the command that turns the heater on. *)
Theorem cold_room_emits_heater_turn_on
    (wall_clock : nat -> datetime) (config m : gmap string pyval)
    (state : Snapshot) (q : Q) (h : pyval) :
  default (VDict ∅) (config !! "rules") = VDict m ->
  m !! "temperature_threshold_low" = None ->
  reading state "temperature" "value" VNone = Ok (VFloat q) ->
  (q == 15)%Q ->
  reading state "heater" "state" (VBool false) = Ok h ->
  truthy h = false ->
  falsy_or_unreadable (reading state "motion" "value" (VBool false)) ->
  falsy_or_unreadable (reading state "light_actuator" "state" (VBool false)) ->
  fst (evaluate_rules wall_clock state (RuleEngine_init config))
  = Ok [heater_turn_on].
Proof.
  intros Hcfg Hlow Htemp Hq Hheater Hoff Hmotion Hlights.
  destruct (evaluate_rules_run wall_clock state (RuleEngine_init config))
    as (w' & -> & _).
  unfold RuleEngine_init. rewrite Hcfg, default_rules_in_order. simpl.
  unfold contribution.
  erewrite security_alarm_idle by eassumption.
  erewrite temp_high_idle by eassumption.
  erewrite motion_light_idle by eassumption.
  erewrite no_motion_light_idle by eassumption.
  unfold fires, produced. simpl.
  erewrite temp_low_holds by eassumption.
  reflexivity.
Qed.

Lemma cold_room_emits_heater_turn_on_witness :
  fst (evaluate_rules (fun _ => 0) cold_room_lights_off (RuleEngine_init ∅))
  = Ok [heater_turn_on].
Proof.
  apply (cold_room_emits_heater_turn_on (fun _ => 0) ∅ ∅ cold_room_lights_off
           15 (VBool false)).
  - reflexivity.
  - reflexivity.
  - vm_compute; reflexivity.
  - reflexivity.
  - vm_compute; reflexivity.
  - reflexivity.
  - vm_compute; reflexivity.
  - vm_compute; reflexivity.
Defined.

(* ===================================================================== *)
(** ** Devices: lifecycle and actuator state *)
(* ===================================================================== *)

Lemma bind_ok {W A B} (m : M W A) (k : A -> M W B) (w w1 : W) (a : A) :
  m w = (Ok a, w1) -> bind m k w = k a w1.
Proof. intros H. unfold bind. rewrite H. reflexivity. Qed.

Lemma bind_raise {W A B} (m : M W A) (k : A -> M W B) (w w1 : W) (e : exn) :
  m w = (Raise e, w1) -> bind m k w = (Raise e, w1).
Proof. intros H. unfold bind. rewrite H. reflexivity. Qed.

Section DeviceFacts.
Import Devices.

(** C7.  [start] on a device that is disabled or already running
    returns without raising and leaves the device as it is (running
    flag, thread handle and all other fields), starting no thread and
    logging one warning; on an enabled device that is not running it
    sets the running flag and starts exactly one thread, the one that
    runs the device's loop. *)
Theorem start_is_noop_or_launches_once (d : Device) (tr : list Event) :
  (enabled d = false \/ _running d = true ->
     exists msg,
       start (mkDW d tr) = (Ok tt, mkDW d (tr ++ [ELog (Log WARNING msg)])))
  /\ (enabled d = true -> _running d = false ->
        start (mkDW d tr) =
          (Ok tt,
           mkDW (mkDevice (device_id d) (name d) true true
                          (Some (mkThread (device_id d) true)))
                (tr ++ [EThreadStart (mkThread (device_id d) true);
                        ELog (Log INFO (name d +:+ " started"))]))).
Proof.
  split.
  - intros H. unfold start, bind, gets, logger, modify. simpl.
    destruct (enabled d) eqn:He; simpl.
    + destruct H as [H|H]; [discriminate|]. rewrite H. eexists; reflexivity.
    + eexists; reflexivity.
  - intros He Hr. destruct d; simpl in *; subst.
    unfold start, bind, gets, logger, modify, set_running,
      set_thread, Thread_start. simpl.
    rewrite <- app_assoc. reflexivity.
Qed.

Lemma start_is_noop_or_launches_once_witness :
  (exists msg,
      start (mkDW (mkDevice "light_act_01" "Light Actuator" true true
                            (Some (mkThread "light_act_01" true))) []) =
        (Ok tt,
         mkDW (mkDevice "light_act_01" "Light Actuator" true true
                        (Some (mkThread "light_act_01" true)))
              [ELog (Log WARNING msg)]))
  /\ start (mkDW (Device_init "temp_01" "Temperature Sensor" true) []) =
       (Ok tt,
        mkDW (mkDevice "temp_01" "Temperature Sensor" true true
                       (Some (mkThread "temp_01" true)))
             [EThreadStart (mkThread "temp_01" true);
              ELog (Log INFO "Temperature Sensor started")]).
Proof.
  split.
  - apply (start_is_noop_or_launches_once
             (mkDevice "light_act_01" "Light Actuator" true true
                       (Some (mkThread "light_act_01" true))) []).
    right. reflexivity.
  - apply (start_is_noop_or_launches_once
             (Device_init "temp_01" "Temperature Sensor" true) []);
      reflexivity.
Defined.

Section Actuators.
Variable py_str : pyval -> string.
Variable py_float : pyval -> outcome pyval.

Lemma notifications_app tr tr' :
  notifications (tr ++ tr') = notifications tr ++ notifications tr'.
Proof. unfold notifications. apply omap_app. Qed.

Lemma py_ne_bool a b : py_ne (VBool a) (VBool b) = true <-> a <> b.
Proof. destruct a, b; vm_compute; split; congruence. Qed.

Lemma set_state_run (v : pyval) (w : ActuatorWorld) :
  exists w',
    set_state py_str v w = (Ok tt, w')
    /\ _state (act w') = v
    /\ cls (act w') = cls (act w)
    /\ notifications (events w') =
       notifications (events w) ++
       (if py_ne (_state (act w)) v then [(_state (act w), v)] else []).
Proof.
  unfold set_state, bind, gets, assign_state, modify. simpl.
  destruct (py_ne (_state (act w)) v).
  - unfold _on_state_change, bind, alogger, emit, modify, gets. simpl.
    destruct (cls (act w)); [| |destruct (truthy v)];
      (eexists; split; [reflexivity|]; simpl;
       rewrite !notifications_app; simpl;
       rewrite ?app_nil_r; auto).
  - eexists; split; [reflexivity|]. simpl. rewrite app_nil_r. auto.
Qed.
End Actuators.
End DeviceFacts.

Section ActuatorCommands.
Import Devices.
Variable py_str : pyval -> string.
Variable py_float : pyval -> outcome pyval.

(** A [set_state] with a Boolean the state already has adds nothing. *)
Lemma set_state_same_bool b (w : ActuatorWorld) :
  _state (act w) = VBool b ->
  exists w',
    set_state py_str (VBool b) w = (Ok tt, w')
    /\ _state (act w') = VBool b
    /\ cls (act w') = cls (act w)
    /\ notifications (events w') = notifications (events w).
Proof.
  intros Hs. destruct (set_state_run py_str (VBool b) w)
    as (w' & Hrun & Hst & Hcls & Hn).
  exists w'. repeat split; auto.
  rewrite Hn, Hs. destruct b; simpl; apply app_nil_r.
Qed.

(** The part of the heater's command handling that follows the state:
    it changes neither the state nor the trace. *)
Lemma target_temperature_part (command : Command) (w : ActuatorWorld) :
  let w' := snd (match command !! "target_temperature" with
                 | Some t => f <- lift (py_float t) ;; assign_target_temperature f
                 | None => ret tt
                 end w) in
  _state (act w') = _state (act w) /\ cls (act w') = cls (act w)
  /\ events w' = events w.
Proof.
  destruct (command !! "target_temperature") as [t|]; simpl; [|auto].
  unfold bind, lift, assign_target_temperature, modify.
  destruct (py_float t); simpl; auto.
Qed.

Lemma with_action_block_light command :
  LightActuator_execute_command py_str command =
  action_block py_str "turn_on" "turn_off" command.
Proof. reflexivity. Qed.

Lemma with_action_block_alarm command :
  AlarmActuator_execute_command py_str command =
  action_block py_str "activate" "deactivate" command.
Proof. reflexivity. Qed.

Lemma with_action_block_heater command :
  HeaterActuator_execute_command py_str py_float command =
  (run action_block py_str "turn_on" "turn_off" command ;;
   match command !! "target_temperature" with
   | Some t => f <- lift (py_float t) ;; assign_target_temperature f
   | None => ret tt
   end).
Proof. reflexivity. Qed.

(** A command that is no toggle sets the state to a value fixed by the
    command, with at most one notification, and adds none where the
    state has that value already. *)
Lemma action_block_settles (on off : string) (command : Command)
    (w : ActuatorWorld) :
  (forall action, command !! "action" = Some action ->
                  py_eq action (VStr "toggle") = false) ->
  exists w',
    action_block py_str on off command w = (Ok tt, w')
    /\ cls (act w') = cls (act w)
    /\ (length (notifications (events w'))
        <= Datatypes.S (length (notifications (events w))))%nat
    /\ forall w0, _state (act w0) = _state (act w') ->
         exists w0',
           action_block py_str on off command w0 = (Ok tt, w0')
           /\ cls (act w0') = cls (act w0)
           /\ _state (act w0') = _state (act w0)
           /\ notifications (events w0') = notifications (events w0).
Proof.
  intros Htoggle.
  assert (Hset : forall b, exists w',
    set_state py_str (VBool b) w = (Ok tt, w')
    /\ cls (act w') = cls (act w)
    /\ (length (notifications (events w'))
        <= Datatypes.S (length (notifications (events w))))%nat
    /\ forall w0, _state (act w0) = _state (act w') ->
         exists w0',
           set_state py_str (VBool b) w0 = (Ok tt, w0')
           /\ cls (act w0') = cls (act w0)
           /\ _state (act w0') = _state (act w0)
           /\ notifications (events w0') = notifications (events w0)).
  { intros b.
    destruct (set_state_run py_str (VBool b) w) as (w' & Hrun & Hst & Hc & Hn).
    exists w'. repeat split; auto.
    - rewrite Hn, length_app. destruct (py_ne _ _); simpl; lia.
    - intros w0 Hs0. rewrite Hst in Hs0.
      destruct (set_state_same_bool b w0 Hs0) as (w0' & ? & ? & ? & ?).
      exists w0'. repeat split; auto. congruence. }
  assert (Hret : exists w',
    ret tt w = (Ok tt, w')
    /\ cls (act w') = cls (act w)
    /\ (length (notifications (events w'))
        <= Datatypes.S (length (notifications (events w))))%nat
    /\ forall w0 : ActuatorWorld, _state (act w0) = _state (act w') ->
         exists w0',
           ret tt w0 = (Ok tt, w0')
           /\ cls (act w0') = cls (act w0)
           /\ _state (act w0') = _state (act w0)
           /\ notifications (events w0') = notifications (events w0)).
  { exists w. repeat split; auto. intros w0 _. exists w0. auto. }
  unfold action_block.
  destruct (command !! "action") as [action|] eqn:Ha.
  - rewrite (Htoggle action eq_refl).
    destruct (py_eq action (VStr on)); [apply Hset|].
    destruct (py_eq action (VStr off)); [apply Hset|apply Hret].
  - destruct (command !! "state") as [s|]; [apply Hset | apply Hret].
Qed.
End ActuatorCommands.

Section ActuatorContract.
Import Devices.
Variable py_str : pyval -> string.
Variable py_float : pyval -> outcome pyval.

Lemma execute_command_settles (w : ActuatorWorld) (command : Command) :
  (forall action, command !! "action" = Some action ->
                  py_eq action (VStr "toggle") = false) ->
  cls (act (snd (_execute_command py_str py_float command w))) = cls (act w)
  /\ (length (notifications
                (events (snd (_execute_command py_str py_float command w))))
      <= Datatypes.S (length (notifications (events w))))%nat
  /\ forall w0,
       cls (act w0) = cls (act w) ->
       _state (act w0)
         = _state (act (snd (_execute_command py_str py_float command w))) ->
       notifications (events (snd (_execute_command py_str py_float command w0)))
       = notifications (events w0).
Proof.
  intros Htoggle.
  assert (Hdispatch : forall w0 : ActuatorWorld,
    _execute_command py_str py_float command w0 =
    match cls (act w0) with
    | LightActuator => LightActuator_execute_command py_str command w0
    | HeaterActuator => HeaterActuator_execute_command py_str py_float command w0
    | AlarmActuator => AlarmActuator_execute_command py_str command w0
    end).
  { intros w0. unfold _execute_command, bind, gets. simpl.
    destruct (cls (act w0)); reflexivity. }
  rewrite Hdispatch.
  destruct (cls (act w)) eqn:Hcls.
  - rewrite with_action_block_light.
    destruct (action_block_settles py_str "turn_on" "turn_off" command w Htoggle)
      as (w1 & -> & Hc & Hlen & Hagain). simpl.
    repeat split; [congruence | exact Hlen |].
    intros w0 Hc0 Hs0. rewrite Hdispatch, Hc0, with_action_block_light.
    destruct (Hagain w0 Hs0) as (w2 & -> & _ & _ & Hn). exact Hn.
  - rewrite with_action_block_heater.
    destruct (action_block_settles py_str "turn_on" "turn_off" command w Htoggle)
      as (w1 & Hrun & Hc & Hlen & Hagain).
    rewrite (bind_ok _ _ _ _ _ Hrun).
    destruct (target_temperature_part py_float command w1) as (Hs & Hc' & He).
    cbv zeta in Hs, Hc', He. rewrite Hc', He, Hs.
    repeat split; [congruence | exact Hlen |].
    intros w0 Hc0 Hs0.
    rewrite Hdispatch, Hc0, with_action_block_heater.
    destruct (Hagain w0 Hs0) as (w2 & Hrun2 & _ & _ & Hn).
    rewrite (bind_ok _ _ _ _ _ Hrun2).
    destruct (target_temperature_part py_float command w2) as (_ & _ & He2).
    cbv zeta in He2. rewrite He2. exact Hn.
  - rewrite with_action_block_alarm.
    destruct (action_block_settles py_str "activate" "deactivate" command w Htoggle)
      as (w1 & -> & Hc & Hlen & Hagain). simpl.
    repeat split; [congruence | exact Hlen |].
    intros w0 Hc0 Hs0. rewrite Hdispatch, Hc0, with_action_block_alarm.
    destruct (Hagain w0 Hs0) as (w2 & -> & _ & _ & Hn). exact Hn.
Qed.

(** C2.  [set_state(v)] stores [v] and calls [_on_state_change] once if
    [v] differs from the previous state, and not at all otherwise (for
    Boolean states, differing is being the other Boolean); a command
    that sets the state to a fixed value (any command but a toggle),
    executed twice in a row, causes at most one notification, and none
    the second time. *)
Theorem set_state_notifies_iff_changed
    (w : ActuatorWorld) (v : pyval) (command : Command) :
  (exists w',
     set_state py_str v w = (Ok tt, w')
     /\ _state (act w') = v
     /\ notifications (events w') =
        notifications (events w) ++
        (if py_ne (_state (act w)) v then [(_state (act w), v)] else []))
  /\ (forall a b, py_ne (VBool a) (VBool b) = true <-> a <> b)
  /\ ((forall action, command !! "action" = Some action ->
                      py_eq action (VStr "toggle") = false) ->
      let w1 := snd (_execute_command py_str py_float command w) in
      let w2 := snd (_execute_command py_str py_float command w1) in
      (length (notifications (events w1))
       <= Datatypes.S (length (notifications (events w))))%nat
      /\ notifications (events w2) = notifications (events w1)).
Proof.
  split; [|split].
  - destruct (set_state_run py_str v w) as (w' & ? & ? & ? & ?). eauto.
  - apply py_ne_bool.
  - intros Htoggle.
    destruct (execute_command_settles w command Htoggle) as (Hc & Hlen & Hagain).
    cbv zeta. split; [exact Hlen|]. apply Hagain; [exact Hc | reflexivity].
Qed.

(** C10.  When a command has an ['action'] key, what [_execute_command]
    does is the same whether a ['state'] key is present, with any value,
    or absent, and it is what the action says: [turn_on] and [turn_off]
    ([activate] and [deactivate] for the alarm) set the state, [toggle]
    negates it, any other action leaves it, whatever the ['state'] entry
    holds; when the command has no ['action'] key, a ['state'] key sets
    the state to the truth value of its entry. *)
Theorem action_key_shadows_state_key
    (w : ActuatorWorld) (command : Command) (v : pyval) :
  (is_Some (command !! "action") ->
   _execute_command py_str py_float (<["state" := v]> command) w
   = _execute_command py_str py_float (delete "state" command) w)
  /\ (command !! "action" = None ->
      _state (act (snd (_execute_command py_str py_float
                          (<["state" := v]> command) w)))
      = VBool (truthy v))
  /\ (forall a, command !! "action" = Some (VStr a) ->
      _state (act (snd (_execute_command py_str py_float
                          (<["state" := v]> command) w)))
      = action_effect (cls (act w)) a (_state (act w))).
Proof.
  split; [|split].
  - intros [action Ha].
    unfold _execute_command, bind, gets. simpl.
    unfold LightActuator_execute_command, HeaterActuator_execute_command,
      AlarmActuator_execute_command.
    rewrite (lookup_insert_ne command "state" "action" v) by discriminate.
    rewrite (lookup_delete_ne command "state" "action") by discriminate.
    rewrite (lookup_insert_ne command "state" "target_temperature" v)
      by discriminate.
    rewrite (lookup_delete_ne command "state" "target_temperature")
      by discriminate.
    rewrite Ha. reflexivity.
  - intros Ha.
    assert (Hblock : forall on off,
      exists w', action_block py_str on off (<["state" := v]> command) w
                 = (Ok tt, w') /\ _state (act w') = VBool (truthy v)).
    { intros on off. unfold action_block.
      rewrite lookup_insert_ne, Ha, lookup_insert_eq by discriminate.
      destruct (set_state_run py_str (VBool (truthy v)) w) as (w' & ? & ? & _).
      eauto. }
    unfold _execute_command, bind at 1, gets at 1. simpl.
    destruct (cls (act w)).
    + rewrite with_action_block_light.
      destruct (Hblock "turn_on" "turn_off") as (w' & -> & Hs). exact Hs.
    + rewrite with_action_block_heater.
      destruct (Hblock "turn_on" "turn_off") as (w' & Hrun & Hs).
      rewrite (bind_ok _ _ _ _ _ Hrun).
      destruct (target_temperature_part py_float (<["state" := v]> command) w')
        as (Hs' & _). rewrite <- Hs. exact Hs'.
    + rewrite with_action_block_alarm.
      destruct (Hblock "activate" "deactivate") as (w' & -> & Hs). exact Hs.
  - intros a Ha.
    assert (Hblock : forall on off,
      exists w', action_block py_str on off (<["state" := v]> command) w
                 = (Ok tt, w')
                 /\ _state (act w') =
                    (if String.eqb a on then VBool true
                     else if String.eqb a off then VBool false
                     else if String.eqb a "toggle"
                          then VBool (negb (truthy (_state (act w))))
                          else _state (act w))).
    { intros on off. unfold action_block.
      rewrite lookup_insert_ne by discriminate. rewrite Ha. cbn [py_eq].
      destruct (String.eqb a on).
      { destruct (set_state_run py_str (VBool true) w) as (w' & ? & ? & _).
        eauto. }
      destruct (String.eqb a off).
      { destruct (set_state_run py_str (VBool false) w) as (w' & ? & ? & _).
        eauto. }
      destruct (String.eqb a "toggle"); [|exists w; auto].
      unfold bind at 1, get_state, gets.
      destruct (set_state_run py_str (py_not (_state (act w))) w)
        as (w' & ? & ? & _).
      eauto. }
    unfold _execute_command, bind at 1, gets at 1. simpl.
    unfold action_effect. destruct (cls (act w)).
    + rewrite with_action_block_light.
      destruct (Hblock "turn_on" "turn_off") as (w' & -> & Hs). exact Hs.
    + rewrite with_action_block_heater.
      destruct (Hblock "turn_on" "turn_off") as (w' & Hrun & Hs).
      rewrite (bind_ok _ _ _ _ _ Hrun).
      destruct (target_temperature_part py_float (<["state" := v]> command) w')
        as (Hs' & _). rewrite <- Hs. exact Hs'.
    + rewrite with_action_block_alarm.
      destruct (Hblock "activate" "deactivate") as (w' & -> & Hs). exact Hs.
Qed.
End ActuatorContract.

Lemma set_state_notifies_iff_changed_witness :
  let w1 := snd (Devices._execute_command show_nothing float_of_number
                   turn_on_command light_off) in
  let w2 := snd (Devices._execute_command show_nothing float_of_number
                   turn_on_command w1) in
  (length (Devices.notifications (Devices.events w1))
   <= Datatypes.S (length (Devices.notifications (Devices.events light_off))))%nat
  /\ Devices.notifications (Devices.events w2)
     = Devices.notifications (Devices.events w1).
Proof.
  apply (set_state_notifies_iff_changed show_nothing float_of_number
           light_off VNone turn_on_command).
  intros action H. vm_compute in H. injection H as <-. reflexivity.
Defined.

Lemma action_key_shadows_state_key_witness :
  Devices._execute_command show_nothing float_of_number
    (<["state" := VBool false]> turn_on_command) light_off
  = Devices._execute_command show_nothing float_of_number
      (delete "state" turn_on_command) light_off
  /\ Devices._state
       (Devices.act
          (snd (Devices._execute_command show_nothing float_of_number
                  (<["state" := VInt 1]> ∅) light_off)))
     = VBool (truthy (VInt 1))
  /\ Devices._state
       (Devices.act
          (snd (Devices._execute_command show_nothing float_of_number
                  (<["state" := VBool false]> turn_on_command) light_off)))
     = VBool true.
Proof.
  split; [|split].
  - apply (action_key_shadows_state_key show_nothing float_of_number
             light_off turn_on_command (VBool false)).
    exists (VStr "turn_on"). vm_compute. reflexivity.
  - apply (action_key_shadows_state_key show_nothing float_of_number
             light_off ∅ (VInt 1)).
    reflexivity.
  - refine (proj2 (proj2 (action_key_shadows_state_key
                            show_nothing float_of_number
                            light_off turn_on_command (VBool false)))
                  "turn_on" _).
    vm_compute. reflexivity.
Defined.

(* ===================================================================== *)
(** ** The hub: snapshots and routing *)
(* ===================================================================== *)

Section Preservation.
Context {W : Type} (I : W -> Prop).


Lemma preserves_raise {A} e : preserves I (raise (A := A) e).
Proof. intros w Hw. exact Hw. Qed.



End Preservation.

Section HubFacts.
Import Hub.








Lemma route_commands_run (commands : list Command) : forall w,
  Forall hashable_addressee commands ->
  exists qs,
    for_each commands tt (fun _ command =>
      let actuator_name := default VNone (command !! "actuator") in
      q <- registered actuator_name ;;
      match q with
      | Some q => Queue_put q command
      | None => ret tt
      end) w = (Ok tt, with_queues qs w)
    /\ forall q, default [] (qs !! q) =
                 default [] (queues w !! q)
                 ++ filter (fun c => route (actuator_command_queues w) c = Some q)
                           commands.
Proof.
  induction commands as [|c commands IH]; intros w Hall.
  - exists (queues w). simpl. unfold ret. split; [destruct w; reflexivity|].
    intros q. rewrite app_nil_r. reflexivity.
  - inversion Hall as [|? ? Hc Hrest]; subst.
    assert (Hreg : registered (default VNone (c !! "actuator")) w
                   = (Ok (route (actuator_command_queues w) c), w)).
    { unfold hashable_addressee, route in *.
      destruct (c !! "actuator") as [[| | | | |]|]; simpl; try reflexivity.
      contradiction. }
    cbn [for_each].
    destruct (route (actuator_command_queues w) c) as [q0|] eqn:Hroute.
    + destruct (IH (with_queues (<[q0 := default [] (queues w !! q0) ++ [c]]>
                                   (queues w)) w) Hrest) as (qs & Hrun & Hqs).
      exists qs. split.
      * erewrite bind_ok;
          [|cbv zeta; erewrite bind_ok by exact Hreg;
            unfold Queue_put, modify; reflexivity].
        exact Hrun.
      * intros q. rewrite Hqs. simpl.
        destruct (decide (q = q0)) as [->|Hne].
        -- rewrite lookup_insert_eq. simpl.
           rewrite filter_cons_True by exact Hroute.
           rewrite <- app_assoc. reflexivity.
        -- rewrite lookup_insert_ne by congruence.
           rewrite filter_cons_False by congruence. reflexivity.
    + destruct (IH w Hrest) as (qs & Hrun & Hqs).
      exists qs. split.
      * erewrite bind_ok;
          [|cbv zeta; erewrite bind_ok by exact Hreg; reflexivity].
        exact Hrun.
      * intros q. rewrite Hqs. rewrite filter_cons_False by congruence.
        reflexivity.
Qed.
End HubFacts.




(** C3, on the code.  A snapshot returned by [get_state] shares its
    per-sensor entries with the hub's state: after the next refresh the
    snapshot taken earlier shows the new sensor value, both under
    ["temperature"] and under ["sensors"]; its per-actuator entries are
    rebuilt on every refresh and stay as they were. *)
Theorem snapshot_shares_sensor_entries :
  exists snap w1 w2,
    refresh_then_get_state small_hub = (Ok snap, w1)
    /\ Hub._update_state (sensor_reads (VFloat 21) w1) = (Ok tt, w2)
    /\ Hub.read_path (Hub.heap w1) snap ["temperature"; "value"]
       = Some (Hub.HVal (VFloat 20))
    /\ Hub.read_path (Hub.heap w2) snap ["temperature"; "value"]
       = Some (Hub.HVal (VFloat 21))
    /\ Hub.read_path (Hub.heap w2) snap ["sensors"; "temperature"; "value"]
       = Some (Hub.HVal (VFloat 21))
    /\ Hub.read_path (Hub.heap w2) snap ["heater"; "state"]
       = Hub.read_path (Hub.heap w1) snap ["heater"; "state"].
Proof.
  eexists _, _, _.
  split; [vm_compute; reflexivity|].
  split; [vm_compute; reflexivity|].
  repeat split; vm_compute; reflexivity.
Qed.


(* ===================================================================== *)
(** ** Further properties of the rule engine *)
(* ===================================================================== *)

Lemma for_each_app {W A X} (body : A -> X -> M W A) (xs ys : list X) acc w :
  for_each (xs ++ ys) acc body w =
  bind (for_each xs acc body) (fun acc' => for_each ys acc' body) w.
Proof.
  revert acc w. induction xs as [|x xs IH]; intros acc w; simpl.
  - reflexivity.
  - unfold bind in *. destruct (body acc x w) as [[a|e] w1]; [apply IH|reflexivity].
Qed.

Section AddRule.
Context {S : Type}.
Implicit Types (r x : Rule S) (l : list (Rule S)).

Lemma filter_all_priority (P : Rule S -> Prop) `{forall x, Decision (P x)} l :
  Forall P l -> filter P l = l.
Proof.
  induction 1 as [|x l Hx _ IH]; [reflexivity|].
  rewrite filter_cons_True by exact Hx. rewrite IH. reflexivity.
Qed.

Lemma filter_none_priority (P : Rule S -> Prop) `{forall x, Decision (P x)} l :
  Forall (fun x => ~ P x) l -> filter P l = [].
Proof.
  induction 1 as [|x l Hx _ IH]; [reflexivity|].
  rewrite filter_cons_False by exact Hx. exact IH.
Qed.

(** Where the rule added last comes to stand in a list that was in order. *)
Lemma list_sort_snoc r l :
  StronglySorted by_priority l ->
  list_sort (l ++ [r]) =
  filter (fun x => (priority x <= priority r)%Z) l
  ++ r :: filter (fun x => (priority r < priority x)%Z) l.
Proof.
  induction 1 as [|x l Hs IH Hx]; [reflexivity|].
  change (list_sort ((x :: l) ++ [r])) with (sort_insert x (list_sort (l ++ [r]))).
  rewrite IH. unfold by_priority in Hx.
  destruct (decide (priority x <= priority r)%Z) as [Hle|Hgt].
  - rewrite filter_cons_True by exact Hle.
    rewrite (filter_cons_False (fun x0 => (priority r < priority x0)%Z)) by lia.
    apply sort_insert_head. apply Forall_forall. intros y Hy.
    rewrite Forall_forall in Hx.
    apply elem_of_app in Hy as [Hy|Hy].
    + apply list_elem_of_filter in Hy as [_ Hy]. apply Hx, Hy.
    + apply elem_of_cons in Hy as [->|Hy]; [exact Hle|].
      apply list_elem_of_filter in Hy as [_ Hy]. apply Hx, Hy.
  - rewrite filter_cons_False by exact Hgt.
    rewrite (filter_cons_True (fun x0 => (priority r < priority x0)%Z)) by lia.
    rewrite (filter_none_priority (fun x0 => (priority x0 <= priority r)%Z)).
    2:{ eapply Forall_impl; [exact Hx|]. simpl. intros; lia. }
    rewrite (filter_all_priority (fun x0 => (priority r < priority x0)%Z)).
    2:{ eapply Forall_impl; [exact Hx|]. simpl. intros; lia. }
    simpl. destruct (Z.ltb_spec (priority r) (priority x)); [|lia].
    f_equal. apply sort_insert_head, Hx.
Qed.

(** X1.  [add_rule] puts the new rule behind every rule whose priority is
    not greater than its own and before every rule of greater priority;
    the rules that were there keep their order. *)
Theorem add_rule_goes_behind_equal_priority (added : list (Rule S)) r :
  rules (engine_of (added ++ [r])) =
  filter (fun x => (priority x <= priority r)%Z) (rules (engine_of added))
  ++ as_added r
     :: filter (fun x => (priority r < priority x)%Z) (rules (engine_of added)).
Proof.
  unfold engine_of. rewrite for_each_app.
  destruct (add_rules_run added (mkEngine [] 0%nat []))
    as (w' & Hrun & Hsorted & _); [constructor|].
  rewrite (bind_ok _ _ _ _ _ Hrun), Hrun. simpl.
  apply (list_sort_snoc (as_added r)), Hsorted.
Qed.
End AddRule.

Section BuiltinRules.
Variable wall_clock : nat -> datetime.
Variable config : gmap string pyval.
Variable state : Snapshot.

Local Abbreviation rc := (rules_section config).

(** What a cycle of the built-in rules returns, rule by rule. *)
Lemma builtin_commands :
  fst (evaluate_rules wall_clock state (RuleEngine_init config)) =
  Ok (contribution state (security_alarm_rule rc)
      ++ contribution state (temp_low_rule rc)
      ++ contribution state (temp_high_rule rc)
      ++ contribution state (motion_light_rule rc)
      ++ contribution state no_motion_light_rule).
Proof.
  destruct (evaluate_rules_run wall_clock state (RuleEngine_init config))
    as (w' & -> & _).
  unfold RuleEngine_init. fold rc. rewrite default_rules_in_order. simpl.
  rewrite app_nil_r. reflexivity.
Qed.

Lemma temp_low_needs_heater_off :
  fires (temp_low_rule rc) state = true ->
  exists h, reading state "heater" "state" (VBool false) = Ok h /\ truthy h = false.
Proof.
  unfold fires, reading. simpl. unfold temp_low_condition, obind.
  destruct (py_get (state_get state "temperature") _ _) as [t|]; simpl;
    [|discriminate].
  destruct (py_get (state_get state "heater") _ _) as [h|]; simpl; [|discriminate].
  unfold py_and at 1.
  destruct (truthy (is_not_None t)) eqn:Hn;
    [|intros H; simpl in H, Hn; congruence].
  destruct (py_get rc _ _) as [th|]; simpl; [|discriminate].
  destruct (py_lt t th) as [below|]; simpl; [|discriminate].
  unfold py_and. destruct (truthy below) eqn:Hb; [|congruence].
  simpl. intros Hh. exists h. split; [reflexivity|].
  destruct (truthy h); [discriminate | reflexivity].
Qed.

Lemma temp_high_needs_heater_on :
  fires (temp_high_rule rc) state = true ->
  exists h, reading state "heater" "state" (VBool false) = Ok h /\ truthy h = true.
Proof.
  unfold fires, reading. simpl. unfold temp_high_condition, obind.
  destruct (py_get (state_get state "temperature") _ _) as [t|]; simpl;
    [|discriminate].
  destruct (py_get (state_get state "heater") _ _) as [h|]; simpl; [|discriminate].
  unfold py_and at 1.
  destruct (truthy (is_not_None t)) eqn:Hn;
    [|intros H; simpl in H, Hn; congruence].
  destruct (py_get rc _ _) as [th|]; simpl; [|discriminate].
  destruct (py_gt t th) as [above|]; simpl; [|discriminate].
  unfold py_and. destruct (truthy above) eqn:Hb; [|congruence].
  eauto.
Qed.

Lemma motion_light_needs_motion :
  fires (motion_light_rule rc) state = true ->
  truthy_reading (reading state "motion" "value" (VBool false)).
Proof.
  unfold fires, reading, truthy_reading. simpl. unfold motion_light_condition, obind.
  destruct (py_get (state_get state "motion") _ _) as [mv|]; simpl; [|discriminate].
  destruct (py_get (state_get state "light") _ _) as [lv|]; simpl; [|discriminate].
  destruct (py_get (state_get state "light_actuator") _ _) as [la|]; simpl;
    [|discriminate].
  unfold py_and at 1. destruct (truthy mv) eqn:Hm; [eauto | congruence].
Qed.

Lemma no_motion_light_needs_no_motion :
  fires no_motion_light_rule state = true ->
  falsy_or_unreadable (reading state "motion" "value" (VBool false)).
Proof.
  unfold fires, reading, falsy_or_unreadable. simpl.
  unfold no_motion_light_condition, obind.
  destruct (py_get (state_get state "motion") _ _) as [mv|]; simpl; [|discriminate].
  destruct (py_get (state_get state "light_actuator") _ _) as [la|]; simpl;
    [|discriminate].
  unfold py_and, py_not. simpl. destruct (truthy mv); [discriminate | reflexivity].
Qed.

Lemma security_alarm_needs_home_empty :
  home_occupied rc -> fires (security_alarm_rule rc) state = false.
Proof.
  unfold home_occupied, fires. simpl. unfold security_alarm_condition, obind.
  destruct (py_get (state_get state "motion") _ _) as [mv|]; simpl; [|reflexivity].
  destruct (py_get rc _ _) as [ho|]; simpl; [|reflexivity].
  destruct (py_get (state_get state "alarm") _ _) as [al|]; simpl; [|reflexivity].
  intros Hho. unfold py_and, py_not. rewrite Hho. simpl.
  destruct (truthy mv) eqn:Hm; [reflexivity | exact Hm].
Qed.

(** X2.  In one cycle the built-in rules return at most one command for
    each actuator: turning the heater on and off exclude each other, and
    so do turning the lights on and off.  No other command than the five
    of the built-in rules is returned. *)
Theorem builtin_rules_one_command_per_actuator :
  exists commands,
    fst (evaluate_rules wall_clock state (RuleEngine_init config)) = Ok commands
    /\ NoDup (map addressee commands)
    /\ Forall (fun c => c ∈ [alarm_activate; heater_turn_on; heater_turn_off;
                             light_turn_on; light_turn_off]) commands.
Proof.
  rewrite builtin_commands. eexists. split; [reflexivity|].
  unfold contribution.
  change (produced (security_alarm_rule rc) state) with [alarm_activate].
  change (produced (temp_low_rule rc) state) with [heater_turn_on].
  change (produced (temp_high_rule rc) state) with [heater_turn_off].
  change (produced (motion_light_rule rc) state) with [light_turn_on].
  change (produced no_motion_light_rule state) with [light_turn_off].
  destruct (fires (temp_low_rule rc) state) eqn:Hlow;
    destruct (fires (temp_high_rule rc) state) eqn:Hhigh;
    try (destruct (temp_low_needs_heater_off Hlow) as (h & Hh & Hf);
         destruct (temp_high_needs_heater_on Hhigh) as (h' & Hh' & Ht);
         congruence);
    destruct (fires (motion_light_rule rc) state) eqn:Hml;
    destruct (fires no_motion_light_rule state) eqn:Hnml;
    try (destruct (motion_light_needs_motion Hml) as (mv & Hmv & Ht);
         pose proof (no_motion_light_needs_no_motion Hnml) as Hn;
         rewrite Hmv in Hn; simpl in Hn; congruence);
    destruct (fires (security_alarm_rule rc) state);
    (split;
     [ apply (bool_decide_unpack _); vm_compute; exact I
     | simpl; repeat constructor ]).
Qed.
End BuiltinRules.

Lemma Qlt_bool_iff (x y : Q) : Qlt_bool x y = true <-> (x < y)%Q.
Proof.
  unfold Qlt_bool. destruct (Qle_bool y x) eqn:Hle; simpl.
  - apply Qle_bool_iff in Hle. split; [discriminate|].
    intros Hlt. exfalso. exact (Qlt_not_le _ _ Hlt Hle).
  - split; [|reflexivity]. intros _. apply Qnot_le_lt. intros Hle'.
    apply Qle_bool_iff in Hle'. congruence.
Qed.

Lemma contribution_addressee (r : Rule Snapshot) (state : Snapshot) (c : Command)
    (n : string) :
  (forall s, action_func r s = Ok [c]) -> addressee c <> Some n ->
  Forall (fun c => addressee c <> Some n) (contribution state r).
Proof.
  intros Hact Hc. unfold contribution, produced. rewrite Hact.
  destruct (fires r state); repeat constructor. exact Hc.
Qed.

(** X3.  While the configuration does not declare the house empty (the
    [home_occupied] flag is absent, truthy or unreadable), no cycle
    returns a command for the alarm, whatever the snapshot. *)
Theorem alarm_never_commanded_while_home_occupied
    (wall_clock : nat -> datetime) (config : gmap string pyval)
    (state : Snapshot) :
  home_occupied (rules_section config) ->
  exists commands,
    fst (evaluate_rules wall_clock state (RuleEngine_init config)) = Ok commands
    /\ Forall (fun c => addressee c <> Some "alarm") commands.
Proof.
  intros Hhome. rewrite builtin_commands. eexists. split; [reflexivity|].
  unfold contribution at 1.
  rewrite (security_alarm_needs_home_empty config state Hhome). simpl.
  repeat (apply Forall_app; split);
    (eapply contribution_addressee; [intros s; reflexivity | vm_compute; discriminate]).
Qed.

Lemma alarm_never_commanded_while_home_occupied_witness :
  exists commands,
    fst (evaluate_rules (fun _ => 0) motion_in_the_hall (RuleEngine_init ∅))
      = Ok commands
    /\ Forall (fun c => addressee c <> Some "alarm") commands.
Proof.
  apply (alarm_never_commanded_while_home_occupied (fun _ => 0) ∅ motion_in_the_hall).
  vm_compute. reflexivity.
Defined.

(** X4.  When the configuration declares the house empty, motion with the
    alarm off makes the alarm command the first command of the cycle. *)
Theorem alarm_commanded_first_when_home_empty
    (wall_clock : nat -> datetime) (config : gmap string pyval)
    (state : Snapshot) (ho al : pyval) :
  py_get (rules_section config) "home_occupied" (VBool true) = Ok ho ->
  truthy ho = false ->
  truthy_reading (reading state "motion" "value" (VBool false)) ->
  reading state "alarm" "state" (VBool false) = Ok al ->
  truthy al = false ->
  exists rest,
    fst (evaluate_rules wall_clock state (RuleEngine_init config))
    = Ok (alarm_activate :: rest).
Proof.
  intros Hho Hhof (mv & Hmv & Hmt) Hal Half.
  rewrite builtin_commands. unfold contribution at 1.
  assert (Hf : fires (security_alarm_rule (rules_section config)) state = true).
  { unfold fires, reading in *. simpl. unfold security_alarm_condition, obind.
    rewrite Hmv, Hho, Hal. unfold py_and, py_not. rewrite Hmt, Hhof, Half.
    reflexivity. }
  rewrite Hf. eexists. reflexivity.
Qed.

Lemma alarm_commanded_first_when_home_empty_witness :
  exists rest,
    fst (evaluate_rules (fun _ => 0) motion_in_the_hall (RuleEngine_init house_empty))
    = Ok (alarm_activate :: rest).
Proof.
  apply (alarm_commanded_first_when_home_empty (fun _ => 0) house_empty
           motion_in_the_hall (VBool false) (VBool false)).
  - vm_compute; reflexivity.
  - reflexivity.
  - exists (VBool true). split; [vm_compute; reflexivity | reflexivity].
  - vm_compute; reflexivity.
  - reflexivity.
Defined.

(** X5.  With a numeric temperature and a numeric low threshold, the
    heater-on rule fires exactly when the temperature is below the
    threshold and the heater state is falsy. *)
Theorem temp_low_fires_iff_below_threshold
    (rules_config : pyval) (state : Snapshot) (t h th : pyval) (x y : Q) :
  reading state "temperature" "value" VNone = Ok t ->
  as_number t = Some x ->
  reading state "heater" "state" (VBool false) = Ok h ->
  py_get rules_config "temperature_threshold_low" (VFloat 18) = Ok th ->
  as_number th = Some y ->
  fires (temp_low_rule rules_config) state = true
  <-> (x < y)%Q /\ truthy h = false.
Proof.
  intros Ht Hx Hh Hth Hy. unfold fires, reading in *. simpl.
  unfold temp_low_condition, obind. rewrite Ht, Hh.
  assert (Hn : truthy (is_not_None t) = true) by (destruct t; try discriminate; reflexivity).
  unfold py_and at 1. rewrite Hn, Hth.
  unfold py_lt. rewrite Hx, Hy. unfold py_and, py_not. simpl.
  rewrite <- Qlt_bool_iff.
  destruct (Qlt_bool x y); simpl; destruct (truthy h); simpl; intuition congruence.
Qed.

Lemma temp_low_fires_iff_below_threshold_witness :
  fires (temp_low_rule (VDict ∅)) cold_room_lights_off = true
  <-> (15 < 18)%Q /\ truthy (VBool false) = false.
Proof.
  apply (temp_low_fires_iff_below_threshold (VDict ∅) cold_room_lights_off
           (VFloat 15) (VBool false) (VFloat 18) 15 18);
    vm_compute; reflexivity.
Defined.

(** X6.  A low threshold that is not a number (a string, say) silences the
    heater-on rule for every numeric temperature: the comparison raises
    and the rule counts as not fired. *)
Theorem temp_low_silent_with_non_numeric_threshold
    (rules_config : pyval) (state : Snapshot) (t th : pyval) (x : Q) :
  reading state "temperature" "value" VNone = Ok t ->
  as_number t = Some x ->
  py_get rules_config "temperature_threshold_low" (VFloat 18) = Ok th ->
  as_number th = None ->
  fires (temp_low_rule rules_config) state = false.
Proof.
  intros Ht Hx Hth Hy. unfold fires, reading in *. simpl.
  unfold temp_low_condition, obind. rewrite Ht.
  destruct (py_get (state_get state "heater") _ _) as [h|]; [|reflexivity].
  unfold py_and at 1.
  destruct (truthy (is_not_None t)) eqn:Hn; [|exact Hn].
  rewrite Hth. unfold py_lt. rewrite Hx, Hy.
  destruct t; try discriminate; reflexivity.
Qed.

Lemma temp_low_silent_with_non_numeric_threshold_witness :
  fires (temp_low_rule (rules_section threshold_as_text)) cold_room_lights_off
  = false.
Proof.
  apply (temp_low_silent_with_non_numeric_threshold
           (rules_section threshold_as_text) cold_room_lights_off
           (VFloat 15) (VStr "18") 15);
    vm_compute; reflexivity.
Defined.

(** X7.  On the empty snapshot (the state before the first refresh) the
    built-in rules return no command, whatever the configuration. *)
Theorem builtin_rules_silent_on_empty_snapshot
    (wall_clock : nat -> datetime) (config : gmap string pyval) :
  fst (evaluate_rules wall_clock ∅ (RuleEngine_init config)) = Ok [].
Proof.
  rewrite builtin_commands. unfold contribution.
  generalize (rules_section config). intros rules_config.
  assert (H0 : fires (security_alarm_rule rules_config) ∅ = false)
    by (destruct rules_config; reflexivity).
  assert (H1 : fires (temp_low_rule rules_config) ∅ = false) by reflexivity.
  assert (H2 : fires (temp_high_rule rules_config) ∅ = false) by reflexivity.
  assert (H3 : fires (motion_light_rule rules_config) ∅ = false) by reflexivity.
  assert (H4 : fires no_motion_light_rule ∅ = false) by reflexivity.
  rewrite H0, H1, H2, H3, H4. reflexivity.
Qed.

(** X8.  With the default high threshold (22.0), on every snapshot where
    the temperature is above 22.0, the heater is on, no motion is reported
    and the light actuator is off, the built-in rules return exactly the
    command that turns the heater off. *)
Theorem warm_room_emits_heater_turn_off
    (wall_clock : nat -> datetime) (config m : gmap string pyval)
    (state : Snapshot) (q : Q) :
  rules_section config = VDict m ->
  m !! "temperature_threshold_high" = None ->
  reading state "temperature" "value" VNone = Ok (VFloat q) ->
  (22 < q)%Q ->
  truthy_reading (reading state "heater" "state" (VBool false)) ->
  falsy_or_unreadable (reading state "motion" "value" (VBool false)) ->
  falsy_or_unreadable (reading state "light_actuator" "state" (VBool false)) ->
  fst (evaluate_rules wall_clock state (RuleEngine_init config))
  = Ok [heater_turn_off].
Proof.
  intros Hcfg Hhigh Htemp Hq (h & Hheater & Hon) Hmotion Hlights.
  rewrite builtin_commands. unfold contribution.
  assert (Hlow : fires (temp_low_rule (rules_section config)) state = false).
  { destruct (fires (temp_low_rule (rules_section config)) state) eqn:Hf;
      [|reflexivity].
    destruct (temp_low_needs_heater_off config state Hf) as (h' & Hh' & Hoff).
    congruence. }
  rewrite Hlow, Hcfg.
  unfold security_alarm_rule, motion_light_rule, no_motion_light_rule.
  erewrite security_alarm_idle by eassumption.
  erewrite motion_light_idle by eassumption.
  erewrite no_motion_light_idle by eassumption.
  assert (Hf : fires (temp_high_rule (VDict m)) state = true).
  { unfold fires, reading in *. simpl. unfold temp_high_condition, obind.
    rewrite Htemp, Hheater. simpl. rewrite Hhigh. simpl.
    unfold py_gt. simpl. apply Qlt_bool_iff in Hq. rewrite Hq. simpl.
    exact Hon. }
  rewrite Hf. reflexivity.
Qed.

Lemma warm_room_emits_heater_turn_off_witness :
  fst (evaluate_rules (fun _ => 0) warm_room_heater_on (RuleEngine_init ∅))
  = Ok [heater_turn_off].
Proof.
  apply (warm_room_emits_heater_turn_off (fun _ => 0) ∅ ∅ warm_room_heater_on 23).
  - reflexivity.
  - reflexivity.
  - vm_compute; reflexivity.
  - reflexivity.
  - exists (VBool true). split; [vm_compute; reflexivity | reflexivity].
  - vm_compute; reflexivity.
  - vm_compute; reflexivity.
Defined.


(* ===================================================================== *)
(** ** Further properties of the devices *)
(* ===================================================================== *)

Section Lifecycle.
Import Devices.

Lemma threads_started_app tr tr' :
  threads_started (tr ++ tr') = threads_started tr ++ threads_started tr'.
Proof. unfold threads_started. apply omap_app. Qed.

Lemma start_fresh_run (d : Device) (tr : list Event) :
  enabled d = true -> _running d = false ->
  start (mkDW d tr) =
    (Ok tt,
     mkDW (mkDevice (device_id d) (name d) true true
                    (Some (mkThread (device_id d) true)))
          (tr ++ [EThreadStart (mkThread (device_id d) true);
                  ELog (Log INFO (name d +:+ " started"))])).
Proof.
  intros He Hr. destruct d; simpl in *; subst.
  unfold start, bind, gets, logger, modify, set_running, set_thread, Thread_start.
  simpl. rewrite <- app_assoc. reflexivity.
Qed.

Lemma start_running_run (d : Device) (tr : list Event) :
  enabled d = true -> _running d = true ->
  start (mkDW d tr) =
    (Ok tt, mkDW d (tr ++ [ELog (Log WARNING (name d +:+ " is already running"))])).
Proof.
  intros He Hr. unfold start, bind, gets, logger, modify. simpl.
  rewrite He, Hr. reflexivity.
Qed.

Lemma stop_run (d : Device) (tr : list Event) :
  stop (mkDW d tr) =
    (Ok tt,
     mkDW (mkDevice (device_id d) (name d) (enabled d) false (_thread d))
          (tr ++ [ELog (Log INFO (name d +:+ " stopped"))])).
Proof.
  unfold stop, bind, gets, logger, modify, set_running, Thread_join, ret. simpl.
  destruct (_thread d); reflexivity.
Qed.

(** X9.  Calling [start] twice on an enabled device starts its loop once:
    the second call only logs a warning. *)
Theorem start_twice_starts_one_thread (d : Device) (tr : list Event) :
  enabled d = true -> _running d = false ->
  exists w',
    (run start ;; start) (mkDW d tr) = (Ok tt, w')
    /\ _running (self w') = true
    /\ threads_started (trace w') =
       threads_started tr ++ [mkThread (device_id d) true].
Proof.
  intros He Hr.
  rewrite (bind_ok _ _ _ _ _ (start_fresh_run d tr He Hr)).
  rewrite start_running_run by reflexivity.
  eexists. split; [reflexivity|]. simpl. split; [reflexivity|].
  rewrite !threads_started_app. simpl. rewrite app_nil_r. reflexivity.
Qed.

Lemma start_twice_starts_one_thread_witness :
  exists w',
    (run start ;; start) (mkDW (Device_init "temp_01" "Temperature Sensor" true) [])
      = (Ok tt, w')
    /\ _running (self w') = true
    /\ threads_started (trace w') = [mkThread "temp_01" true].
Proof.
  apply (start_twice_starts_one_thread
           (Device_init "temp_01" "Temperature Sensor" true) []); reflexivity.
Defined.

(** X10.  [stop] after [start] clears the running flag and keeps the
    thread handle; a [start] after that runs the loop again in a second
    thread: a stopped device can be restarted. *)
Theorem stopped_device_restarts (d : Device) (tr : list Event) :
  enabled d = true -> _running d = false ->
  exists w1 w2,
    (run start ;; stop) (mkDW d tr) = (Ok tt, w1)
    /\ fst (is_running w1) = Ok false
    /\ _thread (self w1) = Some (mkThread (device_id d) true)
    /\ start w1 = (Ok tt, w2)
    /\ fst (is_running w2) = Ok true
    /\ threads_started (trace w2) =
       threads_started tr ++ [mkThread (device_id d) true;
                              mkThread (device_id d) true].
Proof.
  intros He Hr.
  rewrite (bind_ok _ _ _ _ _ (start_fresh_run d tr He Hr)).
  rewrite stop_run. eexists _, _. split; [reflexivity|]. simpl.
  split; [reflexivity|]. split; [reflexivity|].
  rewrite start_fresh_run by reflexivity. split; [reflexivity|]. simpl.
  split; [reflexivity|].
  rewrite !threads_started_app. simpl. rewrite !app_nil_r, <- app_assoc.
  reflexivity.
Qed.

Lemma stopped_device_restarts_witness :
  exists w1 w2,
    (run start ;; stop) (mkDW (Device_init "temp_01" "Temperature Sensor" true) [])
      = (Ok tt, w1)
    /\ fst (is_running w1) = Ok false
    /\ _thread (self w1) = Some (mkThread "temp_01" true)
    /\ start w1 = (Ok tt, w2)
    /\ fst (is_running w2) = Ok true
    /\ threads_started (trace w2) =
       [mkThread "temp_01" true; mkThread "temp_01" true].
Proof.
  apply (stopped_device_restarts
           (Device_init "temp_01" "Temperature Sensor" true) []); reflexivity.
Defined.
End Lifecycle.

Section ActuatorExtras.
Import Devices.
Variable py_str : pyval -> string.
Variable py_float : pyval -> outcome pyval.

Lemma Qeq_bool_false_of_neq (x y : Q) : ~ (x == y)%Q -> Qeq_bool x y = false.
Proof.
  intros H. destruct (Qeq_bool x y) eqn:E; [|reflexivity].
  apply Qeq_bool_iff in E. contradiction.
Qed.

(** The negation of a value never compares equal to the value. *)
Lemma py_ne_py_not (v : pyval) : py_ne v (py_not v) = true.
Proof.
  unfold py_ne, py_not. destruct v as [|b|z|q|s|m]; simpl; try reflexivity.
  - destruct b; reflexivity.
  - destruct (Z.eqb_spec z 0) as [->|Hz]; simpl; [reflexivity|].
    rewrite Qeq_bool_false_of_neq; [reflexivity|].
    unfold Qeq; simpl. lia.
  - destruct (Qeq_bool q 0) eqn:E; simpl.
    + rewrite Qeq_bool_false_of_neq; [reflexivity|].
      apply Qeq_bool_iff in E. rewrite E. unfold Qeq; simpl. lia.
    + change (inject_Z 0) with 0%Q. rewrite E. reflexivity.
Qed.

Lemma action_block_toggle (on off : string) (command : Command) (w : ActuatorWorld) :
  command !! "action" = Some (VStr "toggle") ->
  String.eqb "toggle" on = false -> String.eqb "toggle" off = false ->
  exists w',
    action_block py_str on off command w = (Ok tt, w')
    /\ _state (act w') = py_not (_state (act w))
    /\ cls (act w') = cls (act w)
    /\ notifications (events w') =
       notifications (events w) ++ [(_state (act w), py_not (_state (act w)))].
Proof.
  intros Ha Hon Hoff. unfold action_block. rewrite Ha.
  change (py_eq (VStr "toggle") (VStr on)) with (String.eqb "toggle" on).
  change (py_eq (VStr "toggle") (VStr off)) with (String.eqb "toggle" off).
  rewrite Hon, Hoff.
  change (py_eq (VStr "toggle") (VStr "toggle")) with true. cbv iota.
  unfold bind, get_state, gets. simpl.
  destruct (set_state_run py_str (py_not (_state (act w))) w)
    as (w' & Hrun & Hst & Hc & Hn).
  exists w'. rewrite py_ne_py_not in Hn. auto.
Qed.

Lemma execute_command_dispatch (command : Command) (w : ActuatorWorld) :
  _execute_command py_str py_float command w =
  match cls (act w) with
  | LightActuator => action_block py_str "turn_on" "turn_off" command w
  | HeaterActuator =>
      (run action_block py_str "turn_on" "turn_off" command ;;
       match command !! "target_temperature" with
       | Some t => f <- lift (py_float t) ;; assign_target_temperature f
       | None => ret tt
       end) w
  | AlarmActuator => action_block py_str "activate" "deactivate" command w
  end.
Proof.
  unfold _execute_command, bind at 1, gets at 1. simpl.
  destruct (cls (act w)); reflexivity.
Qed.

(** X11.  A toggle always changes the state, whatever the state was before
    (also [None] or a number): the new state is the Boolean negation of the
    old state's truth value, and [_on_state_change] is called exactly
    once. *)
Theorem toggle_always_flips_and_notifies (w : ActuatorWorld) (command : Command) :
  command !! "action" = Some (VStr "toggle") ->
  let w' := snd (_execute_command py_str py_float command w) in
  _state (act w') = VBool (negb (truthy (_state (act w))))
  /\ notifications (events w') =
     notifications (events w)
     ++ [(_state (act w), VBool (negb (truthy (_state (act w)))))].
Proof.
  intros Ha. cbv zeta. rewrite execute_command_dispatch.
  destruct (cls (act w)).
  - destruct (action_block_toggle "turn_on" "turn_off" command w Ha eq_refl eq_refl)
      as (w' & -> & Hs & _ & Hn). split; [exact Hs | exact Hn].
  - destruct (action_block_toggle "turn_on" "turn_off" command w Ha eq_refl eq_refl)
      as (w' & Hrun & Hs & _ & Hn).
    rewrite (bind_ok _ _ _ _ _ Hrun).
    destruct (target_temperature_part py_float command w') as (Hs' & _ & He).
    cbv zeta in Hs', He. rewrite Hs', He. split; [exact Hs | exact Hn].
  - destruct (action_block_toggle "activate" "deactivate" command w Ha eq_refl eq_refl)
      as (w' & -> & Hs & _ & Hn). split; [exact Hs | exact Hn].
Qed.

Lemma action_block_returns (on off : string) (command : Command) (w : ActuatorWorld) :
  exists w',
    action_block py_str on off command w = (Ok tt, w')
    /\ target_temperature (act w') = target_temperature (act w).
Proof.
  assert (Hset : forall v w0, exists w',
    set_state py_str v w0 = (Ok tt, w')
    /\ target_temperature (act w') = target_temperature (act w0)).
  { intros v w0. unfold set_state, bind, gets, assign_state, modify. simpl.
    destruct (py_ne (_state (act w0)) v); [|eexists; split; reflexivity].
    unfold _on_state_change, bind, alogger, emit, modify, gets. simpl.
    destruct (cls (act w0)); [| |destruct (truthy v)];
      eexists; split; reflexivity. }
  unfold action_block.
  destruct (command !! "action") as [action|].
  - destruct (py_eq action (VStr on)); [apply Hset|].
    destruct (py_eq action (VStr off)); [apply Hset|].
    destruct (py_eq action (VStr "toggle")); [|eexists; split; reflexivity].
    unfold bind, get_state, gets. simpl. apply Hset.
  - destruct (command !! "state"); [apply Hset | eexists; split; reflexivity].
Qed.

(** X12.  The heater takes a target temperature independently of the
    state change: the command does to the state what it does without its
    ['target_temperature'] entry, and then the target is set to the
    converted value; when the conversion raises, the command raises after
    the state change has been made, and the target stays as it was. *)
Theorem heater_target_set_after_state_change
    (w : ActuatorWorld) (command : Command) (t : pyval) :
  cls (act w) = HeaterActuator ->
  command !! "target_temperature" = Some t ->
  exists w0,
    _execute_command py_str py_float (delete "target_temperature" command) w
      = (Ok tt, w0)
    /\ target_temperature (act w0) = target_temperature (act w)
    /\ _execute_command py_str py_float command w =
       match py_float t with
       | Ok f => (Ok tt, snd (assign_target_temperature f w0))
       | Raise e => (Raise e, w0)
       end.
Proof.
  intros Hcls Ht.
  rewrite !execute_command_dispatch, Hcls.
  assert (Hblock : action_block py_str "turn_on" "turn_off"
                     (delete "target_temperature" command)
                   = action_block py_str "turn_on" "turn_off" command).
  { unfold action_block.
    rewrite (lookup_delete_ne command "target_temperature" "action") by discriminate.
    rewrite (lookup_delete_ne command "target_temperature" "state") by discriminate.
    reflexivity. }
  rewrite Hblock.
  destruct (action_block_returns "turn_on" "turn_off" command w) as (w0 & Hrun & Htt).
  rewrite !(bind_ok _ _ _ _ _ Hrun). rewrite lookup_delete_eq, Ht.
  exists w0. split; [reflexivity|]. split; [exact Htt|].
  unfold bind, lift, assign_target_temperature, modify.
  destruct (py_float t); reflexivity.
Qed.
End ActuatorExtras.

Lemma toggle_always_flips_and_notifies_witness :
  let w' := snd (Devices._execute_command show_nothing float_of_number
                   toggle_command light_off) in
  Devices._state (Devices.act w') = VBool (negb (truthy (VBool false)))
  /\ Devices.notifications (Devices.events w') =
     [(VBool false, VBool (negb (truthy (VBool false))))].
Proof.
  apply (toggle_always_flips_and_notifies show_nothing float_of_number
           light_off toggle_command).
  vm_compute. reflexivity.
Defined.

Lemma heater_target_set_after_state_change_witness :
  exists w0,
    Devices._execute_command show_nothing float_of_number
      (delete "target_temperature" turn_on_with_bad_target) heater_off
      = (Ok tt, w0)
    /\ Devices.target_temperature (Devices.act w0) = VFloat 20
    /\ Devices._execute_command show_nothing float_of_number
         turn_on_with_bad_target heater_off =
       match float_of_number VNone with
       | Ok f => (Ok tt, snd (Devices.assign_target_temperature f w0))
       | Raise e => (Raise e, w0)
       end.
Proof.
  apply (heater_target_set_after_state_change show_nothing float_of_number
           heater_off turn_on_with_bad_target VNone).
  - reflexivity.
  - vm_compute. reflexivity.
Defined.

Section LoopFacts.
Import Devices Loops.

Section SensorTurn.
Variable time_at : nat -> Q.
Variable _read_sensor : Sensor -> outcome pyval.

Lemma time_sleep_run (seconds : Q) (w : SensorWorld) :
  (0 <= seconds)%Q ->
  time_sleep seconds w =
    (Ok tt, mkSW (sensor w) (data_queue w) (time_reads w)
                 (happened w ++ [LSleep seconds])).
Proof.
  intros H. unfold time_sleep.
  destruct (Qlt_bool seconds 0) eqn:E; [|reflexivity].
  apply Qlt_bool_iff in E. exfalso. exact (Qlt_not_le _ _ E H).
Qed.

Lemma time_sleep_negative (seconds : Q) (w : SensorWorld) :
  (seconds < 0)%Q ->
  time_sleep seconds w =
    (Raise (Exn "ValueError" "sleep length must be non-negative"), w).
Proof.
  intros H. unfold time_sleep. apply Qlt_bool_iff in H. rewrite H. reflexivity.
Qed.

(** X13.  One turn of the sensor loop never raises when the update
    interval is not negative.  If the sampling returns a value, the value
    becomes the current value and one reading with that value, the
    sensor's id and name and the current time is appended to the channel;
    if the sampling raises, the current value and the channel stay as they
    are and the error is logged.  Either way the turn ends with one pause
    of the update interval. *)
Theorem sensor_turn_publishes_or_logs (w : SensorWorld) :
  (0 <= update_interval (sensor w))%Q ->
  exists w',
    Sensor_run_body time_at _read_sensor w = (Ok tt, w')
    /\ last (happened w') = Some (LSleep (update_interval (sensor w)))
    /\ match _read_sensor (sensor w) with
       | Ok value =>
           _current_value (sensor w') = value
           /\ exists r,
                data_queue w' = data_queue w ++ [r]
                /\ r !! "value" = Some value
                /\ r !! "sensor_id" = Some (VStr (device_id (sensor_device (sensor w))))
                /\ r !! "sensor_name" = Some (VStr (name (sensor_device (sensor w))))
                /\ r !! "timestamp" = Some (VFloat (time_at (time_reads w)))
       | Raise e =>
           sensor w' = sensor w
           /\ data_queue w' = data_queue w
           /\ exists msg, happened w' =
                happened w ++ [LDevice (ELog (Log ERROR msg));
                               LSleep (update_interval (sensor w))]
       end.
Proof.
  intros Hint. unfold Sensor_run_body, bind at 1, gets at 1, try_except.
  destruct (_read_sensor (sensor w)) as [value|e] eqn:Hread.
  - unfold bind, lift, assign_current_value, _send_data, gets, time_time, put,
      modify. cbn -[time_sleep].
    rewrite time_sleep_run by exact Hint. simpl.
    eexists. split; [reflexivity|]. simpl.
    split; [apply last_snoc|]. split; [reflexivity|].
    eexists. split; [reflexivity|].
    repeat split.
  - unfold bind, lift, record, modify. cbn -[time_sleep].
    rewrite time_sleep_run by exact Hint. simpl.
    eexists. split; [reflexivity|]. simpl.
    split; [apply last_snoc|].
    repeat split. eexists. rewrite <- app_assoc. reflexivity.
Qed.

(** X14.  With a negative update interval one turn of the sensor loop
    raises [ValueError] out of the loop, whether the sampling succeeded or
    not: the pause is refused in the body and again in the handler. *)
Theorem sensor_turn_raises_on_negative_interval (w : SensorWorld) :
  (update_interval (sensor w) < 0)%Q ->
  fst (Sensor_run_body time_at _read_sensor w) =
  Raise (Exn "ValueError" "sleep length must be non-negative").
Proof.
  intros Hint. unfold Sensor_run_body, bind at 1, gets at 1, try_except.
  destruct (_read_sensor (sensor w)) as [value|e] eqn:Hread.
  - unfold bind, lift, assign_current_value, _send_data, gets, time_time, put,
      record, modify. cbn -[time_sleep].
    rewrite time_sleep_negative by exact Hint. cbn -[time_sleep].
    rewrite time_sleep_negative by exact Hint. reflexivity.
  - unfold bind, lift, record, modify. cbn -[time_sleep].
    rewrite time_sleep_negative by exact Hint. reflexivity.
Qed.
End SensorTurn.
End LoopFacts.

Lemma sensor_turn_publishes_or_logs_witness :
  exists w',
    Loops.Sensor_run_body frozen_clock sample_21_5 (idle_sensor 2) = (Ok tt, w')
    /\ last (Loops.happened w') = Some (Loops.LSleep 2)
    /\ match sample_21_5 (Loops.sensor (idle_sensor 2)) with
       | Ok value =>
           Devices._current_value (Loops.sensor w') = value
           /\ exists r,
                Loops.data_queue w' = [] ++ [r]
                /\ r !! "value" = Some value
                /\ r !! "sensor_id" = Some (VStr "temp_01")
                /\ r !! "sensor_name" = Some (VStr "Temperature Sensor")
                /\ r !! "timestamp" = Some (VFloat (frozen_clock 0))
       | Raise e =>
           Loops.sensor w' = Loops.sensor (idle_sensor 2)
           /\ Loops.data_queue w' = []
           /\ exists msg, Loops.happened w' =
                [] ++ [Loops.LDevice (Devices.ELog (Log ERROR msg)); Loops.LSleep 2]
       end.
Proof.
  apply (sensor_turn_publishes_or_logs frozen_clock sample_21_5 (idle_sensor 2)).
  vm_compute. discriminate.
Defined.

Lemma sensor_turn_raises_on_negative_interval_witness :
  fst (Loops.Sensor_run_body frozen_clock sample_21_5 (idle_sensor (-1))) =
  Raise (Exn "ValueError" "sleep length must be non-negative").
Proof.
  apply (sensor_turn_raises_on_negative_interval frozen_clock sample_21_5
           (idle_sensor (-1))).
  vm_compute. reflexivity.
Defined.

(** X15.  One turn of the actuator loop never raises.  On an empty queue
    it only pauses.  Otherwise it takes the command at the head of the
    queue and executes it, leaving the rest of the queue in order; when
    the execution raises, what the command had done so far stays, the
    command is not put back, the error is logged if the device is running,
    and the loop pauses. *)
Theorem actuator_turn_takes_one_command
    (py_str : pyval -> string) (py_float : pyval -> outcome pyval)
    (w : Loops.ActuatorLoop) :
  exists w',
    Loops.Actuator_run_body py_str py_float w = (Ok tt, w')
    /\ match Loops.queue w with
       | [] =>
           Loops.actuator w' = Loops.actuator w
           /\ Loops.queue w' = []
           /\ Loops.pauses w' = Loops.pauses w ++ [1 # 10]
       | command :: rest =>
           Loops.queue w' = rest
           /\ match Devices._execute_command py_str py_float command
                      (Loops.actuator w) with
              | (Ok _, a) =>
                  Loops.actuator w' = a /\ Loops.pauses w' = Loops.pauses w
              | (Raise e, a) =>
                  Devices.act (Loops.actuator w') = Devices.act a
                  /\ Loops.pauses w' = Loops.pauses w ++ [1 # 10]
                  /\ exists logged,
                       Devices.events (Loops.actuator w') =
                       Devices.events a ++ logged
                       /\ if Devices._running (Devices.device (Devices.act a))
                          then length logged = 1%nat
                          else logged = []
              end
       end.
Proof.
  unfold Loops.Actuator_run_body, try_except, bind at 1, gets at 1.
  destruct w as [a q p]. simpl. destruct q as [|command rest].
  - unfold Loops.pause, modify. simpl. eexists. split; [reflexivity|]. auto.
  - unfold bind at 1, Loops.assign_queue, modify, Loops.on_actuator. simpl.
    destruct (Devices._execute_command py_str py_float command a) as [[[]|e] a'].
    + eexists. split; [reflexivity|]. auto.
    + unfold bind, gets, Loops.pause, modify, Loops.on_actuator, Devices.alogger,
        Devices.emit, modify, ret. simpl.
      destruct (Devices._running (Devices.device (Devices.act a'))) eqn:Hr; simpl.
      * eexists. split; [reflexivity|]. simpl. repeat split.
        eexists. split; [reflexivity|]. reflexivity.
      * eexists. split; [reflexivity|]. simpl. repeat split.
        exists []. rewrite app_nil_r. auto.
Qed.


(* ===================================================================== *)
(** ** Further properties of the hub and its web front *)
(* ===================================================================== *)

(** X16.  A request for a registered actuator whose body is a JSON object
    (or empty) is answered with status 200 and appends exactly one command
    to the end of that actuator's queue: the command has the two entries
    ['actuator'] and ['action'] and nothing else of the body, the action
    being ["toggle"] when the body names none.  Every other queue and the
    rest of the hub stay as they are. *)
Theorem control_actuator_enqueues_one_command
    (hub : Hub.SmartHub) (actuator_name : string) (q : nat) (j : pyval) :
  Hub.actuator_command_queues hub !! actuator_name = Some q ->
  truthy j = false \/ (exists d, j = VDict d) ->
  exists response,
    Web.control_actuator actuator_name (Ok j) hub =
      (Ok response,
       Hub.with_queues
         (<[q := default [] (Hub.queues hub !! q)
                 ++ [ {[ "actuator" := VStr actuator_name;
                         "action" := requested_action j ]} ] ]>
            (Hub.queues hub)) hub)
    /\ Web.status response = 200.
Proof.
  intros Hq Hj.
  unfold Web.control_actuator, try_except, bind, lift, gets, ret. simpl.
  assert (Hget : py_get (if truthy j then j else VDict ∅) "action" (VStr "toggle")
                 = Ok (requested_action j)).
  { destruct Hj as [Hf | [d ->]].
    - rewrite Hf. simpl. destruct j; try reflexivity.
      simpl in Hf. apply negb_false_iff, bool_decide_eq_true in Hf. subst.
      reflexivity.
    - simpl. destruct (negb (bool_decide (d = ∅))) eqn:E; [reflexivity|].
      apply negb_false_iff, bool_decide_eq_true in E. subst. reflexivity. }
  rewrite Hget. simpl. rewrite Hq. simpl.
  unfold Hub.Queue_put, modify. simpl.
  eexists. split; reflexivity.
Qed.

Lemma control_actuator_enqueues_one_command_witness :
  exists response,
    Web.control_actuator "heater" (Ok VNone) small_hub =
      (Ok response,
       Hub.with_queues
         (<[0%nat := default [] (Hub.queues small_hub !! 0%nat)
                     ++ [ {[ "actuator" := VStr "heater";
                             "action" := requested_action VNone ]} ] ]>
            (Hub.queues small_hub)) small_hub)
    /\ Web.status response = 200.
Proof.
  apply (control_actuator_enqueues_one_command small_hub "heater" 0%nat VNone).
  - reflexivity.
  - left. reflexivity.
Defined.

(** X17.  [control_actuator] never raises: every failure becomes a
    response.  A body that is neither empty nor a JSON object, or a body
    that cannot be decoded, is answered with status 500 and leaves the hub
    as it is, whether the actuator exists or not. *)
Theorem control_actuator_always_answers
    (hub : Hub.SmartHub) (actuator_name : string) (json : outcome pyval) :
  exists response hub',
    Web.control_actuator actuator_name json hub = (Ok response, hub')
    /\ match json with
       | Raise _ => Web.status response = 500 /\ hub' = hub
       | Ok (VDict _) => True
       | Ok j => if truthy j
                 then Web.status response = 500 /\ hub' = hub
                 else True
       end.
Proof.
  unfold Web.control_actuator, try_except, bind, lift, gets, ret.
  destruct json as [j|e]; simpl; [|eexists _, _; split; [reflexivity|auto]].
  destruct j as [|b|z|x|t|d]; simpl.
  - destruct (Hub.actuator_command_queues hub !! actuator_name);
      eexists _, _; (split; [reflexivity|exact I]).
  - destruct b; simpl;
      [eexists _, _; split; [reflexivity|auto]|].
    destruct (Hub.actuator_command_queues hub !! actuator_name);
      eexists _, _; (split; [reflexivity|exact I]).
  - destruct (Z.eqb z 0) eqn:E; simpl;
      [|eexists _, _; split; [reflexivity|auto]].
    destruct (Hub.actuator_command_queues hub !! actuator_name);
      eexists _, _; (split; [reflexivity|exact I]).
  - destruct (Qeq_bool x 0) eqn:E; simpl;
      [|eexists _, _; split; [reflexivity|auto]].
    destruct (Hub.actuator_command_queues hub !! actuator_name);
      eexists _, _; (split; [reflexivity|exact I]).
  - destruct (String.eqb t "") eqn:E; simpl;
      [|eexists _, _; split; [reflexivity|auto]].
    destruct (Hub.actuator_command_queues hub !! actuator_name);
      eexists _, _; (split; [reflexivity|exact I]).
  - destruct (negb (bool_decide (d = ∅))); simpl;
      destruct (Hub.actuator_command_queues hub !! actuator_name);
      eexists _, _; (split; [reflexivity|exact I]).
Qed.

Section Routing.
Import Hub.

(** X18.  A controller cycle delivers every command of the rule engine to
    the queue of the actuator it names, in the order the rules returned
    them, and commands that name no registered actuator to no queue:
    each queue afterwards holds what it held, followed by the commands
    routed to it.  (The state object exists, and no command carries a dict
    as its actuator name, which would stop the routing.) *)
Theorem cycle_delivers_commands_in_order
    (wall_clock : nat -> datetime) (hub : SmartHub) (d : gmap string hval) :
  heap hub !! state hub = Some d ->
  let copy := fresh (dom (heap hub)) in
  let commands :=
    flat_map (contribution (<[copy := d]> (heap hub), copy))
             (rules (rule_engine hub)) in
  Forall hashable_addressee commands ->
  exists hub',
    _evaluate_and_execute_rules wall_clock hub = (Ok tt, hub')
    /\ forall q,
         default [] (queues hub' !! q) =
         default [] (queues hub !! q)
         ++ filter (fun c => route (actuator_command_queues hub) c = Some q)
                   commands.
Proof.
  intros Hst copy commands Hall.
  set (hub1 := with_heap (<[copy := d]> (heap hub)) hub).
  assert (Hcopy : dict_copy (state hub) hub = (Ok copy, hub1)).
  { unfold dict_copy, bind, the_dict, new_dict. rewrite Hst. reflexivity. }
  destruct (evaluate_rules_run wall_clock (<[copy := d]> (heap hub), copy)
              (rule_engine hub)) as (e' & Heval & _).
  assert (Hrules : on_rule_engine
                     (evaluate_rules wall_clock (<[copy := d]> (heap hub), copy)) hub1
                   = (Ok commands, with_rule_engine e' hub1)).
  { unfold on_rule_engine. simpl. rewrite Heval. reflexivity. }
  destruct (route_commands_run commands (with_rule_engine e' hub1) Hall)
    as (qs & Hroute & Hqs).
  exists (with_queues qs (with_rule_engine e' hub1)). split; [|exact Hqs].
  unfold _evaluate_and_execute_rules.
  erewrite bind_ok by (unfold gets; reflexivity).
  erewrite bind_ok by exact Hcopy.
  erewrite bind_ok by (unfold gets; reflexivity).
  erewrite bind_ok by exact Hrules.
  exact Hroute.
Qed.

Lemma cycle_delivers_commands_in_order_witness :
  exists hub',
    _evaluate_and_execute_rules (fun _ => 0) hub_with_rule = (Ok tt, hub')
    /\ forall q,
         default [] (queues hub' !! q) =
         default [] (queues hub_with_rule !! q)
         ++ filter (fun c => route (actuator_command_queues hub_with_rule) c = Some q)
              (flat_map
                 (contribution (<[fresh (dom (heap hub_with_rule)) := ∅]>
                                  (heap hub_with_rule),
                                fresh (dom (heap hub_with_rule))))
                 (rules (rule_engine hub_with_rule))).
Proof.
  apply (cycle_delivers_commands_in_order (fun _ => 0) hub_with_rule ∅).
  - reflexivity.
  - repeat constructor.
Defined.
End Routing.

Section Specs.
Context {W : Type}.

Lemma spec_ret {A} (P : W -> Prop) (a : A) (Q : A -> W -> Prop) X :
  (forall w, P w -> Q a w) -> spec P (ret a) Q X.
Proof. intros H w Hw. apply H, Hw. Qed.

Lemma spec_bind {A B} (P : W -> Prop) (m : M W A) (k : A -> M W B)
    (Q : A -> W -> Prop) (R : B -> W -> Prop) X :
  spec P m Q X -> (forall a, spec (Q a) (k a) R X) -> spec P (bind m k) R X.
Proof.
  intros Hm Hk w Hw. unfold bind. specialize (Hm w Hw).
  destruct (m w) as [[a|e] w1]; [apply Hk, Hm | exact Hm].
Qed.

Lemma spec_weaken {A} (P P' : W -> Prop) (m : M W A) (Q Q' : A -> W -> Prop) X :
  spec P' m Q' X -> (forall w, P w -> P' w) -> (forall a w, Q' a w -> Q a w) ->
  spec P m Q X.
Proof.
  intros Hm HP HQ w Hw. specialize (Hm w (HP w Hw)).
  destruct (m w) as [[a|e] w1]; [apply HQ, Hm | exact Hm].
Qed.

Lemma spec_for_each {A X0} (J : W -> Prop) (body : A -> X0 -> M W A)
    (xs : list X0) X :
  (forall acc x, spec J (body acc x) (fun _ => J) X) ->
  forall acc, spec J (for_each xs acc body) (fun _ => J) X.
Proof.
  intros Hbody. induction xs as [|x xs IH]; intros acc; simpl.
  - apply spec_ret. auto.
  - eapply spec_bind; [apply Hbody | intros a; apply IH].
Qed.

(** A computation that only reads. *)
Lemma spec_read {A} (P : W -> Prop) (m : M W A) X :
  (forall w, snd (m w) = w) -> (forall w, P w -> X w) ->
  spec P m (fun a w => P w /\ fst (m w) = Ok a) X.
Proof.
  intros Hread HX w Hw. specialize (Hread w).
  destruct (m w) as [[a|e] w1] eqn:E; simpl in Hread; subst w1.
  - split; [exact Hw | rewrite E; reflexivity].
  - apply HX, Hw.
Qed.
End Specs.

Section Frame.
Import Hub.
Variables (st l : loc) (d0 : gmap string hval).

Lemma entry_insert_ne (h : Heap) a b d k :
  a <> b -> entry (<[b := d]> h) a k = entry h a k.
Proof. intros H. unfold entry. rewrite lookup_insert_ne by congruence. reflexivity. Qed.

Lemma entry_insert_eq (h : Heap) a d k : entry (<[a := d]> h) a k = d !! k.
Proof. unfold entry. rewrite lookup_insert_eq. reflexivity. Qed.

Lemma entry_Some (h : Heap) a k v :
  entry h a k = Some v <-> exists d, h !! a = Some d /\ d !! k = Some v.
Proof.
  unfold entry. destruct (h !! a) as [d|]; simpl.
  - split; [eauto | intros (d' & [= <-] & H); exact H].
  - split; [discriminate | intros (d' & [=] & _)].
Qed.

Lemma fresh_not_in (h : Heap) a : is_Some (h !! a) -> fresh (dom h) <> a.
Proof.
  intros Ha Heq. apply (is_fresh (dom h)). rewrite Heq.
  apply elem_of_dom. exact Ha.
Qed.

Lemma kept_alloc (h : Heap) f d :
  kept st l d0 h -> f ∉ dom h -> flat d -> kept st l d0 (<[f := d]> h).
Proof.
  intros (Hl & Hne & Hst & Hout) Hf Hflat.
  assert (Hfl : f <> l) by (intros ->; apply Hf, elem_of_dom; eauto).
  assert (Hfs : f <> st) by (intros ->; apply Hf, elem_of_dom; exact Hst).
  split; [rewrite lookup_insert_ne by congruence; exact Hl|].
  split; [exact Hne|].
  split; [rewrite lookup_insert_ne by congruence; exact Hst|].
  intros sd Hsd. rewrite entry_insert_ne in Hsd by congruence.
  destruct (Hout sd Hsd) as (H1 & H2 & H3). split; [exact H1|]. split; [exact H2|].
  intros t ed Hed. destruct (decide (sd = f)) as [->|Hne'].
  - rewrite entry_insert_eq in Hed. exfalso. exact (Hflat _ _ Hed).
  - rewrite entry_insert_ne in Hed by congruence. eapply H3, Hed.
Qed.

Lemma kept_set_val (h : Heap) a da k v :
  kept st l d0 h -> a <> l -> h !! a = Some da ->
  kept st l d0 (<[a := <[k := HVal v]> da]> h).
Proof.
  intros (Hl & Hne & Hst & Hout) Hal Ha.
  split; [rewrite lookup_insert_ne by congruence; exact Hl|].
  split; [exact Hne|].
  split; [destruct (decide (a = st)) as [->|];
            [rewrite lookup_insert_eq | rewrite lookup_insert_ne by congruence];
            eauto|].
  assert (Hsame : forall b key x,
    entry (<[a := <[k := HVal v]> da]> h) b key = Some (HRef x) ->
    entry h b key = Some (HRef x)).
  { intros b key x. destruct (decide (b = a)) as [->|Hb].
    - rewrite entry_insert_eq. destruct (decide (key = k)) as [->|Hk].
      + rewrite lookup_insert_eq. discriminate.
      + rewrite lookup_insert_ne by congruence. intros H.
        apply entry_Some. eauto.
    - rewrite entry_insert_ne by congruence. auto. }
  intros sd Hsd. apply Hsame in Hsd.
  destruct (Hout sd Hsd) as (H1 & H2 & H3). split; [exact H1|]. split; [exact H2|].
  intros t ed Hed. apply Hsame in Hed. eapply H3, Hed.
Qed.

Lemma kept_set_ref (h : Heap) a da k x :
  kept st l d0 h -> a <> l -> h !! a = Some da ->
  x <> l -> x <> st ->
  (forall k' y, entry h x k' = Some (HRef y) -> y <> l) ->
  kept st l d0 (<[a := <[k := HRef x]> da]> h).
Proof.
  intros (Hl & Hne & Hst & Hout) Hal Ha Hxl Hxs Hx.
  split; [rewrite lookup_insert_ne by congruence; exact Hl|].
  split; [exact Hne|].
  split; [destruct (decide (a = st)) as [->|];
            [rewrite lookup_insert_eq | rewrite lookup_insert_ne by congruence];
            eauto|].
  assert (Hsame : forall b key y,
    entry (<[a := <[k := HRef x]> da]> h) b key = Some (HRef y) ->
    (b = a /\ key = k /\ y = x) \/ entry h b key = Some (HRef y)).
  { intros b key y. destruct (decide (b = a)) as [->|Hb].
    - rewrite entry_insert_eq. destruct (decide (key = k)) as [->|Hk].
      + rewrite lookup_insert_eq. intros [= <-]. left. auto.
      + rewrite lookup_insert_ne by congruence. intros H.
        right. apply entry_Some. eauto.
    - rewrite entry_insert_ne by congruence. auto. }
  intros sd Hsd. apply Hsame in Hsd as [(Ha' & Hk' & ->) | Hsd].
  - split; [exact Hxl|]. split; [exact Hxs|].
    intros t ed Hed. apply Hsame in Hed as [(-> & _ & ->) | Hed];
      [exact Hxl | eapply Hx, Hed].
  - destruct (Hout sd Hsd) as (H1 & H2 & H3).
    split; [exact H1|]. split; [exact H2|].
    intros t ed Hed. apply Hsame in Hed as [(_ & _ & ->) | Hed];
      [exact Hxl | eapply H3, Hed].
Qed.

Lemma kept_set_state_key (h : Heap) dst k v :
  kept st l d0 h -> h !! st = Some dst -> k <> "sensors" ->
  kept st l d0 (<[st := <[k := v]> dst]> h).
Proof.
  intros (Hl & Hne & Hst & Hout) Hd Hk.
  split; [rewrite lookup_insert_ne by congruence; exact Hl|].
  split; [exact Hne|].
  split; [rewrite lookup_insert_eq; eauto|].
  intros sd Hsd. rewrite entry_insert_eq, lookup_insert_ne in Hsd by congruence.
  assert (Hsd' : entry h st "sensors" = Some (HRef sd)) by (apply entry_Some; eauto).
  destruct (Hout sd Hsd') as (H1 & H2 & H3).
  split; [exact H1|]. split; [exact H2|].
  intros t ed Hed. rewrite entry_insert_ne in Hed by congruence. eapply H3, Hed.
Qed.

Lemma apart_alloc (h : Heap) f d :
  is_Some (h !! st) -> f ∉ dom h ->
  actuators_apart st l h -> actuators_apart st l (<[f := d]> h).
Proof.
  intros Hst Hf Hap ad Had.
  assert (Hfs : f <> st) by (intros ->; apply Hf, elem_of_dom; exact Hst).
  rewrite entry_insert_ne in Had by congruence. eapply Hap, Had.
Qed.

Lemma apart_set (h : Heap) a da k v :
  actuators_apart st l h -> h !! a = Some da ->
  (forall x, v = HRef x -> x <> l) ->
  actuators_apart st l (<[a := <[k := v]> da]> h).
Proof.
  intros Hap Ha Hv ad Had. destruct (decide (st = a)) as [<-|Hne].
  - rewrite entry_insert_eq in Had.
    destruct (decide ("actuators" = k)) as [<-|Hk].
    + rewrite lookup_insert_eq in Had. injection Had as ->. eapply Hv; reflexivity.
    + rewrite lookup_insert_ne in Had by congruence.
      eapply Hap. apply entry_Some. eauto.
  - rewrite entry_insert_ne in Had by congruence. eapply Hap, Had.
Qed.
End Frame.

Section RefreshFrame.
Import Hub.
Variables (st l : loc) (d0 : gmap string hval).

Local Abbreviation K := (kept st l d0).
Local Abbreviation X := (on_heap st (kept st l d0)).

Lemma spec_new_dict d (P : Heap -> Prop) (Q : loc -> Heap -> Prop) :
  (forall h, P h -> K h) ->
  (forall h f, P h -> f ∉ dom h -> Q f (<[f := d]> h)) ->
  spec (on_heap st P) (new_dict d) (fun f => on_heap st (Q f)) X.
Proof.
  intros _ HQ w [Hs HP]. unfold new_dict. simpl. split; [exact Hs|].
  apply HQ; [exact HP | apply is_fresh].
Qed.

Lemma spec_setitem a k v (P Q : Heap -> Prop) :
  (forall h, P h -> K h) ->
  (forall h da, P h -> h !! a = Some da -> Q (<[a := <[k := v]> da]> h)) ->
  spec (on_heap st P) (dict_setitem a k v) (fun _ => on_heap st Q) X.
Proof.
  intros HK HQ w [Hs HP]. unfold dict_setitem, bind, the_dict, modify.
  destruct (heap w !! a) as [da|] eqn:Ha; simpl.
  - split; [exact Hs|]. apply HQ; assumption.
  - split; [exact Hs|]. apply HK, HP.
Qed.

Lemma spec_getitem a k (P : Heap -> Prop) :
  (forall h, P h -> K h) ->
  spec (on_heap st P) (dict_getitem a k)
       (fun v => on_heap st (fun h => P h /\ entry h a k = Some v)) X.
Proof.
  intros HK w [Hs HP]. unfold dict_getitem, bind, the_dict, ret, raise.
  destruct (heap w !! a) as [da|] eqn:Ha; simpl;
    [|split; [exact Hs | apply HK, HP]].
  destruct (da !! k) as [v|] eqn:Hv; simpl;
    [|split; [exact Hs | apply HK, HP]].
  split; [exact Hs|]. split; [exact HP|]. apply entry_Some. eauto.
Qed.

Lemma spec_contains a k (P : Heap -> Prop) :
  (forall h, P h -> K h) ->
  spec (on_heap st P) (dict_contains a k) (fun _ => on_heap st P) X.
Proof.
  intros HK w [Hs HP]. unfold dict_contains, bind, the_dict, ret.
  destruct (heap w !! a) as [da|] eqn:Ha; simpl;
    [split; [exact Hs | exact HP] | split; [exact Hs | apply HK, HP]].
Qed.

Lemma spec_as_dict v (P : Heap -> Prop) :
  (forall h, P h -> K h) ->
  spec (on_heap st P) (as_dict v)
       (fun x => on_heap st (fun h => P h /\ v = HRef x)) X.
Proof.
  intros HK w [Hs HP]. destruct v as [pv|x]; simpl.
  - split; [exact Hs | apply HK, HP].
  - split; [exact Hs|]. auto.
Qed.

Lemma spec_get_or_empty a k (P Q : Heap -> Prop) :
  (forall h, P h -> K h) ->
  (forall h f, P h -> f ∉ dom h -> Q (<[f := ∅]> h)) ->
  (forall h, Q h -> K h) ->
  spec (on_heap st P) (dict_get_or_empty a k) (fun _ => on_heap st Q) X.
Proof.
  intros HK HQ HQK w [Hs HP]. unfold dict_get_or_empty, bind, new_dict, the_dict, ret.
  simpl.
  assert (Hq : Q (<[fresh (dom (heap w)) := ∅]> (heap w)))
    by (apply HQ; [exact HP | apply is_fresh]).
  destruct (<[fresh (dom (heap w)) := ∅]> (heap w) !! a); simpl;
    (split; [exact Hs|]); auto.
Qed.

Lemma spec_gets {A} (f : SmartHub -> A) (P : SmartHub -> Prop) :
  spec P (gets f) (fun a w => P w /\ a = f w) X.
Proof. intros w Hw. simpl. auto. Qed.

Lemma flat_empty : flat ∅.
Proof. intros k x. rewrite lookup_empty. discriminate. Qed.

(** The sensors' part of a refresh. *)
Lemma refresh_sensor_keeps (sensor_type : string) (value : pyval) :
  spec X
    (has_sensors <- dict_contains st "sensors" ;;
     run (if negb has_sensors then
            e <- new_dict ∅ ;; dict_setitem st "sensors" (HRef e)
          else ret tt) ;;
     sv <- dict_getitem st "sensors" ;;
     sd <- as_dict sv ;;
     has_type <- dict_contains sd sensor_type ;;
     run (if negb has_type then
            e <- new_dict ∅ ;; dict_setitem sd sensor_type (HRef e)
          else ret tt) ;;
     sv' <- dict_getitem st "sensors" ;;
     sd' <- as_dict sv' ;;
     ev <- dict_getitem sd' sensor_type ;;
     ed <- as_dict ev ;;
     dict_setitem ed "value" (HVal value))
    (fun _ => X) X.
Proof.
  eapply spec_bind; [apply spec_contains; auto | intros has_sensors].
  eapply spec_bind.
  { instantiate (1 := fun _ => X). destruct (negb has_sensors).
    - eapply spec_bind.
      + apply (spec_new_dict ∅ K
                 (fun f h => K h /\ f <> l /\ f <> st /\ h !! f = Some ∅)); [auto|].
        intros h f Hk Hf. pose proof Hk as (Hl & Hne & Hst & Hout).
        split; [apply kept_alloc; [assumption.. | apply flat_empty]|].
        split; [intros ->; apply Hf, elem_of_dom; eauto|].
        split; [intros ->; apply Hf, elem_of_dom; exact Hst|].
        apply lookup_insert_eq.
      + intros e. apply spec_setitem; [tauto|].
        intros h da (Hk & Hel & Hes & He) Hda.
        apply kept_set_ref; try assumption;
          [destruct Hk as (_ & Hne & _); congruence|].
        intros k' y Hy. apply entry_Some in Hy as (d & Hd & Hy).
        rewrite He in Hd. injection Hd as <-. rewrite lookup_empty in Hy.
        discriminate.
    - apply spec_ret. auto. }
  intros [].
  eapply spec_bind; [apply spec_getitem; auto | intros sv].
  eapply spec_bind; [apply spec_as_dict; tauto | intros sd].
  eapply spec_bind; [apply spec_contains; tauto | intros has_type].
  eapply spec_bind.
  { instantiate (1 := fun _ => X). destruct (negb has_type).
    - eapply spec_bind.
      + apply (spec_new_dict ∅ _
                 (fun f h => K h /\ entry h st "sensors" = Some (HRef sd)
                             /\ f <> l /\ f <> st /\ h !! f = Some ∅)); [tauto|].
        intros h f ((Hk & Hsv) & ->) Hf.
        pose proof Hk as (Hl & Hne & Hst & Hout).
        assert (Hfs : f <> st) by (intros ->; apply Hf, elem_of_dom; exact Hst).
        split; [apply kept_alloc; [assumption.. | apply flat_empty]|].
        split; [rewrite entry_insert_ne by congruence; exact Hsv|].
        split; [intros ->; apply Hf, elem_of_dom; eauto|].
        split; [exact Hfs|].
        apply lookup_insert_eq.
      + intros e. apply spec_setitem; [tauto|].
        intros h da (Hk & Hsd & Hel & Hes & He) Hda.
        pose proof Hk as (Hl & Hne & Hst & Hout).
        destruct (Hout sd Hsd) as (H1 & H2 & H3).
        apply kept_set_ref; try assumption.
        intros k' y Hy. apply entry_Some in Hy as (d & Hd & Hy).
        rewrite He in Hd. injection Hd as <-. rewrite lookup_empty in Hy.
        discriminate.
    - apply spec_ret. unfold on_heap. cbv beta. tauto. }
  intros [].
  eapply spec_bind; [apply spec_getitem; auto | intros sv'].
  eapply spec_bind; [apply spec_as_dict; tauto | intros sd'].
  eapply spec_bind; [apply spec_getitem; tauto | intros ev].
  eapply spec_bind; [apply spec_as_dict; tauto | intros ed].
  apply spec_setitem; [tauto|].
  intros h da ((((Hk & Hsv) & ->) & Hev) & ->) Hda.
  pose proof Hk as (Hl & Hne & Hst & Hout).
  destruct (Hout sd' Hsv) as (H1 & H2 & H3).
  apply kept_set_val; [exact Hk | eapply H3, Hev | exact Hda].
Qed.

(** The actuators' part of a refresh, one actuator. *)
Lemma refresh_actuator_keeps (actuator_type : string) (d : gmap string hval) :
  flat d ->
  spec (on_heap st (fun h => K h /\ actuators_apart st l h))
    (e <- new_dict d ;;
     av <- dict_getitem st "actuators" ;;
     ad <- as_dict av ;;
     dict_setitem ad actuator_type (HRef e))
    (fun _ => on_heap st (fun h => K h /\ actuators_apart st l h)) X.
Proof.
  intros Hflat.
  eapply spec_bind.
  { apply (spec_new_dict d _
             (fun f h => (K h /\ actuators_apart st l h)
                         /\ f <> l /\ f <> st /\ h !! f = Some d)); [tauto|].
    intros h f (Hk & Hap) Hf.
    pose proof Hk as (Hl & Hne & Hst & Hout).
    split; [split; [apply kept_alloc | apply apart_alloc]; assumption|].
    split; [intros ->; apply Hf, elem_of_dom; eauto|].
    split; [intros ->; apply Hf, elem_of_dom; exact Hst|].
    apply lookup_insert_eq. }
  intros e.
  eapply spec_bind; [apply spec_getitem; tauto | intros av].
  eapply spec_bind; [apply spec_as_dict; tauto | intros ad].
  apply spec_setitem; [tauto|].
  intros h da ((((Hk & Hap) & Hel & Hes & He) & Hav) & ->) Hda.
  split.
  - apply kept_set_ref; try assumption; [eapply Hap, Hav|].
    intros k' y Hy. apply entry_Some in Hy as (d' & Hd & Hy).
    rewrite He in Hd. injection Hd as <-. exfalso. exact (Hflat _ _ Hy).
  - apply apart_set; [exact Hap | exact Hda |]. intros x [= <-]. exact Hel.
Qed.

(** Copying an entry of the state to the top level. *)
Lemma refresh_alias_keeps (key group member : string) :
  key <> "sensors" ->
  spec X
    (g <- dict_get_or_empty st group ;;
     gd <- as_dict g ;;
     v <- dict_get_or_empty gd member ;;
     dict_setitem st key v)
    (fun _ => X) X.
Proof.
  intros Hkey.
  assert (Halloc : forall h f, K h -> f ∉ dom h -> K (<[f := ∅]> h)).
  { intros h f Hk Hf. apply kept_alloc; [assumption.. | apply flat_empty]. }
  eapply spec_bind; [apply (spec_get_or_empty st group K K); auto | intros g].
  eapply spec_bind; [apply spec_as_dict; auto | intros gd].
  eapply spec_bind.
  { apply (spec_get_or_empty gd member _ K); [tauto | | auto].
    intros h f [Hk _] Hf. auto. }
  intros v. apply spec_setitem; [auto|].
  intros h da Hk Hda. apply kept_set_state_key; assumption.
Qed.

Lemma flat_actuator_entry (a : Devices.Actuator) :
  flat {[ "state" := HVal (Devices._state a);
          "device_id" := HVal (VStr (Devices.device_id (Devices.device a)));
          "name" := HVal (VStr (Devices.name (Devices.device a))) ]}.
Proof.
  intros k x. rewrite !lookup_insert. repeat case_decide; try discriminate.
  rewrite lookup_singleton. case_decide; discriminate.
Qed.

Lemma spec_pre_pure {A} (phi : Prop) (P : SmartHub -> Prop) (m : M SmartHub A)
    (Q : A -> SmartHub -> Prop) (X0 : SmartHub -> Prop) :
  (forall w, P w -> phi) -> (phi -> spec P m Q X0) -> spec P m Q X0.
Proof. intros H1 H2 w Hw. apply (H2 (H1 w Hw)). exact Hw. Qed.

Lemma refresh_keeps : spec X _update_state (fun _ => X) X.
Proof.
  unfold _update_state.
  eapply spec_bind; [apply spec_gets | intros st'].
  apply (spec_pre_pure (st' = st)); [intros w ((Hs & _) & ->); exact Hs | intros ->].
  eapply spec_bind; [apply spec_gets | intros ss].
  eapply spec_bind.
  { eapply spec_weaken;
      [ apply (spec_for_each X); intros [] [sensor_type sensor];
        apply refresh_sensor_keeps
      | intros w ((Hw & _) & _); exact Hw
      | intros a w H; exact H ]. }
  intros [].
  eapply spec_bind.
  { apply (spec_new_dict ∅ K
             (fun f h => K h /\ f <> l /\ h !! f = Some ∅)); [auto|].
    intros h f Hk Hf. pose proof Hk as (Hl & Hne & Hst & Hout).
    split; [apply kept_alloc; [assumption.. | apply flat_empty]|].
    split; [intros ->; apply Hf, elem_of_dom; eauto|].
    apply lookup_insert_eq. }
  intros acts.
  eapply spec_bind.
  { apply (spec_setitem st "actuators" (HRef acts) _
             (fun h => K h /\ actuators_apart st l h)); [tauto|].
    intros h da (Hk & Hal & Ha) Hda. split.
    - apply kept_set_state_key; [assumption.. | discriminate].
    - intros ad Had. rewrite entry_insert_eq, lookup_insert_eq in Had.
      injection Had as <-. exact Hal. }
  intros [].
  eapply spec_bind; [apply spec_gets | intros actuators].
  eapply spec_bind.
  { eapply spec_weaken;
      [ apply (spec_for_each (on_heap st (fun h => K h /\ actuators_apart st l h)));
        intros [] [actuator_type actuator];
        apply refresh_actuator_keeps, flat_actuator_entry
      | intros w (Hw & _); exact Hw
      | intros a w H; exact H ]. }
  intros []. cbv zeta.
  eapply spec_bind.
  { eapply spec_weaken;
      [ apply (refresh_alias_keeps "temperature" "sensors" "temperature");
        discriminate
      | intros w [Hs [Hk _]]; split; assumption
      | intros a w H; exact H ]. }
  intros [].
  eapply spec_bind; [apply refresh_alias_keeps; discriminate | intros []].
  eapply spec_bind; [apply refresh_alias_keeps; discriminate | intros []].
  eapply spec_bind; [apply refresh_alias_keeps; discriminate | intros []].
  eapply spec_bind; [apply refresh_alias_keeps; discriminate | intros []].
  apply refresh_alias_keeps. discriminate.
Qed.
End RefreshFrame.

Lemma refresh_keeps_object
    (hub : Hub.SmartHub) (l : Hub.loc) (d0 : gmap string Hub.hval) :
  kept (Hub.state hub) l d0 (Hub.heap hub) ->
  Hub.heap (snd (Hub._update_state hub)) !! l = Some d0.
Proof.
  intros Hk.
  pose proof (refresh_keeps (Hub.state hub) l d0 hub (conj eq_refl Hk)) as H.
  destruct (Hub._update_state hub) as [[[]|e] w']; simpl; apply H.
Qed.

(** X19.  A refresh of the state writes only into the state object, the
    dictionary under its ["sensors"] key and the per-sensor dictionaries
    that dictionary refers to (and into dictionaries it creates): every
    other dictionary object keeps its contents, whether the refresh
    returns or raises. *)
Theorem refresh_writes_only_sensor_dictionaries
    (hub : Hub.SmartHub) (l : Hub.loc) (d0 : gmap string Hub.hval) :
  kept (Hub.state hub) l d0 (Hub.heap hub) ->
  Hub.heap (snd (Hub._update_state hub)) !! l = Some d0.
Proof.
  intros Hk.
  pose proof (refresh_keeps (Hub.state hub) l d0 hub (conj eq_refl Hk)) as H.
  destruct (Hub._update_state hub) as [[[]|e] w']; simpl; apply H.
Qed.

(** X20.  The dictionary that [get_state] returns is a new object holding
    the entries of the state object at the time of the call, and no later
    refresh changes it, whatever the devices report then: the top-level
    entries of a snapshot are frozen.  (The state object and the
    dictionaries it refers to under ["sensors"] exist, as the hub builds
    them.) *)
Theorem snapshot_top_level_survives_refresh
    (hub : Hub.SmartHub) (d : gmap string Hub.hval)
    (ss : list (string * Devices.Sensor))
    (acts : list (string * Devices.Actuator)) :
  Hub.heap hub !! Hub.state hub = Some d ->
  sensors_closed (Hub.state hub) (Hub.heap hub) ->
  exists snap hub1,
    Hub.get_state hub = (Ok snap, hub1)
    /\ (snap ∉ dom (Hub.heap hub))
    /\ Hub.heap hub1 !! snap = Some d
    /\ Hub.heap (snd (Hub._update_state (with_devices ss acts hub1))) !! snap
       = Some d.
Proof.
  intros Hst (Hsome & Hclosed).
  set (snap := fresh (dom (Hub.heap hub))).
  exists snap, (Hub.with_heap (<[snap := d]> (Hub.heap hub)) hub).
  assert (Hfresh : snap ∉ dom (Hub.heap hub)) by apply is_fresh.
  assert (Hne : forall a, is_Some (Hub.heap hub !! a) -> a <> snap).
  { intros a Ha ->. apply Hfresh, elem_of_dom, Ha. }
  split.
  { unfold Hub.get_state, bind, gets, Hub.dict_copy, bind, Hub.the_dict.
    rewrite Hst. reflexivity. }
  split; [exact Hfresh|].
  split; [apply lookup_insert_eq|].
  apply refresh_keeps_object. simpl.
  split; [apply lookup_insert_eq|].
  split; [intros Heq; apply (Hne _ Hsome); congruence|].
  split; [rewrite lookup_insert_ne by (apply not_eq_sym, Hne, Hsome); exact Hsome|].
  intros sd Hsd. rewrite entry_insert_ne in Hsd by (apply Hne, Hsome).
  destruct (Hclosed sd Hsd) as (H1 & H2 & H3).
  split; [apply Hne, H2|]. split; [exact H1|].
  intros t ed Hed. rewrite entry_insert_ne in Hed by (apply Hne, H2).
  apply Hne. eapply H3, Hed.
Qed.

Lemma snapshot_top_level_survives_refresh_witness :
  exists snap hub1,
    Hub.get_state refreshed_hub = (Ok snap, hub1)
    /\ (snap ∉ dom (Hub.heap refreshed_hub))
    /\ Hub.heap hub1 !! snap = Some state_object
    /\ Hub.heap (snd (Hub._update_state
                        (with_devices [("temperature", temperature_sensor (VFloat 21))]
                           [("heater", heater_actuator)] hub1))) !! snap
       = Some state_object.
Proof.
  apply (snapshot_top_level_survives_refresh refreshed_hub state_object
           [("temperature", temperature_sensor (VFloat 21))]
           [("heater", heater_actuator)]).
  - reflexivity.
  - split; [eexists; reflexivity|].
    intros sd Hsd. vm_compute in Hsd. injection Hsd as <-.
    split; [discriminate|]. split; [eexists; reflexivity|].
    intros t ed Hed. apply entry_Some in Hed as (d & Hd & Hed).
    assert (H1 : Some ({[ "temperature" := Hub.HRef 2%nat ]} : gmap string Hub.hval)
                 = Some d) by (rewrite <- Hd; reflexivity).
    injection H1 as <-.
    apply lookup_singleton_Some in Hed as [_ [= <-]].
    eexists; reflexivity.
Defined.

Lemma refresh_writes_only_sensor_dictionaries_witness :
  Hub.heap (snd (Hub._update_state
                   (Hub.with_heap (<[1%nat := ∅]> (Hub.heap small_hub)) small_hub)))
    !! 1%nat = Some ∅.
Proof.
  apply (refresh_writes_only_sensor_dictionaries
           (Hub.with_heap (<[1%nat := ∅]> (Hub.heap small_hub)) small_hub) 1%nat ∅).
  split; [reflexivity|]. split; [discriminate|].
  split; [eexists; reflexivity|].
  intros sd Hsd. vm_compute in Hsd. discriminate.
Defined.


(* ===================================================================== *)
(** ** Sensors: the simulated values stay in range *)
(* ===================================================================== *)

Lemma Qlt_bool_false (a b : Q) : Qlt_bool a b = false -> (b <= a)%Q.
Proof.
  unfold Qlt_bool. intros H. apply negb_false_iff in H.
  apply Qle_bool_iff, H.
Qed.

Lemma py_max_lower (a b : Q) : (a <= py_max a b)%Q.
Proof.
  unfold py_max. destruct (Qlt_bool a b) eqn:E.
  - apply Qlt_le_weak, Qlt_bool_iff, E.
  - apply Qle_refl.
Qed.

Lemma py_max_upper (a b c : Q) : (a <= c)%Q -> (b <= c)%Q -> (py_max a b <= c)%Q.
Proof. unfold py_max. destruct (Qlt_bool a b); auto. Qed.

Lemma py_min_upper (a b : Q) : (py_min a b <= a)%Q.
Proof.
  unfold py_min. destruct (Qlt_bool b a) eqn:E.
  - apply Qlt_le_weak, Qlt_bool_iff, E.
  - apply Qle_refl.
Qed.

Lemma py_min_lower (a b c : Q) : (c <= a)%Q -> (c <= b)%Q -> (c <= py_min a b)%Q.
Proof. unfold py_min. destruct (Qlt_bool b a); auto. Qed.

(** X21.  When the bounds are in order, a sample leaves the simulated
    temperature (light level) between [min_value] and [max_value],
    whatever the random change and however the float addition rounds; the
    bounds themselves are not changed. *)
Theorem read_sensor_stays_in_range
    (fadd : Q -> Q -> Q) (round2 : Q -> Q) (change : Q)
    (ts : TemperatureSensor.t) (ls : LightSensor.t) :
  (TemperatureSensor.min_value ts <= TemperatureSensor.max_value ts)%Q ->
  (LightSensor.min_value ls <= LightSensor.max_value ls)%Q ->
  let ts' := snd (TemperatureSensor._read_sensor fadd round2 change ts) in
  let ls' := snd (LightSensor._read_sensor fadd round2 change ls) in
  (TemperatureSensor.min_value ts <= TemperatureSensor.current_temp ts')%Q
  /\ (TemperatureSensor.current_temp ts' <= TemperatureSensor.max_value ts)%Q
  /\ TemperatureSensor.min_value ts' = TemperatureSensor.min_value ts
  /\ TemperatureSensor.max_value ts' = TemperatureSensor.max_value ts
  /\ (LightSensor.min_value ls <= LightSensor.current_level ls')%Q
  /\ (LightSensor.current_level ls' <= LightSensor.max_value ls)%Q
  /\ LightSensor.min_value ls' = LightSensor.min_value ls
  /\ LightSensor.max_value ls' = LightSensor.max_value ls.
Proof.
  intros Ht Hl. cbv zeta. simpl.
  repeat split; try apply py_max_lower;
    (apply py_max_upper; [assumption | apply py_min_upper]).
Qed.

Lemma read_sensor_stays_in_range_witness :
  let ts := TemperatureSensor.mk (temperature_sensor (VFloat 20)) 20 15 25 2 in
  let ls := LightSensor.mk (temperature_sensor (VFloat 50)) 50 0 100 10 in
  let ts' := snd (TemperatureSensor._read_sensor Qplus (fun x => x) 7 ts) in
  let ls' := snd (LightSensor._read_sensor Qplus (fun x => x) 7 ls) in
  (15 <= TemperatureSensor.current_temp ts')%Q
  /\ (TemperatureSensor.current_temp ts' <= 25)%Q
  /\ TemperatureSensor.min_value ts' = 15%Q
  /\ TemperatureSensor.max_value ts' = 25%Q
  /\ (0 <= LightSensor.current_level ls')%Q
  /\ (LightSensor.current_level ls' <= 100)%Q
  /\ LightSensor.min_value ls' = 0%Q
  /\ LightSensor.max_value ls' = 100%Q.
Proof.
  apply (read_sensor_stays_in_range Qplus (fun x => x) 7
           (TemperatureSensor.mk (temperature_sensor (VFloat 20)) 20 15 25 2)
           (LightSensor.mk (temperature_sensor (VFloat 50)) 50 0 100 10));
    vm_compute; discriminate.
Defined.

(** X22.  The simulated effect of a running heater (of lights that are
    on) never takes the temperature (light level) above [max_value], and
    the effect of a heater (of lights) that is off never takes it below
    [min_value]. *)
Theorem simulated_effects_respect_bounds
    (fadd fsub : Q -> Q -> Q) (on : pyval)
    (ts : TemperatureSensor.t) (ls : LightSensor.t) :
  let ts' := TemperatureSensor.simulate_heating_effect fadd fsub on ts in
  let ls' := LightSensor.simulate_light_effect fadd fsub on ls in
  (if truthy on
   then (TemperatureSensor.current_temp ts' <= TemperatureSensor.max_value ts)%Q
        /\ (LightSensor.current_level ls' <= LightSensor.max_value ls)%Q
   else (TemperatureSensor.min_value ts <= TemperatureSensor.current_temp ts')%Q
        /\ (LightSensor.min_value ls <= LightSensor.current_level ls')%Q).
Proof.
  cbv zeta.
  unfold TemperatureSensor.simulate_heating_effect,
    LightSensor.simulate_light_effect.
  destruct (truthy on); simpl; split;
    first [apply py_min_upper | apply py_max_lower].
Qed.


Section StoreReading.
Import Hub Channel.

Lemma store_reading_run (h : SmartHub) (t : string) (dR dst : gmap string hval) :
  heap h !! state h = Some dst ->
  (dst !! "sensors" = None
   \/ exists sd dsd, dst !! "sensors" = Some (HRef sd) /\ sd <> state h
                     /\ heap h !! sd = Some dsd) ->
  exists h',
    (st <- gets state ;;
     has_sensors <- dict_contains st "sensors" ;;
     run (if negb has_sensors then
            e <- new_dict ∅ ;; dict_setitem st "sensors" (HRef e)
          else ret tt) ;;
     e <- new_dict dR ;;
     sv <- dict_getitem st "sensors" ;;
     sd <- as_dict sv ;;
     dict_setitem sd t (HRef e)) h = (Ok tt, h')
    /\ state h' = state h
    /\ forall k, read_path (heap h') (state h) ["sensors"; t; k] = dR !! k.
Proof.
  intros Hst Hcase.
  assert (Hstfresh : forall hp : Heap, is_Some (hp !! state h) -> fresh (dom hp) <> state h).
  { intros hp. apply fresh_not_in. }
  unfold bind at 1, gets at 1.
  unfold bind at 1, dict_contains, bind at 1, the_dict. rewrite Hst. unfold ret.
  destruct Hcase as [Hnone | (sd & dsd & Hsd & Hne & Hdsd)].
  - rewrite Hnone. simpl negb. cbv iota.
    unfold bind at 1. unfold bind at 1. unfold new_dict at 1. simpl.
    set (e := fresh (dom (heap h))).
    assert (He : e <> state h) by (apply Hstfresh; eauto).
    unfold dict_setitem, bind at 1, the_dict. simpl.
    rewrite lookup_insert_ne by exact He. rewrite Hst. unfold modify. simpl.
    set (h2 := <[state h := <["sensors" := HRef e]> dst]> (<[e := ∅]> (heap h))).
    unfold bind at 1, new_dict at 1. simpl. fold h2.
    set (f := fresh (dom h2)).
    assert (Hf : f <> state h).
    { apply fresh_not_in. unfold h2. rewrite lookup_insert_eq. eauto. }
    assert (Hfe : f <> e).
    { apply fresh_not_in. unfold h2. rewrite lookup_insert_ne by congruence.
      rewrite lookup_insert_eq. eauto. }
    assert (Hh2st : h2 !! state h = Some (<["sensors" := HRef e]> dst)).
    { unfold h2. apply lookup_insert_eq. }
    assert (Hh2e : h2 !! e = Some ∅).
    { unfold h2. rewrite lookup_insert_ne by congruence. apply lookup_insert_eq. }
    unfold bind at 1, dict_getitem, bind at 1, the_dict. simpl.
    rewrite lookup_insert_ne by exact Hf. rewrite Hh2st.
    rewrite lookup_insert_eq. unfold ret.
    unfold bind at 1, as_dict, ret.
    unfold bind at 1, the_dict. simpl.
    rewrite lookup_insert_ne by exact Hfe. rewrite Hh2e. simpl.
    eexists. split; [reflexivity|]. simpl. split; [reflexivity|].
    intros k.
    rewrite lookup_insert_ne by congruence.
    rewrite lookup_insert_ne by exact Hf.
    rewrite Hh2st. simpl.
    rewrite lookup_insert_eq. simpl.
    rewrite lookup_insert_eq. simpl. rewrite lookup_insert_eq. simpl.
    rewrite lookup_insert_ne by congruence. rewrite lookup_insert_eq. simpl.
    destruct (dR !! k); reflexivity.
  - rewrite Hsd. simpl negb. cbv iota.
    unfold bind at 1.
    unfold bind at 1, new_dict at 1. simpl.
    set (f := fresh (dom (heap h))).
    assert (Hf : f <> state h) by (apply Hstfresh; eauto).
    assert (Hfs : f <> sd) by (apply fresh_not_in; eauto).
    unfold bind at 1, dict_getitem, bind at 1, the_dict. simpl.
    rewrite lookup_insert_ne by exact Hf. rewrite Hst, Hsd. unfold ret.
    unfold bind at 1, as_dict, ret.
    unfold dict_setitem, bind at 1, the_dict. simpl.
    rewrite lookup_insert_ne by exact Hfs. rewrite Hdsd. unfold modify. simpl.
    eexists. split; [reflexivity|]. simpl. split; [reflexivity|].
    intros k.
    rewrite lookup_insert_ne by congruence.
    rewrite lookup_insert_ne by exact Hf. rewrite Hst. simpl. rewrite Hsd. simpl.
    rewrite lookup_insert_eq. simpl. rewrite lookup_insert_eq. simpl.
    rewrite lookup_insert_ne by congruence. rewrite lookup_insert_eq. simpl.
    destruct (dR !! k); reflexivity.
Qed.
End StoreReading.

(* ===================================================================== *)
(** ** The reading channel *)
(* ===================================================================== *)

Section ChannelFacts.
Import Hub Channel.
Variable time_at : nat -> Q.

Lemma process_one_reading_run (w : HubIO) data rest :
  sensor_data_queue w = data :: rest ->
  exists w',
    process_one_reading time_at w = (Ok tt, w')
    /\ sensor_data_queue w' = rest
    /\ (find_sensor_type (sensors (hub w)) (reading_sensor_id data) = None ->
        hub w' = hub w /\ hub_log w' = hub_log w).
Proof.
  intros Hq. unfold process_one_reading, try_except, bind at 1, get_nowait.
  rewrite Hq. cbv zeta. unfold bind at 1, time_time at 1. simpl.
  unfold bind at 1, gets at 1. simpl. fold (reading_sensor_id data).
  destruct (find_sensor_type (sensors (hub w)) (reading_sensor_id data))
    as [sensor_type|].
  - destruct (negb (String.eqb sensor_type "")).
    + unfold on_hub. simpl.
      match goal with |- context [let '(_, _) := ?m (hub w) in _] =>
        destruct (m (hub w)) as [[[]|e] h] end; simpl.
      * eexists. split; [reflexivity|]. split; [reflexivity | discriminate].
      * unfold logger_error, modify. simpl.
        eexists. split; [reflexivity|]. split; [reflexivity | discriminate].
    + eexists. split; [reflexivity|]. split; [reflexivity | discriminate].
  - eexists. split; [reflexivity|]. simpl. auto.
Qed.

Lemma drain_run {X0} (ks : list X0) : forall w,
  length ks = length (sensor_data_queue w) ->
  exists w',
    for_each ks tt (fun _ _ => process_one_reading time_at) w = (Ok tt, w')
    /\ sensor_data_queue w' = []
    /\ (Forall (fun data =>
                  find_sensor_type (sensors (hub w)) (reading_sensor_id data) = None)
               (sensor_data_queue w) ->
        hub w' = hub w /\ hub_log w' = hub_log w).
Proof.
  induction ks as [|k ks IH]; intros w Hlen; simpl.
  - exists w. destruct (sensor_data_queue w); [auto | discriminate].
  - destruct (sensor_data_queue w) as [|data rest] eqn:Hq; [discriminate|].
    destruct (process_one_reading_run w data rest Hq) as (w1 & Hrun & Hq1 & Hsame).
    rewrite (bind_ok _ _ _ _ _ Hrun).
    destruct (IH w1) as (w' & Hrun' & Hq' & Hsame').
    { rewrite Hq1. simpl in Hlen. lia. }
    exists w'. split; [exact Hrun'|]. split; [exact Hq'|].
    intros Hall. apply Forall_cons in Hall as [Hd Hrest].
    destruct (Hsame Hd) as [Hh Hl]. rewrite Hq1, Hh in Hsame'.
    destruct (Hsame' Hrest) as [Hh' Hl']. split; congruence.
Qed.


(** X24.  Readings whose [sensor_id] is the [device_id] of no sensor of
    the hub are dropped without a trace: the hub's state and the log stay
    as they are. *)
Theorem stray_readings_are_dropped (w : HubIO) :
  Forall (fun data =>
            find_sensor_type (sensors (hub w)) (reading_sensor_id data) = None)
         (sensor_data_queue w) ->
  exists w',
    _process_sensor_data time_at w = (Ok tt, w')
    /\ hub w' = hub w /\ hub_log w' = hub_log w.
Proof.
  intros Hall. unfold _process_sensor_data, bind at 1, gets at 1.
  destruct (drain_run (sensor_data_queue w) w eq_refl) as (w' & Hrun & _ & Hsame).
  exists w'. split; [exact Hrun | apply Hsame, Hall].
Qed.
(** X25.  A reading whose [sensor_id] is the [device_id] of a sensor of the
    hub is stored under that sensor's key: after the turn
    [state['sensors'][sensor_type]] holds the reading's value, sensor id
    and sensor name, and its timestamp, or the time of the clock when the
    reading carries none.  Nothing is logged. *)
Theorem known_reading_is_stored (w : HubIO) data rest sensor_type dst :
  sensor_data_queue w = data :: rest ->
  find_sensor_type (sensors (hub w)) (reading_sensor_id data) = Some sensor_type ->
  sensor_type <> "" ->
  heap (hub w) !! state (hub w) = Some dst ->
  (dst !! "sensors" = None
   \/ exists sd dsd, dst !! "sensors" = Some (HRef sd) /\ sd <> state (hub w)
                     /\ heap (hub w) !! sd = Some dsd) ->
  exists w',
    process_one_reading time_at w = (Ok tt, w')
    /\ sensor_data_queue w' = rest
    /\ hub_log w' = hub_log w
    /\ let entry k :=
         read_path (heap (hub w')) (state (hub w')) ["sensors"; sensor_type; k] in
       entry "value" = Some (HVal (default VNone (data !! "value")))
       /\ entry "timestamp"
          = Some (HVal (default (VFloat (time_at (clock_reads w)))
                                (data !! "timestamp")))
       /\ entry "sensor_id" = Some (HVal (reading_sensor_id data))
       /\ entry "sensor_name"
          = Some (HVal (default (VStr "") (data !! "sensor_name"))).
Proof.
  intros Hq Hfind Hkey Hst Hshape.
  unfold process_one_reading, try_except, bind at 1, get_nowait.
  rewrite Hq. cbv zeta. unfold bind at 1, time_time at 1. simpl.
  unfold bind at 1, gets at 1. simpl. fold (reading_sensor_id data).
  rewrite Hfind.
  assert (Hnz : negb (String.eqb sensor_type "") = true).
  { apply negb_true_iff, String.eqb_neq, Hkey. }
  rewrite Hnz. unfold on_hub. simpl.
  match goal with |- context [new_dict ?d] =>
    match d with ∅ => fail 1 | _ => set (dR := d) end end.
  destruct (store_reading_run (hub w) sensor_type dR dst Hst Hshape)
    as (h' & Hrun & Hstate & Hread).
  match goal with |- context [let '(_, _) := ?m (hub w) in _] =>
    change (m (hub w)) with
      ((st <- gets state ;;
        has_sensors <- dict_contains st "sensors" ;;
        run (if negb has_sensors then
               e <- new_dict ∅ ;; dict_setitem st "sensors" (HRef e)
             else ret tt) ;;
        e <- new_dict dR ;;
        sv <- dict_getitem st "sensors" ;;
        sd <- as_dict sv ;;
        dict_setitem sd sensor_type (HRef e)) (hub w)) end.
  rewrite Hrun. cbv beta iota.
  eexists. split; [reflexivity|]. cbn [hub sensor_data_queue hub_log].
  split; [reflexivity|]. split; [reflexivity|].
  cbv zeta. simpl in Hread. rewrite Hstate, !Hread. unfold dR. repeat split.
Qed.
End ChannelFacts.

Lemma stray_readings_are_dropped_witness :
  exists w',
    Channel._process_sensor_data frozen_clock
      (hub_with_channel [stray_reading] small_hub) = (Ok tt, w')
    /\ Channel.hub w' = small_hub /\ Channel.hub_log w' = [].
Proof.
  apply (stray_readings_are_dropped frozen_clock
           (hub_with_channel [stray_reading] small_hub)).
  repeat constructor.
Defined.

Lemma known_reading_is_stored_witness :
  exists w',
    Channel.process_one_reading frozen_clock
      (hub_with_channel [temperature_reading] small_hub) = (Ok tt, w')
    /\ Channel.sensor_data_queue w' = []
    /\ Channel.hub_log w' = []
    /\ let entry k :=
         Hub.read_path (Hub.heap (Channel.hub w')) (Hub.state (Channel.hub w'))
                       ["sensors"; "temperature"; k] in
       entry "value" = Some (Hub.HVal (VFloat (43 # 2)))
       /\ entry "timestamp" = Some (Hub.HVal (VFloat 1700000000))
       /\ entry "sensor_id" = Some (Hub.HVal (VStr "temp_01"))
       /\ entry "sensor_name" = Some (Hub.HVal (VStr "Temperature Sensor")).
Proof.
  apply (known_reading_is_stored frozen_clock
           (hub_with_channel [temperature_reading] small_hub)
           temperature_reading [] "temperature" ∅).
  - reflexivity.
  - vm_compute. reflexivity.
  - discriminate.
  - reflexivity.
  - left. reflexivity.
Defined.

(* ===================================================================== *)
(** ** Starting and stopping the hub *)
(* ===================================================================== *)

Section HubLifecycle.
Import Devices Hub HubThreads.

Lemma start_run (d : Device) (tr : list Event) :
  Devices.start (mkDW d tr) = (Ok tt, mkDW (started d) (tr ++ start_events d)).
Proof.
  unfold started, start_events, idle.
  destruct d as [i n e r t]. simpl.
  unfold Devices.start, bind, gets, logger, modify, set_running, set_thread,
    Thread_start. simpl.
  destruct e, r; simpl; try reflexivity.
  rewrite <- app_assoc. reflexivity.
Qed.

Lemma device_stop_run (d : Device) (tr : list Event) :
  Devices.stop (mkDW d tr) = (Ok tt, mkDW (stopped d) (tr ++ stop_events d)).
Proof.
  unfold stopped, stop_events, Devices.stop, bind, gets, logger, modify,
    set_running, Thread_join, ret. simpl.
  destruct (_thread d); reflexivity.
Qed.

(** A method that never raises runs on every device of the dictionary. *)
Lemma for_each_device_run {D} (dev : D -> Device) (upd : Device -> D -> D)
    (method : M DeviceWorld unit) (after : Device -> Device)
    (does : Device -> list Event) :
  (forall d tr, method (mkDW d tr) = (Ok tt, mkDW (after d) (tr ++ does d))) ->
  forall ds tr,
    for_each_device dev upd method ds tr =
      (Ok tt, (map (fun p => (fst p, upd (after (dev (snd p))) (snd p))) ds,
               tr ++ flat_map (fun p => does (dev (snd p))) ds)).
Proof.
  intros Hm. induction ds as [|[key d] rest IH]; intros tr; simpl.
  - rewrite app_nil_r. reflexivity.
  - rewrite Hm, IH. simpl. rewrite <- app_assoc. reflexivity.
Qed.

Lemma threads_of_start_events (ds : list Device) :
  threads_started (flat_map start_events ds) = map loop_thread (filter idle ds).
Proof.
  induction ds as [|d ds IH]; [reflexivity|].
  simpl. rewrite threads_started_app, IH.
  unfold start_events, idle. destruct d as [i n e r t]. simpl.
  destruct e, r; reflexivity.
Qed.

Lemma threads_of_stop_events (ds : list Device) :
  threads_started (flat_map stop_events ds) = [].
Proof. induction ds as [|d ds IH]; [reflexivity | exact IH]. Qed.

Lemma flat_map_devices {D} (dev : D -> Device) (does : Device -> list Event)
    (ds : list (string * D)) :
  flat_map (fun p => does (dev (snd p))) ds
  = flat_map does (map (fun p => dev (snd p)) ds).
Proof. induction ds as [|p ds IH]; simpl; [reflexivity | now rewrite IH]. Qed.

Lemma hub_devices_each_device (after : Device -> Device) (h : SmartHub) :
  hub_devices (each_device after h) = map after (hub_devices h).
Proof.
  unfold hub_devices, each_device. simpl.
  rewrite map_app, !map_map. reflexivity.
Qed.

Lemma start_from_rest_run (w : HubProc) :
  _running w = false ->
  HubThreads.start w =
    (Ok tt,
     mkHP (each_device started (hub w)) true (Some controller)
          (hub_trace w
           ++ [ELog (Log INFO "Starting Smart Home Hub...")]
           ++ flat_map start_events (hub_devices (hub w))
           ++ [EThreadStart controller;
               ELog (Log INFO "Smart Home Hub started successfully")])).
Proof.
  intros Hr. unfold HubThreads.start, bind at 1, gets at 1. rewrite Hr.
  unfold bind at 1, hub_logger at 1, modify at 1.
  unfold bind at 1, set_hub_running, modify at 1.
  unfold bind at 1, for_each_sensor. cbn [hub hub_trace _running _controller_thread].
  rewrite (for_each_device_run _ _ _ started start_events start_run).
  unfold bind at 1, for_each_actuator.
  cbn [hub hub_trace _running _controller_thread with_sensors actuators].
  rewrite (for_each_device_run _ _ _ started start_events start_run).
  unfold bind, set_controller_thread, controller_start, hub_logger, modify.
  cbn [hub hub_trace _running _controller_thread].
  rewrite !flat_map_devices.
  unfold hub_devices. rewrite flat_map_app, <- !app_assoc. reflexivity.
Qed.

Lemma hub_stop_run (w : HubProc) :
  HubThreads.stop w =
    (Ok tt,
     mkHP (each_device stopped (hub w)) false (_controller_thread w)
          (hub_trace w
           ++ [ELog (Log INFO "Stopping Smart Home Hub...")]
           ++ flat_map stop_events (hub_devices (hub w))
           ++ [ELog (Log INFO "Smart Home Hub stopped")])).
Proof.
  unfold HubThreads.stop.
  unfold bind at 1, hub_logger at 1, modify at 1.
  unfold bind at 1, set_hub_running, modify at 1.
  unfold bind at 1, for_each_sensor. cbn [hub hub_trace _running _controller_thread].
  rewrite (for_each_device_run _ _ _ stopped stop_events device_stop_run).
  unfold bind at 1, for_each_actuator.
  cbn [hub hub_trace _running _controller_thread with_sensors actuators].
  rewrite (for_each_device_run _ _ _ stopped stop_events device_stop_run).
  unfold bind at 1, gets at 1. cbn [_controller_thread].
  rewrite !flat_map_devices.
  assert (Hjoin : forall (t : option Thread) (k : M HubProc unit) (x : HubProc),
            bind match t with
                 | Some t => controller_join t 5
                 | None => ret tt
                 end (fun _ => k) x = k x).
  { intros [t|] k x; reflexivity. }
  rewrite Hjoin. unfold hub_logger, modify.
  cbn [hub hub_trace _running _controller_thread].
  unfold hub_devices. rewrite flat_map_app, <- !app_assoc. reflexivity.
Qed.

Lemma started_runs_if_enabled (d : Device) :
  enabled d = true -> Devices._running (started d) = true.
Proof.
  unfold started, idle. intros He. rewrite He.
  destruct (Devices._running d) eqn:Hr; simpl; [exact Hr | reflexivity].
Qed.

(** X26.  [SmartHub.start] on a hub that is not running sets the running
    flag, leaves every enabled device running, and starts one thread for
    each enabled device whose loop was not running, sensors first, and
    then the controller thread. *)
Theorem hub_start_launches_idle_devices (w : HubProc) :
  _running w = false ->
  exists w',
    HubThreads.start w = (Ok tt, w')
    /\ _running w' = true
    /\ _controller_thread w' = Some controller
    /\ Forall (fun d => enabled d = true -> Devices._running d = true)
              (hub_devices (hub w'))
    /\ threads_started (hub_trace w') =
       threads_started (hub_trace w)
       ++ map loop_thread (filter idle (hub_devices (hub w)))
       ++ [controller].
Proof.
  intros Hr. rewrite (start_from_rest_run w Hr).
  eexists. split; [reflexivity|]. cbn [hub hub_trace _running _controller_thread].
  split; [reflexivity|]. split; [reflexivity|]. split.
  - rewrite hub_devices_each_device. apply Forall_forall.
    intros d Hd He. apply list_elem_of_fmap in Hd as (d0 & -> & _).
    apply started_runs_if_enabled.
    revert He. unfold started. destruct (idle d0) eqn:Hi; [|auto].
    unfold idle in Hi. apply andb_true_iff in Hi as [He _]. auto.
  - rewrite !threads_started_app, threads_of_start_events. reflexivity.
Qed.

(** X27.  [SmartHub.stop] never raises, whatever the hub was doing: the
    running flags of the hub and of every device are cleared, the thread
    handles stay, and no thread is started. *)
Theorem hub_stop_halts_every_device (w : HubProc) :
  exists w',
    HubThreads.stop w = (Ok tt, w')
    /\ _running w' = false
    /\ Forall (fun d => Devices._running d = false) (hub_devices (hub w'))
    /\ map _thread (hub_devices (hub w')) = map _thread (hub_devices (hub w))
    /\ _controller_thread w' = _controller_thread w
    /\ threads_started (hub_trace w') = threads_started (hub_trace w).
Proof.
  rewrite hub_stop_run.
  eexists. split; [reflexivity|]. cbn [hub hub_trace _running _controller_thread].
  split; [reflexivity|]. rewrite hub_devices_each_device. split.
  - apply Forall_forall. intros d Hd.
    apply list_elem_of_fmap in Hd as (d0 & -> & _). reflexivity.
  - split; [rewrite map_map; reflexivity|]. split; [reflexivity|].
    rewrite !threads_started_app, threads_of_stop_events. simpl.
    rewrite app_nil_r. reflexivity.
Qed.

Lemma filter_idle_stopped (ds : list Device) :
  filter idle (map stopped ds) = map stopped (filter enabled ds).
Proof.
  induction ds as [|d ds IH]; [reflexivity|].
  simpl. rewrite !filter_cons, IH.
  destruct d as [i n e r t]. destruct e; reflexivity.
Qed.

(** X28.  A hub that is stopped and started again gets new threads: one
    for every enabled device, also for one whose earlier loop was
    running when [stop] was called, and a new controller thread. *)
Theorem hub_restart_launches_every_enabled_device (w : HubProc) :
  exists w',
    (run HubThreads.stop ;; HubThreads.start) w = (Ok tt, w')
    /\ _running w' = true
    /\ threads_started (hub_trace w') =
       threads_started (hub_trace w)
       ++ map loop_thread (filter enabled (hub_devices (hub w)))
       ++ [controller].
Proof.
  rewrite (bind_ok _ _ _ _ _ (hub_stop_run w)).
  rewrite start_from_rest_run by reflexivity.
  eexists. split; [reflexivity|]. cbn [hub hub_trace _running _controller_thread].
  split; [reflexivity|].
  rewrite !threads_started_app, threads_of_start_events, threads_of_stop_events.
  rewrite hub_devices_each_device, filter_idle_stopped, map_map. simpl.
  rewrite app_nil_r. reflexivity.
Qed.
End HubLifecycle.

Lemma hub_start_launches_idle_devices_witness :
  exists w',
    HubThreads.start small_hub_at_rest = (Ok tt, w')
    /\ HubThreads._running w' = true
    /\ HubThreads._controller_thread w' = Some HubThreads.controller
    /\ Forall (fun d => Devices.enabled d = true -> Devices._running d = true)
              (hub_devices (HubThreads.hub w'))
    /\ threads_started (HubThreads.hub_trace w') =
       [Devices.mkThread "temp_01" true; Devices.mkThread "heater_01" true;
        HubThreads.controller].
Proof.
  apply (hub_start_launches_idle_devices small_hub_at_rest). reflexivity.
Defined.
